(** * Klassenbuch: layout reconstruction of a "Themendokumentation" page

    A shallow embedding of [klassenbuch_pdf_parsing.py]: header parsing
    ([parse_date], [parse_header]), the row extraction of
    [parse_rows_from_page] with its helpers [_words_in_col] and
    [_first_dozent], and the properties the specification states about them.

    Conventions of the embedding.
    - A Python [str] is a [string]; a character is a code point below 256
      (Latin-1, which covers the German text of the template).  The
      character classes ([str.isspace], [str.isdigit], the [re] classes
      [\s], [\d], [\w]) are those of Python 3 on that range.
    - A pdfplumber coordinate is an exact rational number ([Q]); the
      rounding of binary floating point is outside the model.
    - A raised exception is a value of [exn]; a function that can raise
      returns a [result].
    - Where the platform shows, it is CPython 3.11 on Linux: [strftime]
      writes a year below 1000 without zeros before it, and
      [os.path.join] joins with a slash. *)

From Stdlib Require Import List Bool Arith ZArith QArith Lia Lqa.
From Stdlib Require Import Ascii String Sorted Permutation.
From Stdlib Require Import DecimalString.
Import ListNotations.

Local Close Scope Q_scope.
Local Open Scope string_scope.
Local Open Scope list_scope.

(** ** Exceptions and results *)

(** Every exception the modelled code can raise is a Python [ValueError];
    the constructors tell the raising sites apart. *)
Inductive exn : Type :=
| ValueError (msg : string)        (* [raise ValueError(msg)] in the source *)
| IntLiteralError (s : string)     (* [ValueError] raised by [int(s)] *)
| StrptimeError (s : string)       (* [ValueError] raised by [datetime.strptime] *)
| UnpackError.                     (* [ValueError] raised by tuple unpacking *)

Inductive result (A : Type) : Type :=
| Ok (a : A)
| Err (e : exn).
Arguments Ok {A} a.
Arguments Err {A} e.

Definition bind {A B : Type} (m : result A) (f : A -> result B) : result B :=
  match m with
  | Ok a => f a
  | Err e => Err e
  end.

Notation "x <- m ;; k" := (bind m (fun x => k))
  (at level 61, m at next level, right associativity).
Notation "' p <- m ;; k" := (bind m (fun x => match x with p => k end))
  (at level 61, p pattern, m at next level, right associativity).

(** [[f(x) for x in l]] where [f] may raise: the first exception wins. *)
Fixpoint mapM {A B : Type} (f : A -> result B) (l : list A) : result (list B) :=
  match l with
  | [] => Ok []
  | x :: t => y <- f x ;; ys <- mapM f t ;; Ok (y :: ys)
  end.

(** ** Characters *)

Definition ord (c : ascii) : N := N_of_ascii c.

Definition in_range (lo hi : N) (c : ascii) : bool :=
  ((lo <=? ord c) && (ord c <=? hi))%N.

Definition is_code (n : N) (c : ascii) : bool := (ord c =? n)%N.

(** [str.isspace] on one character; also the class [\s]. *)
Definition isspace (c : ascii) : bool :=
  in_range 9 13 c || in_range 28 32 c || is_code 133 c || is_code 160 c.

(** [str.isdecimal] on one character; also the class [\d]. *)
Definition isdecimal (c : ascii) : bool := in_range 48 57 c.

(** [str.isdigit] on one character: the decimal digits and the
    superscripts two, three and one. *)
Definition isdigit_char (c : ascii) : bool :=
  isdecimal c || is_code 178 c || is_code 179 c || is_code 185 c.

Definition isalpha (c : ascii) : bool :=
  in_range 65 90 c || in_range 97 122 c
  || is_code 170 c || is_code 181 c || is_code 186 c
  || in_range 192 214 c || in_range 216 246 c || in_range 248 255 c.

(** [str.isalnum] on one character (letters, digits, and the vulgar
    fractions, which are numeric). *)
Definition isalnum (c : ascii) : bool :=
  isalpha c || isdigit_char c || in_range 188 190 c.

(** The class [\w]. *)
Definition is_word (c : ascii) : bool := isalnum c || is_code 95 c.

Definition newline : ascii := ascii_of_N 10.

(** ** Strings: the [str] methods the program calls *)

Fixpoint lstrip (s : string) : string :=
  match s with
  | String c t => if isspace c then lstrip t else s
  | EmptyString => EmptyString
  end.

(** [rstrip] keeps a character when it is not a space or when something
    is kept after it. *)
Fixpoint rstrip (s : string) : string :=
  match s with
  | String c t =>
      match rstrip t with
      | EmptyString => if isspace c then EmptyString else String c EmptyString
      | r => String c r
      end
  | EmptyString => EmptyString
  end.

Definition strip (s : string) : string := rstrip (lstrip s).

(** [sep.join(l)] *)
Fixpoint join (sep : string) (l : list string) : string :=
  match l with
  | [] => ""
  | [x] => x
  | x :: t => x ++ sep ++ join sep t
  end.

(** [s.split()]: the maximal runs of non-space characters.  [cur] holds the
    run being read, reversed. *)
Definition flush (cur : list ascii) (acc : list string) : list string :=
  match cur with
  | [] => acc
  | _ => string_of_list_ascii (rev cur) :: acc
  end.

Fixpoint split_ws_aux (cur : list ascii) (s : string) : list string :=
  match s with
  | EmptyString => flush cur []
  | String c t =>
      if isspace c then flush cur (split_ws_aux [] t)
      else split_ws_aux (c :: cur) t
  end.

Definition split_ws (s : string) : list string := split_ws_aux [] s.

(** [sep in s] for a one-character [sep]. *)
Fixpoint contains_char (sep : ascii) (s : string) : bool :=
  match s with
  | EmptyString => false
  | String c t => Ascii.eqb c sep || contains_char sep t
  end.

(** [s.split(sep, 1)] for a one-character [sep]: one element when [sep]
    does not occur, two otherwise. *)
Fixpoint split1 (sep : ascii) (s : string) : list string :=
  match s with
  | EmptyString => [""]
  | String c t =>
      if Ascii.eqb c sep then [""; t]
      else match split1 sep t with
           | a :: rest => String c a :: rest
           | [] => [String c ""]
           end
  end.

(** [l[:-1]] and [l[-1]] *)
Definition init {A : Type} (l : list A) : list A := removelast l.

(** [s.isdigit()]: non-empty and every character a digit. *)
Fixpoint all_chars (p : ascii -> bool) (s : string) : bool :=
  match s with
  | EmptyString => true
  | String c t => p c && all_chars p t
  end.

Definition isdigit (s : string) : bool :=
  match s with
  | EmptyString => false
  | _ => all_chars isdigit_char s
  end.

(** [int(s)] on the strings that reach it here (digit characters, possibly
    after blanks): surrounding white space is dropped, then the decimal value
    is read; a [ValueError] when nothing is left or a character is not a
    decimal digit, as for a superscript digit.  (The signs and underscores
    that [int] also accepts never reach it; the interpreter's cap on the
    length of a decimal literal is not modelled.) *)
Fixpoint int_digits (acc : Z) (s : string) : option Z :=
  match s with
  | EmptyString => Some acc
  | String c t =>
      if isdecimal c
      then int_digits (10 * acc + (Z.of_N (ord c) - 48))%Z t
      else None
  end.

Definition int (s : string) : result Z :=
  match strip s with
  | EmptyString => Err (IntLiteralError s)
  | String c t =>
      match int_digits 0%Z (String c t) with
      | Some n => Ok n
      | None => Err (IntLiteralError s)
      end
  end.

(** ** Regular expressions: the fragment of [re] the program uses

    A backtracking matcher in continuation-passing style, with the priorities
    of Python's engine: alternatives left to right, a greedy repetition
    longest first, a lazy one shortest first.  [prev] is the character just
    before the current position (for [\b]); the captures are an association
    list from group number to captured text. *)

Inductive regex : Type :=
| Eps                                              (* the empty pattern *)
| Chr (p : ascii -> bool)                          (* one character of a class *)
| Seq (r1 r2 : regex)                              (* r1r2 *)
| Alt (r1 r2 : regex)                              (* r1|r2 *)
| Rep (greedy : bool) (min : nat) (p : ascii -> bool)  (* p{min,} or p{min,}? *)
| Group (n : nat) (r : regex)                      (* capturing group number n *)
| Eol                                              (* $ under re.MULTILINE *)
| WordB.                                           (* \b *)

Definition caps : Type := list (nat * string).

Fixpoint group (c : caps) (n : nat) : option string :=
  match c with
  | [] => None
  | (k, v) :: t => if Nat.eqb k n then Some v else group t n
  end.

Definition consumed (s s' : string) : string :=
  substring 0 (String.length s - String.length s') s.

Definition word_at (c : option ascii) : bool :=
  match c with
  | Some a => is_word a
  | None => false
  end.

Definition peek (s : string) : option ascii :=
  match s with
  | String a _ => Some a
  | EmptyString => None
  end.

Section Matcher.
Context {R : Type}.

Fixpoint rep (greedy : bool) (min : nat) (p : ascii -> bool)
    (prev : option ascii) (s : string)
    (k : option ascii -> string -> option R) {struct s} : option R :=
  match min with
  | S min' =>
      match s with
      | String a t => if p a then rep greedy min' p (Some a) t k else None
      | EmptyString => None
      end
  | O =>
      if greedy then
        match s with
        | String a t =>
            if p a then
              match rep greedy O p (Some a) t k with
              | Some x => Some x
              | None => k prev s
              end
            else k prev s
        | EmptyString => k prev s
        end
      else
        match k prev s with
        | Some x => Some x
        | None =>
            match s with
            | String a t => if p a then rep greedy O p (Some a) t k else None
            | EmptyString => None
            end
        end
  end.

Fixpoint exec (r : regex) (prev : option ascii) (s : string) (c : caps)
    (k : option ascii -> string -> caps -> option R) : option R :=
  match r with
  | Eps => k prev s c
  | Chr p =>
      match s with
      | String a t => if p a then k (Some a) t c else None
      | EmptyString => None
      end
  | Seq r1 r2 => exec r1 prev s c (fun prev' s' c' => exec r2 prev' s' c' k)
  | Alt r1 r2 =>
      match exec r1 prev s c k with
      | Some x => Some x
      | None => exec r2 prev s c k
      end
  | Rep greedy min p => rep greedy min p prev s (fun prev' s' => k prev' s' c)
  | Group n r =>
      exec r prev s c (fun prev' s' c' => k prev' s' ((n, consumed s s') :: c'))
  | Eol =>
      match s with
      | EmptyString => k prev s c
      | String a _ => if Ascii.eqb a newline then k prev s c else None
      end
  | WordB => if xorb (word_at prev) (word_at (peek s)) then k prev s c else None
  end.
End Matcher.

(** A match object: the captures and the text after the match. *)
Record match_obj : Type := { groups : caps; rest : string }.

Definition match_at (r : regex) (prev : option ascii) (s : string) : option match_obj :=
  exec r prev s [] (fun _ s' c => Some {| groups := c; rest := s' |}).

(** [re.compile(r).match(s)] *)
Definition re_match (r : regex) (s : string) : option match_obj := match_at r None s.

(** [re.compile(r).search(s)]: the leftmost position with a match. *)
Fixpoint search_from (r : regex) (prev : option ascii) (s : string) : option match_obj :=
  match match_at r prev s with
  | Some m => Some m
  | None =>
      match s with
      | String a t => search_from r (Some a) t
      | EmptyString => None
      end
  end.

Definition re_search (r : regex) (s : string) : option match_obj := search_from r None s.

(** [re.sub(r, "", s)]: the text with every match, found left to right
    without overlap, deleted.  [skip] counts the characters of the current
    match that are still to be dropped. *)
Fixpoint sub_aux (r : regex) (skip : nat) (prev : option ascii) (s : string) : string :=
  match s with
  | EmptyString => EmptyString
  | String a t =>
      match skip with
      | S n => sub_aux r n (Some a) t
      | O =>
          match match_at r prev s with
          | Some m =>
              match String.length s - String.length (rest m) with
              | S n => sub_aux r n (Some a) t
              | O => String a (sub_aux r O (Some a) t)
              end
          | None => String a (sub_aux r O (Some a) t)
          end
      end
  end.

Definition re_sub_delete (r : regex) (s : string) : string := sub_aux r 0 None s.

(** Pattern building blocks. *)
Fixpoint lit (s : string) : regex :=
  match s with
  | EmptyString => Eps
  | String c t => Seq (Chr (Ascii.eqb c)) (lit t)
  end.

Definition opt (r : regex) : regex := Alt r Eps.          (* r? *)
Definition dot (c : ascii) : bool := negb (Ascii.eqb c newline).
Definition d2 : regex := Seq (Chr isdecimal) (Chr isdecimal).            (* \d{2} *)
Definition d4 : regex := Seq d2 d2.                                      (* \d{4} *)
Definition dmy : regex :=                                  (* \d{2}\.\d{2}\.\d{4} *)
  Seq d2 (Seq (lit ".") (Seq d2 (Seq (lit ".") d4))).
Fixpoint seqs (l : list regex) : regex :=
  match l with
  | [] => Eps
  | [r] => r
  | r :: t => Seq r (seqs t)
  end.

(** ** Generic helpers: [parse_date] *)

(** The pattern [datetime.strptime] builds for the format ["%d.%m.%Y"]:
    "(?P<d>3[0-1]|[1-2]\d|0[1-9]|[1-9]| [1-9])\.(?P<m>1[0-2]|0[1-9]|[1-9])\.(?P<Y>\d\d\d\d)" *)
Definition strptime_d : regex :=
  Alt (Seq (lit "3") (Chr (in_range 48 49)))
 (Alt (Seq (Chr (in_range 49 50)) (Chr isdecimal))
 (Alt (Seq (lit "0") (Chr (in_range 49 57)))
 (Alt (Chr (in_range 49 57))
      (Seq (lit " ") (Chr (in_range 49 57)))))).

Definition strptime_m : regex :=
  Alt (Seq (lit "1") (Chr (in_range 48 50)))
 (Alt (Seq (lit "0") (Chr (in_range 49 57)))
      (Chr (in_range 49 57))).

Definition strptime_re : regex :=
  seqs [Group 1 strptime_d; lit "."; Group 2 strptime_m; lit "."; Group 3 d4].

Definition is_leap (y : Z) : bool :=
  ((y mod 4 =? 0) && (negb (y mod 100 =? 0) || (y mod 400 =? 0)))%Z.

Definition days_in_month (y m : Z) : Z :=
  if (m =? 2)%Z then (if is_leap y then 29 else 28)%Z
  else if ((m =? 4) || (m =? 6) || (m =? 9) || (m =? 11))%Z then 30%Z
  else 31%Z.

Record date : Type := { year : Z; month : Z; day : Z }.

(** The constructor of a date checks its fields. *)
Definition valid_date (y m d : Z) : bool :=
  ((1 <=? y) && (y <=? 9999) && (1 <=? m) && (m <=? 12)
   && (1 <=? d) && (d <=? days_in_month y m))%Z.

(** [datetime.strptime(s, "%d.%m.%Y")]: the pattern must match at the start
    and use up the whole text, and the fields must form a calendar date. *)
Definition strptime (s : string) : result date :=
  match re_match strptime_re s with
  | None => Err (StrptimeError s)
  | Some m =>
      match rest m, group (groups m) 1, group (groups m) 2, group (groups m) 3 with
      | EmptyString, Some d, Some mo, Some y =>
          y' <- int y ;; mo' <- int mo ;; d' <- int d ;;
          if valid_date y' mo' d'
          then Ok {| year := y'; month := mo'; day := d' |}
          else Err (StrptimeError s)
      | _, _, _, _ => Err (StrptimeError s)
      end
  end.

Definition digit (n : Z) : ascii := ascii_of_N (Z.to_N (48 + n mod 10)).

Definition pad2 (n : Z) : string :=
  String (digit (n / 10)) (String (digit n) "").

(** [str(n)] for an [int]. *)
Definition str_int (n : Z) : string := NilZero.string_of_int (Z.to_int n).

(** [d.strftime("%Y-%m-%d")]: day and month are written with two digits;
    the year is written by the C library as the number it is, so without
    zeros before a year below 1000 (CPython 3.11 on Linux: the year 999
    gives "999-01-01"). *)
Definition strftime (d : date) : string :=
  str_int (year d) ++ "-" ++ pad2 (month d) ++ "-" ++ pad2 (day d).

Definition parse_date (raw : string) : result string :=
  d <- strptime (strip raw) ;; Ok (strftime d).

(** ** Header parsing (regex on raw page text) *)

(** The pattern "Datum:\s*(\d{2}\.\d{2}\.\d{4})" *)
Definition DATUM_RE : regex :=
  seqs [lit "Datum:"; Rep true 0 isspace; Group 1 dmy].

(** The pattern, compiled with [re.MULTILINE] (the blanks inside the
    parentheses are for reading only):
    "Titel:\s*( LF[-\w]* )\s+( .+? )(?: \s+( \d{2}\.\d{2}\.\d{4} )-( \d{2}\.\d{2}\.\d{4} )? )?\s*$" *)
Definition TITEL_RE : regex :=
  seqs [lit "Titel:"; Rep true 0 isspace;
        Group 1 (Seq (lit "LF") (Rep true 0 (fun c => is_code 45 c || is_word c)));
        Rep true 1 isspace;
        Group 2 (Rep false 1 dot);
        opt (seqs [Rep true 1 isspace; Group 3 dmy; lit "-"; opt (Group 4 dmy)]);
        Rep true 0 isspace;
        Eol].

Record header : Type := {
  datum : string;
  lernfeld_id : string;
  titel : string;
  start_datum : option string;
  end_datum : option string
}.

(** [m.group(n)] of a group that took part in the match. *)
Definition group_str (m : match_obj) (n : nat) : string :=
  match group (groups m) n with
  | Some s => s
  | None => ""
  end.

(** [parse_date(raw) if raw else None] *)
Definition parse_date_opt (raw : option string) : result (option string) :=
  match raw with
  | None | Some EmptyString => Ok None
  | Some s => d <- parse_date s ;; Ok (Some d)
  end.

Definition parse_header (text : string) : result header :=
  let datum_m := re_search DATUM_RE text in
  let titel_m := re_search TITEL_RE text in
  match datum_m with
  | None => Err (ValueError "Datum not found in PDF header")
  | Some datum_m =>
      match titel_m with
      | None => Err (ValueError "Titel / Lernfeld not found in PDF header")
      | Some titel_m =>
          let start_raw := group (groups titel_m) 3 in
          let end_raw := group (groups titel_m) 4 in
          d <- parse_date (group_str datum_m 1) ;;
          s <- parse_date_opt start_raw ;;
          e <- parse_date_opt end_raw ;;
          Ok {| datum := d;
                lernfeld_id := group_str titel_m 1;
                titel := strip (group_str titel_m 2);
                start_datum := s;
                end_datum := e |}
      end
  end.

(** ** Word-based table extraction *)

(** A word of [page.extract_words]: the keys the program reads. *)
Record word : Type := { text : string; x0 : Q; top : Q; bottom : Q }.

(** Column x-ranges in the template (points). *)
Definition COL_STUNDE : Q * Q := (30, 74)%Q.
Definition COL_LEHRINHALTE : Q * Q := (74, 359)%Q.
Definition COL_DOZENT : Q * Q := (459, 549)%Q.

(** Words that bleed in from the table header row. *)
Definition HEADER_NOISE : list string :=
  ["Stunde"; "Lehrinhalte"; "Lernformat/-methodik";
   "Lernformat/"; "-methodik"; "Dozent";
   "Unterrichtsbeginn:"; "08:30"].

(** [w in HEADER_NOISE] *)
Definition is_noise (w : string) : bool := existsb (String.eqb w) HEADER_NOISE.

Definition Qlt_bool (a b : Q) : bool := negb (Qle_bool b a).

(** [lo <= v < hi] *)
Definition within (lo hi v : Q) : bool := Qle_bool lo v && Qlt_bool v hi.

(** Texts of all words whose x0 is inside [x0,x1) and top is in [y0,y1). *)
Definition _words_in_col (words : list word) (x0' x1 y0 y1 : Q) : list string :=
  map text (filter (fun w => within x0' x1 (x0 w) && within y0 y1 (top w)) words).

(** The pattern "\bDozent\b" *)
Definition DOZENT_RE : regex := seqs [WordB; lit "Dozent"; WordB].

(** The loop that cuts [vorname_words] where the name starts repeating:
    [i] is the index of [ws]'s head in [all]. *)
Fixpoint cut_repeat (nachname : string) (i : nat) (ws all : list string) : list string :=
  match ws with
  | [] => all
  | w :: t =>
      if String.eqb w nachname then firstn i all
      else cut_repeat nachname (S i) t all
  end.

(** Extract the first 'Nachname, Vorname' pair from a list of words;
    returns (nachname, vorname). *)
Definition _first_dozent (raw_words : list string) : result (string * string) :=
  let text := join " " raw_words in
  let text := strip (re_sub_delete DOZENT_RE text) in
  match text with
  | EmptyString => Ok ("", "")
  | _ =>
      if contains_char "," text then
        match split1 "," text with
        | [nachname; rest] =>
            let nachname := strip nachname in
            let vorname_words := split_ws (strip rest) in
            let vorname_words := cut_repeat nachname 0 vorname_words vorname_words in
            Ok (nachname, strip (join " " vorname_words))
        | _ => Err UnpackError
        end
      else
        let parts := split_ws text in
        Ok (last parts "", join " " (init parts))
  end.

Record row : Type := {
  stunde : Z;
  inhalt : string;
  dozent_vorname : string;
  dozent_nachname : string
}.

(** One step of the comprehension that locates the stunde numbers:
    the pair a word contributes, if any. *)
Definition stunde_of (w : word) : result (option (Z * Q)) :=
  if isdigit (text w) then
    n <- int (text w) ;;
    if ((1 <=? n) && (n <=? 9))%Z && within (fst COL_STUNDE) (snd COL_STUNDE) (x0 w)
    then n' <- int (text w) ;; Ok (Some (n', top w))
    else Ok None
  else Ok None.

Fixpoint locate (words : list word) : result (list (Z * Q)) :=
  match words with
  | [] => Ok []
  | w :: t =>
      o <- stunde_of w ;;
      r <- locate t ;;
      Ok (match o with Some p => p :: r | None => r end)
  end.

(** [sorted(l, key=lambda x: x[0])]: a stable sort, here by insertion. *)
Fixpoint insert (x : Z * Q) (l : list (Z * Q)) : list (Z * Q) :=
  match l with
  | [] => [x]
  | y :: t => if (fst x <=? fst y)%Z then x :: y :: t else y :: insert x t
  end.

Fixpoint sorted (l : list (Z * Q)) : list (Z * Q) :=
  match l with
  | [] => []
  | x :: t => insert x (sorted t)
  end.

(** Deduplicate: keep only the first occurrence of each number. *)
Fixpoint dedup (seen : list Z) (l : list (Z * Q)) : list (Z * Q) :=
  match l with
  | [] => []
  | (nr, top) :: t =>
      if existsb (Z.eqb nr) seen then dedup seen t
      else (nr, top) :: dedup (nr :: seen) t
  end.

(** [max(l, default=d)]: the first of the largest items. *)
Definition py_max (l : list Q) (d : Q) : Q :=
  match l with
  | [] => d
  | x :: t => fold_left (fun m y => if Qlt_bool m y then y else m) t x
  end.

(** Approximate bottom of the table. *)
Definition table_bottom (words : list word) : Q :=
  py_max (filter (fun b => Qlt_bool b 650) (map bottom words)) 600.

(** Build y-ranges using midpoints; [i] is the index of [l]'s head in
    [stunden]. *)
Definition top_at (stunden : list (Z * Q)) (i : nat) : Q :=
  snd (nth i stunden (0%Z, 0%Q)).

Definition y_start (stunden : list (Z * Q)) (i : nat) (top : Q) : Q :=
  if (0 <? i)%nat then ((top_at stunden (i - 1) + top) / 2)%Q else (top - 30)%Q.

Definition y_end (stunden : list (Z * Q)) (tb : Q) (i : nat) (top : Q) : Q :=
  if (i + 1 <? List.length stunden)%nat
  then ((top + top_at stunden (i + 1)) / 2)%Q
  else tb.

Fixpoint build (stunden : list (Z * Q)) (tb : Q) (i : nat) (l : list (Z * Q))
    : list (Z * Q * Q) :=
  match l with
  | [] => []
  | (nr, top) :: t =>
      (nr, y_start stunden i top, y_end stunden tb i top)
        :: build stunden tb (S i) t
  end.

(** The stunde numbers as the program holds them after deduplication. *)
Definition locate_stunden (words : list word) : result (list (Z * Q)) :=
  stunden <- locate words ;;
  let stunden := sorted stunden in
  match stunden with
  | [] => Err (ValueError "No stunde numbers (1-9) found in Stunde column")
  | _ => Ok (dedup [] stunden)
  end.

Definition row_boundaries (words : list word) : result (list (Z * Q * Q)) :=
  stunden <- locate_stunden words ;;
  Ok (build stunden (table_bottom words) 0 stunden).

(** Extract content for one row. *)
Definition extract_row (words : list word) (b : Z * Q * Q) : result row :=
  let '(nr, y0, y1) := b in
  let inhalt_words :=
    _words_in_col words (fst COL_LEHRINHALTE) (snd COL_LEHRINHALTE) y0 y1 in
  let dozent_words :=
    _words_in_col words (fst COL_DOZENT) (snd COL_DOZENT) y0 y1 in
  let inhalt_words := filter (fun w => negb (is_noise w)) inhalt_words in
  '(nachname, vorname) <- _first_dozent dozent_words ;;
  Ok {| stunde := nr;
        inhalt := join " " inhalt_words;
        dozent_vorname := vorname;
        dozent_nachname := nachname |}.

(** [parse_rows_from_page], from the words of the page. *)
Definition parse_rows_from_page (words : list word) : result (list row) :=
  boundaries <- row_boundaries words ;;
  mapM (extract_row words) boundaries.

(** ** The failures the specification names

    The specification calls the three [raise] statements of the source
    [HeaderParseError("date missing")], [HeaderParseError("title missing")]
    and [NoRowsFoundError]. *)

Definition HeaderParseError_date_missing : exn :=
  ValueError "Datum not found in PDF header".
Definition HeaderParseError_title_missing : exn :=
  ValueError "Titel / Lernfeld not found in PDF header".
Definition NoRowsFoundError : exn :=
  ValueError "No stunde numbers (1-9) found in Stunde column".

Definition nl : string := String newline "".

(** Sample inputs. *)
Definition mk_word (t : string) (x y b : Q) : word :=
  {| text := t; x0 := x; top := y; bottom := b |}.

Definition spec_header_text : string :=
  "Datum: 05.03.2024 ... Titel: LF12 Grundlagen 01.03.2024-05.04.2024".

Definition bad_date_header_text : string :=
  "Datum: 31.02.2024" ++ nl ++ "Titel: LF12 Grundlagen".

(** ** Notions the properties are stated with *)

(** The slot number a word contributes to the stunde numbers, if any: the
    three tests of the comprehension in [parse_rows_from_page]. *)
Definition anchor_nr (w : word) : option Z :=
  if isdigit (text w) then
    match int (text w) with
    | Ok n =>
        if ((1 <=? n) && (n <=? 9))%Z
           && within (fst COL_STUNDE) (snd COL_STUNDE) (x0 w)
        then Some n else None
    | Err _ => None
    end
  else None.

Definition is_anchor (w : word) : bool :=
  match anchor_nr w with Some _ => true | None => false end.

(** A word of digit characters that [int] does not convert. *)
Definition int_rejects (w : word) : bool :=
  isdigit (text w) && match int (text w) with Ok _ => false | Err _ => true end.

(** The anchors in the order of the words. *)
Fixpoint anchors_of (words : list word) : list (Z * Q) :=
  match words with
  | [] => []
  | w :: t =>
      match anchor_nr w with
      | Some n => (n, top w) :: anchors_of t
      | None => anchors_of t
      end
  end.

(** The first word, in the order of the words, that is an anchor of [nr]. *)
Definition first_anchor (nr : Z) (words : list word) : option word :=
  find (fun w => match anchor_nr w with Some n => (n =? nr)%Z | None => false end)
       words.

(** An anchor in the specification's words: the text is exactly one digit
    of 1..9 and left-x is inside the slot-number band. *)
Definition single_digit_anchor (w : word) : bool :=
  match text w with
  | String c EmptyString => in_range 49 57 c
  | _ => false
  end && within (fst COL_STUNDE) (snd COL_STUNDE) (x0 w).

(** A span [(nr, y0, y1)] holds the tops in [y0, y1): this is how
    [_words_in_col] reads it. *)
Definition span_nr (b : Z * Q * Q) : Z := fst (fst b).
Definition span_start (b : Z * Q * Q) : Q := snd (fst b).
Definition span_end (b : Z * Q * Q) : Q := snd b.

Definition in_span (y : Q) (b : Z * Q * Q) : Prop :=
  (span_start b <= y /\ y < span_end b)%Q.

(** Each span ends where the next one starts. *)
Definition contiguous (bs : list (Z * Q * Q)) : Prop :=
  forall i b b', nth_error bs i = Some b -> nth_error bs (S i) = Some b' ->
                 span_end b = span_start b'.

(** No y lies in two spans. *)
Definition pairwise_disjoint (bs : list (Z * Q * Q)) : Prop :=
  forall i j b b' y,
    nth_error bs i = Some b -> nth_error bs j = Some b' ->
    in_span y b -> in_span y b' -> i = j.

(** The spans together hold exactly the y of [lo, hi). *)
Definition covers (bs : list (Z * Q * Q)) (lo hi : Q) : Prop :=
  forall y, (lo <= y /\ y < hi)%Q <-> exists b, In b bs /\ in_span y b.

(** No span is inverted. *)
Definition upright (bs : list (Z * Q * Q)) : Prop :=
  Forall (fun b => (span_start b <= span_end b)%Q) bs.

(** A list of spans that leads from [lo] to [hi] without a gap. *)
Inductive chain : Q -> list (Z * Q * Q) -> Q -> Prop :=
| chain_one (b : Z * Q * Q) : chain (span_start b) [b] (span_end b)
| chain_cons (b : Z * Q * Q) (l : list (Z * Q * Q)) (hi : Q) :
    chain (span_end b) l hi -> chain (span_start b) (b :: l) hi.

(** The order the sort establishes, and the test for a slot number. *)
Definition le_nr (a b : Z * Q) : Prop := (fst a <= fst b)%Z.

Definition has_nr (nr : Z) (p : Z * Q) : bool := (fst p =? nr)%Z.

(** Anchors out of order, slot 5 twice. *)
Definition words_531 : list word :=
  [mk_word "5" 40 300 310; mk_word "Inhalt" 80 100 110; mk_word "1" 40 100 110;
   mk_word "3" 40 200 210; mk_word "5" 40 305 315]%Q.

(** A denylist entry in the content band. *)
Definition words_noise : list word :=
  [mk_word "1" 40 100 110; mk_word "Lehrinhalte" 80 90 100;
   mk_word "Einfuehrung" 80 100 110; mk_word "Dozent" 460 90 100]%Q.

(** Anchors whose tops do not ascend with the slot numbers. *)
Definition words_overlap : list word :=
  [mk_word "3" 40 0 10; mk_word "2" 40 300 310; mk_word "1" 40 100 110]%Q.

(** The words before the first one equal to [x]. *)
Fixpoint take_until (x : string) (ws : list string) : list string :=
  match ws with
  | [] => []
  | w :: t => if String.eqb w x then [] else w :: take_until x t
  end.

Definition not_space (c : ascii) : bool := negb (isspace c).

(** A word as [split] returns it: not empty and free of white space. *)
Definition wordy (w : string) : Prop := w <> "" /\ all_chars not_space w = true.

(** The last character of [p], or [prev] when [p] is empty. *)
Fixpoint last_char (p : string) (prev : option ascii) : option ascii :=
  match p with
  | EmptyString => prev
  | String c t => last_char t (Some c)
  end.

(** The text "Dozent" stands at the head of [s] between word boundaries,
    [prev] being the character before [s]. *)
Definition label_here (prev : option ascii) (s : string) : Prop :=
  exists s', s = ("Dozent" ++ s')%string
             /\ word_at prev = false /\ word_at (peek s') = false.

(** [deletes_label prev s s']: [s'] is [s] read from left to right with
    every occurrence of "Dozent" between word boundaries deleted and every
    other character kept. *)
Inductive deletes_label : option ascii -> string -> string -> Prop :=
| del_nil (prev : option ascii) : deletes_label prev "" ""
| del_keep (prev : option ascii) (c : ascii) (s s' : string) :
    ~ label_here prev (String c s) ->
    deletes_label (Some c) s s' ->
    deletes_label prev (String c s) (String c s')
| del_drop (prev : option ascii) (s s' : string) :
    word_at prev = false -> word_at (peek s) = false ->
    deletes_label (Some "t"%char) s s' ->
    deletes_label prev ("Dozent" ++ s) s'.

(** The name splitter in the specification's words (section 4.4): remove the
    tokens exactly equal to the label, join the remainder with spaces, then
    split at the comma or before the last word. *)
Definition name_splitter_spec (tokens : list string) : string * string :=
  let text := join " " (filter (fun w => negb (String.eqb w "Dozent")) tokens) in
  match text with
  | EmptyString => ("", "")
  | _ =>
      match split1 "," text with
      | [before; after] =>
          let last_name := strip before in
          (last_name, join " " (take_until last_name (split_ws after)))
      | _ =>
          let ws := split_ws text in
          (last ws "", join " " (removelast ws))
      end
  end.

(** The shape dd.dd.dddd of a date field. *)
Definition is_dmy (d : string) : bool :=
  match d with
  | String a (String b (String p (String c (String e (String q
      (String f (String g (String h (String i EmptyString))))))))) =>
      isdecimal a && isdecimal b && Ascii.eqb "." p
      && isdecimal c && isdecimal e && Ascii.eqb "." q
      && isdecimal f && isdecimal g && isdecimal h && isdecimal i
  | _ => false
  end.

(** The date field stands at the head of [s]: the label, white space, a
    date shape. *)
Definition date_field_here (s : string) : Prop :=
  exists ws d tail,
    s = ("Datum:" ++ ws ++ d ++ tail)%string
    /\ all_chars isspace ws = true /\ is_dmy d = true.

(** The date field stands somewhere in [text]. *)
Definition has_date_field (text : string) : Prop :=
  exists pre s, text = (pre ++ s)%string /\ date_field_here s.

(** [p] occurs in [text]. *)
Definition occurs (p text : string) : Prop :=
  exists a b, text = (a ++ p ++ b)%string.

(** ** PDF entry point *)

(** The first page of the document, as [extract_pdf] reads it:
    [page.extract_text()], which may be [None], and the words. *)
Record page : Type := { extract_text : option string; extract_words : list word }.

(** The dict [{"header": ..., "rows": ...}]. *)
Record pdf_data : Type := { pd_header : header; pd_rows : list row }.

(** [extract_pdf], from the first page of the opened document. *)
Definition extract_pdf (p : page) : result pdf_data :=
  let text := match extract_text p with
              | Some (String c t) => String c t
              | _ => ""
              end in
  h <- parse_header text ;;
  r <- parse_rows_from_page (extract_words p) ;;
  Ok {| pd_header := h; pd_rows := r |}.

(** ** Print / dry-run path *)

(** [text.replace("'", "''")] *)
Fixpoint sql_escape (text : string) : string :=
  match text with
  | EmptyString => EmptyString
  | String c t =>
      if Ascii.eqb c "'" then String "'" (String "'" (sql_escape t))
      else String c (sql_escape t)
  end.

(** A dict in insertion order. *)
Section Dict.
Context {K V : Type} (eqb : K -> K -> bool).

(** [d.get(k)] *)
Fixpoint dict_get (d : list (K * V)) (k : K) : option V :=
  match d with
  | [] => None
  | (k', v) :: t => if eqb k' k then Some v else dict_get t k
  end.

(** [k in d] *)
Definition dict_mem (d : list (K * V)) (k : K) : bool :=
  match dict_get d k with Some _ => true | None => false end.

(** [d[k] = v] *)
Fixpoint dict_set (d : list (K * V)) (k : K) (v : V) : list (K * V) :=
  match d with
  | [] => [(k, v)]
  | (k', v') :: t =>
      if eqb k' k then (k', v) :: t else (k', v') :: dict_set t k v
  end.
End Dict.

Definition name_eqb (a b : string * string) : bool :=
  String.eqb (fst a) (fst b) && String.eqb (snd a) (snd b).

Definition combo_eqb (a b : string * Z) : bool :=
  String.eqb (fst a) (fst b) && Z.eqb (snd a) (snd b).

(** Tracks IDs only for generating a standalone SQL file. *)
Record PrintState : Type := {
  lernfelder : list (string * bool);
  dozenten : list ((string * string) * Z);
  lerntage : list (string * Z);
  lf_doz : list (string * Z);           (* a set *)
  dozent_seq : Z;
  lerntag_seq : Z;
  einheit_seq : Z
}.

(** [PrintState()] *)
Definition PrintState_init : PrintState :=
  {| lernfelder := []; dozenten := []; lerntage := []; lf_doz := [];
     dozent_seq := 1; lerntag_seq := 1; einheit_seq := 1 |}.

(** What a call of [build_print_statements] ends with. *)
Inductive print_outcome : Type :=
| Stmts (stmts : list string)      (* [return stmts] *)
| IndexError.                      (* [rows[0]] of an empty list *)

(** [f"'{v}'" if v else "NULL"] *)
Definition sql_date_val (v : option string) : string :=
  match v with
  | Some (String c t) => "'" ++ String c t ++ "'"
  | _ => "NULL"
  end.

Definition lernfeld_stmt (hdr : header) : string :=
  "INSERT INTO lernfeld (lernfeld_id, titel, start_datum, end_datum) "
  ++ "VALUES ('" ++ lernfeld_id hdr ++ "', '" ++ sql_escape (titel hdr) ++ "', "
  ++ sql_date_val (start_datum hdr) ++ ", " ++ sql_date_val (end_datum hdr) ++ ") "
  ++ "ON CONFLICT (lernfeld_id) DO NOTHING;".

Definition dozent_stmt (key : string * string) : string :=
  "INSERT INTO dozent (vorname, nachname) "
  ++ "VALUES ('" ++ sql_escape (fst key) ++ "', '" ++ sql_escape (snd key) ++ "') "
  ++ "ON CONFLICT DO NOTHING;".

Definition lf_doz_stmt (lf_id : string) (key : string * string) : string :=
  "INSERT INTO lernfeld_dozent (lernfeld_id, dozent_id) "
  ++ "SELECT '" ++ lf_id ++ "', dozent_id FROM dozent "
  ++ "WHERE vorname='" ++ sql_escape (fst key)
  ++ "' AND nachname='" ++ sql_escape (snd key) ++ "' "
  ++ "LIMIT 1 "
  ++ "ON CONFLICT (lernfeld_id, dozent_id) DO NOTHING;".

Definition lerntag_stmt (datum' lf_id : string) (first : row) : string :=
  "INSERT INTO lerntag (datum, lernfeld_id, dozent_id) "
  ++ "SELECT '" ++ datum' ++ "', '" ++ lf_id ++ "', dozent_id "
  ++ "FROM dozent "
  ++ "WHERE vorname='" ++ sql_escape (dozent_vorname first) ++ "' "
  ++ "AND nachname='" ++ sql_escape (dozent_nachname first) ++ "' "
  ++ "LIMIT 1 "
  ++ "ON CONFLICT (datum) DO NOTHING;".

Definition einheit_stmt (datum' : string) (r : row) : string :=
  "INSERT INTO unterrichtseinheit (lerntag_id, stunde, inhalt) "
  ++ "SELECT lerntag_id, " ++ str_int (stunde r) ++ ", '" ++ sql_escape (inhalt r) ++ "' "
  ++ "FROM lerntag WHERE datum='" ++ datum' ++ "' "
  ++ "ON CONFLICT (lerntag_id, stunde) DO NOTHING;".

(** The lernfeld block: the state and the statements after it. *)
Definition print_lernfeld (hdr : header) (state : PrintState)
    : PrintState * list string :=
  if dict_mem String.eqb (lernfelder state) (lernfeld_id hdr) then (state, [])
  else ({| lernfelder := dict_set String.eqb (lernfelder state) (lernfeld_id hdr) true;
           dozenten := dozenten state; lerntage := lerntage state;
           lf_doz := lf_doz state; dozent_seq := dozent_seq state;
           lerntag_seq := lerntag_seq state; einheit_seq := einheit_seq state |},
        [lernfeld_stmt hdr]).

(** One turn of the loop over the rows that registers the dozenten. *)
Definition print_dozent (lf_id : string) (acc : PrintState * list string) (r : row)
    : PrintState * list string :=
  let '(state, stmts) := acc in
  let key := (dozent_vorname r, dozent_nachname r) in
  let '(state, stmts) :=
    if dict_mem name_eqb (dozenten state) key then (state, stmts)
    else ({| lernfelder := lernfelder state;
             dozenten := dict_set name_eqb (dozenten state) key (dozent_seq state);
             lerntage := lerntage state; lf_doz := lf_doz state;
             dozent_seq := dozent_seq state + 1;
             lerntag_seq := lerntag_seq state; einheit_seq := einheit_seq state |},
          stmts ++ [dozent_stmt key]) in
  match dict_get name_eqb (dozenten state) key with
  | None => (state, stmts)          (* not reached: the key was just set *)
  | Some did =>
      let combo := (lf_id, did) in
      if existsb (combo_eqb combo) (lf_doz state) then (state, stmts)
      else ({| lernfelder := lernfelder state; dozenten := dozenten state;
               lerntage := lerntage state; lf_doz := combo :: lf_doz state;
               dozent_seq := dozent_seq state;
               lerntag_seq := lerntag_seq state; einheit_seq := einheit_seq state |},
            stmts ++ [lf_doz_stmt lf_id key])
  end.

Definition build_print_statements (data : pdf_data) (state : PrintState)
    : PrintState * print_outcome :=
  let hdr := pd_header data in
  let rows := pd_rows data in
  let lf_id := lernfeld_id hdr in
  let '(state, stmts) := print_lernfeld hdr state in
  let '(state, stmts) := fold_left (print_dozent lf_id) rows (state, stmts) in
  let datum' := datum hdr in
  let einheiten := map (einheit_stmt datum') rows in
  if dict_mem String.eqb (lerntage state) datum' then (state, Stmts (stmts ++ einheiten))
  else
    let state :=
      {| lernfelder := lernfelder state; dozenten := dozenten state;
         lerntage := dict_set String.eqb (lerntage state) datum' (lerntag_seq state);
         lf_doz := lf_doz state; dozent_seq := dozent_seq state;
         lerntag_seq := lerntag_seq state + 1; einheit_seq := einheit_seq state |} in
    match rows with
    | [] => (state, IndexError)
    | first :: _ =>
        (state, Stmts (stmts ++ [lerntag_stmt datum' lf_id first] ++ einheiten))
    end.

(** ** DB-execute path: the cache of dozenten *)

(** [make_db_cache()]: the dict with the keys 'lernfelder', 'dozenten',
    'lerntage' and 'lf_doz'. *)
Record db_cache : Type := {
  cache_lernfelder : list string;                  (* a set *)
  cache_dozenten : list ((string * string) * Z);
  cache_lerntage : list (string * Z);
  cache_lf_doz : list (string * Z)                 (* a set *)
}.

Definition make_db_cache : db_cache :=
  {| cache_lernfelder := []; cache_dozenten := [];
     cache_lerntage := []; cache_lf_doz := [] |}.

(** What a statement run on the cursor comes back with: what the code
    reads after [cur.execute] ([cur.rowcount], or the row of
    [cur.fetchone()]), or the exception that [cur.execute] raised, given by
    its text. *)
Inductive answer (A : Type) : Type :=
| Result (a : A)
| Error (msg : string).
Arguments Result {A} a.
Arguments Error {A} msg.

(** The exceptions of the DB-execute path that come from the cursor. *)
Inductive cursor_exn : Type :=
| DatabaseError (msg : string)   (* raised by [cur.execute] *)
| NoRowTypeError.                (* [cur.fetchone()[0]] when no row came back *)

Inductive reply (A : Type) : Type :=
| Done (a : A)
| Fails (e : cursor_exn).
Arguments Done {A} a.
Arguments Fails {A} e.

(** The database behind the cursor is any type [DB] with the two
    statements [_get_or_create_dozent] executes: the SELECT of a dozent_id
    by name and the INSERT of a name with its RETURNING dozent_id, each with
    the [cur.fetchone()] after it. *)
Section Cursor.
Context {DB : Type}.
Variable select_dozent : DB -> string * string -> DB * answer (option Z).
Variable insert_dozent : DB -> string * string -> DB * answer (option Z).

(** Return the dozent_id for (vorname, nachname), creating the row if
    needed. *)
Definition _get_or_create_dozent (db : DB) (cache : db_cache)
    (vorname nachname : string) : DB * db_cache * reply Z :=
  let key := (vorname, nachname) in
  match dict_get name_eqb (cache_dozenten cache) key with
  | Some did => (db, cache, Done did)
  | None =>
      let remember (db : DB) (did : Z) :=
        (db,
         {| cache_lernfelder := cache_lernfelder cache;
            cache_dozenten := dict_set name_eqb (cache_dozenten cache) key did;
            cache_lerntage := cache_lerntage cache;
            cache_lf_doz := cache_lf_doz cache |},
         Done did) in
      match select_dozent db key with
      | (db, Error msg) => (db, cache, Fails (DatabaseError msg))
      | (db, Result (Some did)) => remember db did
      | (db, Result None) =>
          match insert_dozent db key with
          | (db, Error msg) => (db, cache, Fails (DatabaseError msg))
          | (db, Result None) => (db, cache, Fails NoRowTypeError)
          | (db, Result (Some did)) => remember db did
          end
      end
  end.
End Cursor.

(** ** DB-execute path: one document *)

(** What [execute_pdf_into_db] ends with: the number it returns, the
    [IndexError] of [rows[0]], or an exception from the cursor. *)
Inductive execute_outcome : Type :=
| Affected (affected : Z)
| RowIndexError
| CursorError (e : cursor_exn).

(** The cursor, as the statements [execute_pdf_into_db] runs on it; each
    takes the database, and gives the database after it with what the code
    reads then, or with the exception raised: [cur.rowcount] for the INSERTs
    into lernfeld, lernfeld_dozent and unterrichtseinheit, [cur.fetchone()]
    for the INSERT into lerntag with its RETURNING lerntag_id and for the
    SELECT of a lerntag_id.  The cache is the dict the caller shares with
    the call: what was put into it before an exception stays there.  The
    names of the rows are iterated as a set: [set_iter] lists it in the
    order of the iteration. *)
Section Execute.
Context {DB : Type}.
Variable select_dozent : DB -> string * string -> DB * answer (option Z).
Variable insert_dozent : DB -> string * string -> DB * answer (option Z).
Variable insert_lernfeld :
  DB -> string -> string -> option string -> option string -> DB * answer Z.
Variable insert_lernfeld_dozent : DB -> string -> Z -> DB * answer Z.
Variable insert_lerntag : DB -> string -> string -> Z -> DB * answer (option Z).
Variable select_lerntag : DB -> string -> DB * answer (option Z).
Variable insert_unterrichtseinheit : DB -> Z -> Z -> string -> DB * answer Z.
Variable set_iter : list (string * string) -> list (string * string).

(** The lernfeld block. *)
Definition execute_lernfeld (hdr : header) (db : DB) (cache : db_cache) (affected : Z)
    : DB * db_cache * reply Z :=
  let lf_id := lernfeld_id hdr in
  if existsb (String.eqb lf_id) (cache_lernfelder cache) then (db, cache, Done affected)
  else
    let end_val := match end_datum hdr with
                   | Some (String c t) => Some (String c t)
                   | _ => None
                   end in
    match insert_lernfeld db lf_id (titel hdr) (start_datum hdr) end_val with
    | (db, Error msg) => (db, cache, Fails (DatabaseError msg))
    | (db, Result rowcount) =>
        (db,
         {| cache_lernfelder := lf_id :: cache_lernfelder cache;
            cache_dozenten := cache_dozenten cache;
            cache_lerntage := cache_lerntage cache;
            cache_lf_doz := cache_lf_doz cache |},
         Done (affected + rowcount)%Z)
    end.

(** One turn of the loop over the names. *)
Definition execute_dozent (lf_id : string) (db : DB) (cache : db_cache) (affected : Z)
    (key : string * string) : DB * db_cache * reply Z :=
  match _get_or_create_dozent select_dozent insert_dozent db cache (fst key) (snd key) with
  | (db, cache, Fails e) => (db, cache, Fails e)
  | (db, cache, Done did) =>
      let combo := (lf_id, did) in
      if existsb (combo_eqb combo) (cache_lf_doz cache) then (db, cache, Done affected)
      else
        match insert_lernfeld_dozent db lf_id did with
        | (db, Error msg) => (db, cache, Fails (DatabaseError msg))
        | (db, Result rowcount) =>
            (db,
             {| cache_lernfelder := cache_lernfelder cache;
                cache_dozenten := cache_dozenten cache;
                cache_lerntage := cache_lerntage cache;
                cache_lf_doz := combo :: cache_lf_doz cache |},
             Done (affected + rowcount)%Z)
        end
  end.

(** The loop over the names: it stops at the first turn that raises. *)
Fixpoint execute_dozenten (lf_id : string) (keys : list (string * string))
    (db : DB) (cache : db_cache) (affected : Z) : DB * db_cache * reply Z :=
  match keys with
  | [] => (db, cache, Done affected)
  | key :: rest =>
      match execute_dozent lf_id db cache affected key with
      | (db, cache, Done affected) => execute_dozenten lf_id rest db cache affected
      | stopped => stopped
      end
  end.

(** The loop over the rows at the end, and the return. *)
Fixpoint execute_einheiten (rows : list row) (lt_id : Z) (db : DB)
    (cache : db_cache) (affected : Z) : DB * db_cache * execute_outcome :=
  match rows with
  | [] => (db, cache, Affected affected)
  | r :: rest =>
      match insert_unterrichtseinheit db lt_id (stunde r) (inhalt r) with
      | (db, Error msg) => (db, cache, CursorError (DatabaseError msg))
      | (db, Result rowcount) =>
          execute_einheiten rest lt_id db cache (affected + rowcount)%Z
      end
  end.

Definition execute_pdf_into_db (data : pdf_data) (db : DB) (cache : db_cache)
    : DB * db_cache * execute_outcome :=
  let hdr := pd_header data in
  let rows := pd_rows data in
  let affected := 0%Z in
  let lf_id := lernfeld_id hdr in
  match execute_lernfeld hdr db cache affected with
  | (db, cache, Fails e) => (db, cache, CursorError e)
  | (db, cache, Done affected) =>
  let dozent_keys :=
    set_iter (map (fun r => (dozent_vorname r, dozent_nachname r)) rows) in
  match execute_dozenten lf_id dozent_keys db cache affected with
  | (db, cache, Fails e) => (db, cache, CursorError e)
  | (db, cache, Done affected) =>
  let datum' := datum hdr in
  match dict_get String.eqb (cache_lerntage cache) datum' with
  | Some lt_id => execute_einheiten rows lt_id db cache affected
  | None =>
      match rows with
      | [] => (db, cache, RowIndexError)
      | first_row :: _ =>
          match _get_or_create_dozent select_dozent insert_dozent db cache
                  (dozent_vorname first_row) (dozent_nachname first_row) with
          | (db, cache, Fails e) => (db, cache, CursorError e)
          | (db, cache, Done day_dozent) =>
          let remember (db : DB) (lt_id : Z) :=
            let affected := (affected + 1)%Z in
            let cache :=
              {| cache_lernfelder := cache_lernfelder cache;
                 cache_dozenten := cache_dozenten cache;
                 cache_lerntage :=
                   dict_set String.eqb (cache_lerntage cache) datum' lt_id;
                 cache_lf_doz := cache_lf_doz cache |} in
            execute_einheiten rows lt_id db cache affected in
          match insert_lerntag db datum' lf_id day_dozent with
          | (db, Error msg) => (db, cache, CursorError (DatabaseError msg))
          | (db, Result (Some lt_id)) => remember db lt_id
          | (db, Result None) =>
              (* Already existed: just fetch the ID *)
              match select_lerntag db datum' with
              | (db, Error msg) => (db, cache, CursorError (DatabaseError msg))
              | (db, Result None) => (db, cache, CursorError NoRowTypeError)
              | (db, Result (Some lt_id)) => remember db lt_id
              end
          end
          end
      end
  end
  end
  end.
End Execute.

(** A database that is the log of the statements run on it, in reverse;
    every INSERT takes effect on one row, ids count up with the log, and
    no statement raises. *)
Inductive statement : Type :=
| SELECT_dozent (key : string * string)
| INSERT_dozent (key : string * string)
| INSERT_lernfeld (lf_id titel : string) (start_datum end_datum : option string)
| INSERT_lernfeld_dozent (lf_id : string) (did : Z)
| INSERT_lerntag (datum lf_id : string) (did : Z)
| SELECT_lerntag (datum : string)
| INSERT_unterrichtseinheit (lt_id stunde : Z) (inhalt : string).

Definition name_dec (a b : string * string) : {a = b} + {a <> b}.
Proof. decide equality; apply string_dec. Defined.

Definition next_id (log : list statement) : Z := (Z.of_nat (List.length log) + 1)%Z.

Definition log_select_dozent (log : list statement) (key : string * string)
    : list statement * answer (option Z) := (SELECT_dozent key :: log, Result None).
Definition log_insert_dozent (log : list statement) (key : string * string)
    : list statement * answer (option Z) :=
  (INSERT_dozent key :: log, Result (Some (next_id log))).
Definition log_insert_lernfeld (log : list statement) (lf_id titel : string)
    (start_datum end_datum : option string) : list statement * answer Z :=
  (INSERT_lernfeld lf_id titel start_datum end_datum :: log, Result 1%Z).
Definition log_insert_lernfeld_dozent (log : list statement) (lf_id : string) (did : Z)
    : list statement * answer Z := (INSERT_lernfeld_dozent lf_id did :: log, Result 1%Z).
Definition log_insert_lerntag (log : list statement) (datum lf_id : string) (did : Z)
    : list statement * answer (option Z) :=
  (INSERT_lerntag datum lf_id did :: log, Result (Some (next_id log))).
Definition log_select_lerntag (log : list statement) (datum : string)
    : list statement * answer (option Z) := (SELECT_lerntag datum :: log, Result None).
Definition log_insert_unterrichtseinheit (log : list statement) (lt_id stunde : Z)
    (inhalt : string) : list statement * answer Z :=
  (INSERT_unterrichtseinheit lt_id stunde inhalt :: log, Result 1%Z).
Definition log_set_iter (names : list (string * string)) : list (string * string) :=
  rev (nodup name_dec names).

Definition execute_logged (data : pdf_data) (log : list statement) (cache : db_cache)
    : list statement * db_cache * execute_outcome :=
  execute_pdf_into_db log_select_dozent log_insert_dozent log_insert_lernfeld
    log_insert_lernfeld_dozent log_insert_lerntag log_select_lerntag
    log_insert_unterrichtseinheit log_set_iter data log cache.

(** The same database for a user who may not insert into lernfeld_dozent:
    that INSERT raises, the other statements go to the log. *)
Definition denied_insert_lernfeld_dozent (log : list statement) (lf_id : string)
    (did : Z) : list statement * answer Z :=
  (log, Error "permission denied for table lernfeld_dozent").

Definition execute_denied (data : pdf_data) (log : list statement) (cache : db_cache)
    : list statement * db_cache * execute_outcome :=
  execute_pdf_into_db log_select_dozent log_insert_dozent log_insert_lernfeld
    denied_insert_lernfeld_dozent log_insert_lerntag log_select_lerntag
    log_insert_unterrichtseinheit log_set_iter data log cache.

(** The data of one document, and the first call on it. *)
Definition data_example : pdf_data :=
  {| pd_header := {| datum := "2024-03-05"; lernfeld_id := "LF12";
                     titel := "Grundlagen"; start_datum := Some "2024-03-01";
                     end_datum := Some "2024-04-05" |};
     pd_rows := [ {| stunde := 1; inhalt := "Einfuehrung";
                     dozent_vorname := "Pat"; dozent_nachname := "O'Neil" |};
                  {| stunde := 2; inhalt := "Vertiefung";
                     dozent_vorname := "Pat"; dozent_nachname := "O'Neil" |} ] |}.

Definition logged_first : list statement * db_cache * execute_outcome :=
  execute_logged data_example [] make_db_cache.

(** ** Permission helpers *)

Definition SCHEMA_TABLES : list string :=
  ["lernfeld"; "dozent"; "lernfeld_dozent"; "lerntag"; "unterrichtseinheit"].

(** What [check_permissions] ends with: the dict, or the [KeyError] of a
    table name that is no key of it. *)
Inductive perms_outcome : Type :=
| Perms (result : list (string * list string))
| KeyError (table : string).

(** The loop of [check_permissions] over [cur.fetchall()], whose rows are
    pairs (table_name, privilege_type). *)
Fixpoint collect_privileges (result : list (string * list string))
    (fetched : list (string * string)) : perms_outcome :=
  match fetched with
  | [] => Perms result
  | (table_name, privilege_type) :: t =>
      match dict_get String.eqb result table_name with
      | None => KeyError table_name
      | Some privs =>
          collect_privileges
            (dict_set String.eqb result table_name (privs ++ [privilege_type])) t
      end
  end.

(** [check_permissions], from the rows the cursor fetched. *)
Definition check_permissions (fetched : list (string * string)) : perms_outcome :=
  collect_privileges (map (fun t => (t, [])) SCHEMA_TABLES) fetched.

(** The value [print_permissions_table] returns (what it prints is left
    out). *)
Definition print_permissions_table (perms : list (string * list string)) : bool :=
  fold_left
    (fun all_ok table =>
       let privs := match dict_get String.eqb perms table with
                    | Some l => l
                    | None => []
                    end in
       let ok := existsb (String.eqb "INSERT") privs
                 && existsb (String.eqb "SELECT") privs in
       if negb ok then false else all_ok)
    SCHEMA_TABLES true.

(** Sample inputs of the permission helpers and of the cache. *)
Definition fetched_example : list (string * string) :=
  [("lernfeld", "INSERT"); ("lernfeld", "SELECT");
   ("dozent", "SELECT"); ("dozent", "INSERT");
   ("lernfeld_dozent", "INSERT"); ("lernfeld_dozent", "SELECT");
   ("lerntag", "INSERT"); ("lerntag", "SELECT"); ("lerntag", "UPDATE");
   ("unterrichtseinheit", "INSERT"); ("unterrichtseinheit", "SELECT")].

Definition select_none (db : list (string * string)) (_ : string * string)
    : list (string * string) * answer (option Z) := (db, Result None).

Definition insert_next (db : list (string * string)) (k : string * string)
    : list (string * string) * answer (option Z) :=
  (k :: db, Result (Some (Z.of_nat (List.length db) + 1)%Z)).

Definition cache_example : db_cache :=
  {| cache_lernfelder := []; cache_dozenten := [(("Ada", "Lovelace"), 7%Z)];
     cache_lerntage := []; cache_lf_doz := [] |}.

(** A string literal of SQL read back: [s] is the text after the opening
    quote; the result is the value of the literal, a doubled quote standing
    for one quote, and the text after the closing quote. *)
Fixpoint read_sql_literal (s : string) : option (string * string) :=
  match s with
  | EmptyString => None
  | String c t =>
      if Ascii.eqb c "'" then
        match t with
        | String c' t' =>
            if Ascii.eqb c' "'" then
              match read_sql_literal t' with
              | Some (v, rest) => Some (String "'" v, rest)
              | None => None
              end
            else Some (EmptyString, t)
        | EmptyString => Some (EmptyString, EmptyString)
        end
      else
        match read_sql_literal t with
        | Some (v, rest) => Some (String c v, rest)
        | None => None
        end
  end.

(** The names in the order of their first occurrence, those of [seen]
    left out. *)
Fixpoint first_names (seen l : list (string * string)) : list (string * string) :=
  match l with
  | [] => []
  | k :: t =>
      if existsb (name_eqb k) seen then first_names seen t
      else k :: first_names (k :: seen) t
  end.

(** The name a row gives its dozent: the key of [state.dozenten]. *)
Definition row_key (r : row) : string * string :=
  (dozent_vorname r, dozent_nachname r).

(** The dozent of a row is registered and linked to the lernfeld. *)
Definition settled (lf_id : string) (state : PrintState) (r : row) : Prop :=
  exists did, dict_get name_eqb (dozenten state) (row_key r) = Some did
              /\ existsb (combo_eqb (lf_id, did)) (lf_doz state) = true.

(** What is registered in [s] is registered in [s']. *)
Definition grows (s s' : PrintState) : Prop :=
  (forall k v, dict_get name_eqb (dozenten s) k = Some v ->
               dict_get name_eqb (dozenten s') k = Some v)
  /\ (forall c, existsb (combo_eqb c) (lf_doz s) = true ->
                existsb (combo_eqb c) (lf_doz s') = true)
  /\ (forall k, dict_mem String.eqb (lernfelder s) k = true ->
                dict_mem String.eqb (lernfelder s') k = true)
  /\ (forall k, dict_mem String.eqb (lerntage s) k = true ->
                dict_mem String.eqb (lerntage s') k = true).

(** The state and the statements of [build_print_statements] after its
    lernfeld block and its loop over the dozenten. *)
Definition print_blocks (data : pdf_data) (state : PrintState)
    : PrintState * list string :=
  fold_left (print_dozent (lernfeld_id (pd_header data))) (pd_rows data)
            (print_lernfeld (pd_header data) state).

(** The state with the date registered: [state.lerntage[datum] =
    state.lerntag_seq; state.lerntag_seq += 1]. *)
Definition register_datum (datum' : string) (state : PrintState) : PrintState :=
  {| lernfelder := lernfelder state; dozenten := dozenten state;
     lerntage := dict_set String.eqb (lerntage state) datum' (lerntag_seq state);
     lf_doz := lf_doz state; dozent_seq := dozent_seq state;
     lerntag_seq := lerntag_seq state + 1; einheit_seq := einheit_seq state |}.

(** The name is in the cache and linked to the lernfeld. *)
Definition cached (lf_id : string) (cache : db_cache) (key : string * string) : Prop :=
  exists did, dict_get name_eqb (cache_dozenten cache) key = Some did
              /\ existsb (combo_eqb (lf_id, did)) (cache_lf_doz cache) = true.

(** What is in the cache [c] is in [c'], and the dates are the same. *)
Definition cache_grows (c c' : db_cache) : Prop :=
  (forall k v, dict_get name_eqb (cache_dozenten c) k = Some v ->
               dict_get name_eqb (cache_dozenten c') k = Some v)
  /\ (forall x, existsb (combo_eqb x) (cache_lf_doz c) = true ->
                existsb (combo_eqb x) (cache_lf_doz c') = true)
  /\ (forall k, existsb (String.eqb k) (cache_lernfelder c) = true ->
                existsb (String.eqb k) (cache_lernfelder c') = true)
  /\ cache_lerntage c' = cache_lerntage c.

(** While the dozenten of one document are registered on a fresh state:
    the registered names are those of [seen], the last one first; every
    registered id is below the next id and linked to the lernfeld; and the
    ids count the names from 1 in the order they were met. *)
Definition registering (lf_id : string) (seen : list (string * string))
    (state : PrintState) : Prop :=
  (forall key, dict_mem name_eqb (dozenten state) key = existsb (name_eqb key) seen)
  /\ (forall key did, dict_get name_eqb (dozenten state) key = Some did ->
        existsb (combo_eqb (lf_id, did)) (lf_doz state) = true)
  /\ (forall c, In c (lf_doz state) -> (snd c < dozent_seq state)%Z)
  /\ dozent_seq state = (Z.of_nat (List.length seen) + 1)%Z
  /\ (forall i key, nth_error (rev seen) i = Some key ->
        dict_get name_eqb (dozenten state) key = Some (Z.of_nat i + 1)%Z).

(** The two statements a name gets when it is first met. *)
Definition name_stmts (lf_id : string) (key : string * string) : list string :=
  [dozent_stmt key; lf_doz_stmt lf_id key].

(** A page that parses: the header of the specification and two slots. *)
Definition page_example : page :=
  {| extract_text := Some spec_header_text;
     extract_words :=
       [mk_word "1" 40 100 110; mk_word "2" 40 200 210;
        mk_word "Einfuehrung" 80 100 110; mk_word "Vertiefung" 80 200 210;
        mk_word "O'Neil," 460 100 110; mk_word "Pat" 500 100 110]%Q |}.

(** The value of a decimal digit, and of two and four of them. *)
Definition digit_val (c : ascii) : Z := Z.of_N (ord c) - 48.
Definition num2 (a b : ascii) : Z := 10 * digit_val a + digit_val b.
Definition num4 (a b c d : ascii) : Z :=
  1000 * digit_val a + 100 * digit_val b + 10 * digit_val c + digit_val d.

(** The text "ab.ce.fghi" and the text "fghi-ce-ab". *)
Definition dmy_text (a b c e f g h i : ascii) : string :=
  String a (String b (String "." (String c (String e (String "."
    (String f (String g (String h (String i EmptyString))))))))).
Definition iso_text (a b c e f g h i : ascii) : string :=
  String f (String g (String h (String i (String "-" (String c (String e
    (String "-" (String a (String b EmptyString))))))))).

(** A number from 0 to 9999 written with four digits. *)
Definition pad4 (n : Z) : string :=
  String (digit (n / 1000)) (String (digit (n / 100)) (pad2 n)).

(** A text without the zeros it starts with. *)
Fixpoint drop_zeros (s : string) : string :=
  match s with
  | String c t => if Ascii.eqb c "0" then drop_zeros t else s
  | EmptyString => EmptyString
  end.

(** The text "fghi-ce-ab" without the zeros the year starts with. *)
Definition ymd_text (a b c e f g h i : ascii) : string :=
  drop_zeros (String f (String g (String h (String i EmptyString))))
  ++ String "-" (String c (String e (String "-" (String a (String b EmptyString))))).

(** The two-digit days and months the pattern of [strptime] takes. *)
Definition day2 (a b : ascii) : bool :=
  Ascii.eqb "3" a && in_range 48 49 b
  || in_range 49 50 a && isdecimal b
  || Ascii.eqb "0" a && in_range 49 57 b.
Definition month2 (a b : ascii) : bool :=
  Ascii.eqb "1" a && in_range 48 50 b
  || Ascii.eqb "0" a && in_range 49 57 b.

(** The class of the characters of a unit code after "LF": a hyphen or a
    word character. *)
Definition code_char (c : ascii) : bool := is_code 45 c || is_word c.

(** A calendar date as [strftime] writes it: year, month and day between
    hyphens, month and day with two digits, the year without zeros before
    it; from the year 1000 on this is the ISO form. *)
Definition ymd_date (s : string) : Prop :=
  exists a b c e f g h i,
    forallb isdecimal [a; b; c; e; f; g; h; i] = true
    /\ s = ymd_text a b c e f g h i
    /\ valid_date (num4 f g h i) (num2 c e) (num2 a b) = true.

(** The text neither starts nor ends with white space. *)
Definition trimmed (s : string) : Prop :=
  (forall c, peek s = Some c -> isspace c = false)
  /\ (forall c, last_char s None = Some c -> isspace c = false).

(** [t] is [s] without the white space around it. *)
Definition trim_of (s t : string) : Prop :=
  trimmed t
  /\ exists l r, s = (l ++ t ++ r)%string
                 /\ all_chars isspace l = true /\ all_chars isspace r = true.

(** The captures of a match of the title pattern: the unit code, the title
    and, when the range is there, its start and possibly its end. *)
Definition titel_groups (m : match_obj) : Prop :=
  exists w t,
    all_chars code_char w = true /\ all_chars dot t = true
    /\ let base := [(2%nat, t); (1%nat, "LF" ++ w)%string] in
       groups m = base
       \/ exists d3, is_dmy d3 = true
            /\ (groups m = (3%nat, d3) :: base
                \/ exists d4, is_dmy d4 = true
                     /\ groups m = (4%nat, d4) :: (3%nat, d3) :: base).

(** * The Excel export (sql_in_excel_export.py) *)

Module Excel.
Local Open Scope string_scope.

(** ** Exceptions *)

Inductive error : Type :=
| ValueError            (* unpacking, [int], the constructor of a date *)
| OverflowError         (* [timedelta], a date plus a [timedelta] *)
| FileNotFoundError     (* the template is not there; a file operation *)
| OtherError (name : string).
                        (* any other exception of a file operation, by the
                           name of its class *)

Inductive outcome (A : Type) : Type :=
| Returns (a : A)
| Raises (e : error).
Arguments Returns {A} a.
Arguments Raises {A} e.

Definition and_then {A B : Type} (m : outcome A) (f : A -> outcome B) : outcome B :=
  match m with
  | Returns a => f a
  | Raises e => Raises e
  end.

Notation "x <~ m ;; k" := (and_then m (fun x => k))
  (at level 61, m at next level, right associativity).

(** ** Dates: the methods of [datetime.date] the export calls

    A date is the record of its year, month and day; the library counts
    days in the proleptic Gregorian calendar, day 1 being 0001-01-01. *)

Definition _MAXORDINAL : Z := 3652059.          (* date.max.toordinal() *)

(** [date(y, m, d)] *)
Definition new_date (y m d : Z) : outcome date :=
  if valid_date y m d then Returns {| year := y; month := m; day := d |}
  else Raises ValueError.

(** The number of days before January 1st of year [y]. *)
Definition days_before_year (y : Z) : Z :=
  let y := (y - 1)%Z in (y * 365 + y / 4 - y / 100 + y / 400)%Z.

Definition _DAYS_IN_MONTH (m : Z) : Z :=
  match m with
  | 1 => 31 | 2 => 28 | 3 => 31 | 4 => 30 | 5 => 31 | 6 => 30
  | 7 => 31 | 8 => 31 | 9 => 30 | 10 => 31 | 11 => 30 | 12 => 31
  | _ => 0
  end%Z.

Definition _DAYS_BEFORE_MONTH (m : Z) : Z :=
  match m with
  | 1 => 0 | 2 => 31 | 3 => 59 | 4 => 90 | 5 => 120 | 6 => 151
  | 7 => 181 | 8 => 212 | 9 => 243 | 10 => 273 | 11 => 304 | 12 => 334
  | _ => 0
  end%Z.

(** The number of days in year [y] before the first day of month [m]. *)
Definition days_before_month (y m : Z) : Z :=
  (_DAYS_BEFORE_MONTH m + (if (2 <? m) && is_leap y then 1 else 0))%Z.

(** [d.toordinal()] *)
Definition toordinal (d : date) : Z :=
  (days_before_year (year d) + days_before_month (year d) (month d) + day d)%Z.

(** [d.weekday()]: Monday is 0, Sunday is 6. *)
Definition weekday (d : date) : Z := ((toordinal d + 6) mod 7)%Z.

(** The month and the day of the [n]-th day (from 0) of a year: the month
    is estimated, then corrected. *)
Definition month_day (leapyear : bool) (n : Z) : Z * Z :=
  let m := Z.shiftr (n + 50) 5 in
  let preceding :=
    (_DAYS_BEFORE_MONTH m + (if (2 <? m) && leapyear then 1 else 0))%Z in
  if (n <? preceding)%Z then
    let m := (m - 1)%Z in
    let preceding :=
      (preceding - (_DAYS_IN_MONTH m + (if (m =? 2) && leapyear then 1 else 0)))%Z in
    (m, n - preceding + 1)%Z
  else (m, n - preceding + 1)%Z.

(** [date.fromordinal(n)]: the 400-year, 100-year and 4-year cycles that
    precede day [n], then the single years. *)
Definition fromordinal (n : Z) : date :=
  let n := (n - 1)%Z in
  let n400 := (n / 146097)%Z in
  let n := (n mod 146097)%Z in
  let y := (n400 * 400 + 1)%Z in
  let n100 := (n / 36524)%Z in
  let n := (n mod 36524)%Z in
  let n4 := (n / 1461)%Z in
  let n := (n mod 1461)%Z in
  let n1 := (n / 365)%Z in
  let n := (n mod 365)%Z in
  let y := (y + n100 * 100 + n4 * 4 + n1)%Z in
  if ((n1 =? 4) || (n100 =? 4))%Z then {| year := y - 1; month := 12; day := 31 |}
  else
    let leapyear := ((n1 =? 3) && (negb (n4 =? 24) || (n100 =? 3)))%Z in
    let '(m, d) := month_day leapyear n in
    {| year := y; month := m; day := d |}.

(** [timedelta(weeks=weeks, days=days).days] *)
Definition timedelta (weeks days : Z) : outcome Z :=
  let d := (days + weeks * 7)%Z in
  if (999999999 <? Z.abs d)%Z then Raises OverflowError else Returns d.

(** [d + timedelta(days=days)] *)
Definition date_add (d : date) (days : Z) : outcome date :=
  let o := (toordinal d + days)%Z in
  if ((0 <? o) && (o <=? _MAXORDINAL))%Z then Returns (fromordinal o)
  else Raises OverflowError.

(** The ordinal of the Monday of the first ISO week of year [y], the week
    that holds the year's first Thursday. *)
Definition isoweek1monday (y : Z) : Z :=
  let firstday := (days_before_year y + 1)%Z in
  let firstweekday := ((firstday + 6) mod 7)%Z in
  let week1monday := (firstday - firstweekday)%Z in
  if (3 <? firstweekday)%Z then (week1monday + 7)%Z else week1monday.

(** [d.isocalendar()]: the ISO year, the week number and the weekday. *)
Definition isocalendar (d : date) : Z * Z * Z :=
  let y := year d in
  let week1monday := isoweek1monday y in
  let today := toordinal d in
  let week := ((today - week1monday) / 7)%Z in
  let wd := ((today - week1monday) mod 7)%Z in
  if (week <? 0)%Z then
    let y := (y - 1)%Z in
    let week1monday := isoweek1monday y in
    (y, (today - week1monday) / 7 + 1, (today - week1monday) mod 7 + 1)%Z
  else if ((52 <=? week) && (isoweek1monday (y + 1) <=? today))%Z then
    (y + 1, 1, wd + 1)%Z
  else (y, week + 1, wd + 1)%Z.

(** [d.strftime('%d.%m.%Y')]: the year is written as the number it is,
    without zeros before a year below 1000. *)
Definition strftime_dmY (d : date) : string :=
  pad2 (day d) ++ "." ++ pad2 (month d) ++ "." ++ str_int (year d).

(** ** Strings *)

(** [format(n, '02d')] *)
Definition format_02d (n : Z) : string :=
  if ((0 <=? n) && (n <? 10))%Z then "0" ++ str_int n else str_int n.

Definition text_of (cur : list ascii) : string := string_of_list_ascii (rev cur).

(** [s.split(sep)] for a non-empty [sep]: the cuts are made left to right;
    [skip] counts the characters of a separator still to pass, [cur] holds
    the piece being read, reversed. *)
Fixpoint split_aux (sep : string) (skip : nat) (cur : list ascii) (s : string)
    : list string :=
  match s with
  | EmptyString => [text_of cur]
  | String c t =>
      match skip with
      | S k => split_aux sep k cur t
      | O =>
          if String.prefix sep s
          then text_of cur :: split_aux sep (String.length sep - 1) [] t
          else split_aux sep 0 (c :: cur) t
      end
  end.

Definition split (sep s : string) : list string := split_aux sep 0 [] s.

(** The digits of an [int] literal, single underscores between them. *)
Fixpoint int_literal (acc : Z) (after_digit : bool) (s : string) : option Z :=
  match s with
  | EmptyString => if after_digit then Some acc else None
  | String c t =>
      if isdecimal c then int_literal (10 * acc + (Z.of_N (ord c) - 48))%Z true t
      else if Ascii.eqb c "_" && after_digit then
        match t with
        | String c' _ => if isdecimal c' then int_literal acc false t else None
        | EmptyString => None
        end
      else None
  end.

(** [int(s)]: white space around, a sign, decimal digits (the interpreter's
    cap on the length of a literal is not modelled). *)
Definition int (s : string) : outcome Z :=
  let body := match strip s with
              | String "+" t => int_literal 0 false t
              | String "-" t => option_map Z.opp (int_literal 0 false t)
              | t => int_literal 0 false t
              end in
  match body with
  | Some n => Returns n
  | None => Raises ValueError
  end.

(** ** Data classes *)

Record Unterrichtseinheit : Type := {
  einheit_id : Z;
  stunde : Z;
  inhalt : string
}.

Record Dozent : Type := {
  dozent_id : Z;
  vorname : string;
  nachname : string
}.

Definition full_name (d : Dozent) : string := vorname d ++ " " ++ nachname d.

Record Lernfeld : Type := {
  lernfeld_id : string;
  titel : string;
  start_datum : option date;
  end_datum : option date;
  dozenten : list Dozent
}.

Record Lerntag : Type := {
  lerntag_id : Z;
  datum : date;
  lernfeld : option Lernfeld;
  dozent : option Dozent;
  einheiten : list Unterrichtseinheit
}.

(** The properties [calendar_week], [year] (here [iso_year], [year] being
    the field of a date) and [year_week] of a Lerntag. *)
Definition calendar_week (lt : Lerntag) : Z := snd (fst (isocalendar (datum lt))).

Definition iso_year (lt : Lerntag) : Z := fst (fst (isocalendar (datum lt))).

Definition year_week (lt : Lerntag) : string :=
  str_int (iso_year lt) ++ "-KW" ++ format_02d (calendar_week lt).

(** ** Grouping helpers *)

(** [sorted(groups.items())]: the keys of a dict differ, so the order of the
    pairs is the order of their keys, compared as strings are, character by
    character. *)
Fixpoint insert_item {V : Type} (x : string * V) (l : list (string * V))
    : list (string * V) :=
  match l with
  | [] => [x]
  | y :: t => if String.leb (fst x) (fst y) then x :: l else y :: insert_item x t
  end.

Definition sorted_items {V : Type} (l : list (string * V)) : list (string * V) :=
  fold_right insert_item [] l.

(** One turn of the loop: [groups[lt.year_week].append(lt)] on a
    [defaultdict(list)]. *)
Definition add_to_group (groups : list (string * list Lerntag)) (lt : Lerntag)
    : list (string * list Lerntag) :=
  let key := year_week lt in
  let members := match dict_get String.eqb groups key with
                 | Some l => l
                 | None => []
                 end in
  dict_set String.eqb groups key (members ++ [lt])%list.

Definition group_by_calendar_week (lerntage : list Lerntag)
    : list (string * list Lerntag) :=
  sorted_items (fold_left add_to_group lerntage []).

(** ** Excel Berichtsheft export (template-based) *)

(** The value of a cell: [None], a number or a text. *)
Inductive value : Type :=
| Empty
| Number (n : Z)
| Text (s : string).

(** The sheet: the values of its cells by row and column, the heights of
    its rows ([None] lets Excel fit the row), and its title.  Formats are
    not touched by the code and left out.  A cell is taken to hold what is
    written to it as it is: the library itself refuses a text with a
    control character, cuts a text after 32767 characters, and refuses a
    value for a cell that a merged range covers without starting there. *)
Record worksheet : Type := {
  cell : Z -> Z -> value;
  height : Z -> option Q;
  title : string
}.

(** [ws.cell(row=row, column=column).value = v] *)
Definition set_cell (ws : worksheet) (row column : Z) (v : value) : worksheet :=
  {| cell := fun r c => if ((r =? row) && (c =? column))%Z then v else cell ws r c;
     height := height ws;
     title := title ws |}.

(** [ws.row_dimensions[row].height = h] *)
Definition set_height (ws : worksheet) (row : Z) (h : option Q) : worksheet :=
  {| cell := cell ws;
     height := fun r => if (r =? row)%Z then h else height ws r;
     title := title ws |}.

(** [ws.title = t] *)
Definition set_title (ws : worksheet) (t : string) : worksheet :=
  {| cell := cell ws; height := height ws; title := t |}.

(** Template layout: first Excel row for each weekday block (Mon=0 ...
    Fri=4). *)
Definition _DAY_FIRST_ROW : list (Z * Z) :=
  [(0, 4); (1, 15); (2, 26); (3, 37); (4, 48)]%Z.
Definition _ROWS_PER_DAY : nat := 11.
Definition _CONTENT_COL : Z := 2.      (* column B *)
Definition _HOURS_COL : Z := 10.       (* column J *)

(** [range(n)] *)
Definition range (n : nat) : list Z := map Z.of_nat (seq 0 n).

(** The body of the inner loop of [_clear_data_cells]. *)
Definition clear_row (first_row : Z) (ws : worksheet) (offset : Z) : worksheet :=
  let row := (first_row + offset)%Z in
  let ws := set_cell ws row _CONTENT_COL Empty in
  let ws := set_cell ws row _HOURS_COL Empty in
  set_height ws row None.

(** Erase variable content cells, leaving all formatting intact. *)
Definition _clear_data_cells (ws : worksheet) : worksheet :=
  let ws := set_cell ws 1 4 Empty in
  let ws := set_cell ws 1 6 Empty in
  let ws := set_cell ws 2 6 Empty in
  let ws :=
    fold_left (fun ws first_row => fold_left (clear_row first_row) (range _ROWS_PER_DAY) ws)
              (map snd _DAY_FIRST_ROW) ws in
  set_cell ws 59 _HOURS_COL Empty.

(** [sorted(l, key=lambda e: e.stunde)]: stable. *)
Fixpoint insert_by_stunde (e : Unterrichtseinheit) (l : list Unterrichtseinheit)
    : list Unterrichtseinheit :=
  match l with
  | [] => [e]
  | x :: t => if (stunde e <=? stunde x)%Z then e :: l else x :: insert_by_stunde e t
  end.

Definition sorted_by_stunde (l : list Unterrichtseinheit) : list Unterrichtseinheit :=
  fold_right insert_by_stunde [] l.

(** [next((f(lt) for lt in l if f(lt)), None)]: an instance of a data class
    is true. *)
Fixpoint first_some {A B : Type} (f : A -> option B) (l : list A) : option B :=
  match l with
  | [] => None
  | x :: t => match f x with
              | Some y => Some y
              | None => first_some f t
              end
  end.

(** The loop that builds [day_map]. *)
Definition add_day (day_map : list (Z * Lerntag)) (lt : Lerntag) : list (Z * Lerntag) :=
  let wd := weekday (datum lt) in
  if ((0 <=? wd) && (wd <=? 4))%Z then dict_set Z.eqb day_map wd lt else day_map.

(** The body of the inner loop that fills a day block. *)
Definition fill_row (einheiten' : list Unterrichtseinheit) (first_row : Z)
    (acc : worksheet * Z) (offset : Z) : worksheet * Z :=
  let '(ws, total_hours) := acc in
  let row := (first_row + offset)%Z in
  if (offset <? Z.of_nat (List.length einheiten'))%Z then
    match nth_error einheiten' (Z.to_nat offset) with
    | Some e =>
        let ws := set_cell ws row _CONTENT_COL (Text (inhalt e)) in
        let ws := set_cell ws row _HOURS_COL (Number 1) in
        (ws, total_hours + 1)%Z
    | None => (ws, total_hours)          (* not reached *)
    end
  else (ws, total_hours).

(** The body of the loop over the day blocks (its warning on the console
    left out). *)
Definition fill_day (day_map : list (Z * Lerntag)) (acc : worksheet * Z)
    (item : Z * Z) : worksheet * Z :=
  let '(day_idx, first_row) := item in
  let einheiten' := match dict_get Z.eqb day_map day_idx with
                    | Some lt => sorted_by_stunde (einheiten lt)
                    | None => []
                    end in
  fold_left (fill_row einheiten' first_row) (range _ROWS_PER_DAY) acc.

(** The en dash of the header, outside Latin-1: its three bytes in UTF-8.
    Nothing here looks into it. *)
Definition en_dash : string :=
  String (ascii_of_nat 226) (String (ascii_of_nat 128) (String (ascii_of_nat 147) "")).

(** The Monday and the Friday of calendar week [kw_number] of
    [kw_year], as [_fill_sheet] computes them from January 4th. *)
Definition week_range (kw_number kw_year : Z) : outcome (date * date) :=
  jan4 <~ new_date kw_year 1 4 ;;
  delta <~ timedelta (kw_number - snd (fst (isocalendar jan4))) (- weekday jan4) ;;
  week_mon <~ date_add jan4 delta ;;
  four <~ timedelta 0 4 ;;
  week_fri <~ date_add week_mon four ;;
  Returns (week_mon, week_fri).

(** What [_fill_sheet] writes, the dates being there. *)
Definition write_sheet (ws : worksheet) (day_map : list (Z * Lerntag))
    (lf_sample : option Lernfeld) (doz_sample : option Dozent)
    (week_mon week_fri : date) (kw_number kw_year report_nr : Z) : worksheet :=
  let date_range :=
    "Woche vom " ++ strftime_dmY week_mon ++ " bis " ++ strftime_dmY week_fri in
  let lf_part := match lf_sample with
                 | Some lf => nl ++ lernfeld_id lf ++ " " ++ en_dash ++ " " ++ titel lf
                 | None => ""
                 end in
  let h1_value := date_range ++ lf_part in
  let ws := set_cell ws 1 4 (Text ("Nr. " ++ str_int report_nr)) in
  let ws := set_cell ws 1 6 (Text h1_value) in
  let doz_name := match doz_sample with
                  | Some d => full_name d
                  | None => ""
                  end in
  let ws := set_cell ws 2 6 (Text ("Ausbilder: " ++ doz_name)) in
  let '(ws, total_hours) := fold_left (fill_day day_map) _DAY_FIRST_ROW (ws, 0%Z) in
  let ws := set_cell ws 59 _HOURS_COL (Number total_hours) in
  set_title ws ("KW" ++ format_02d kw_number ++ " " ++ str_int kw_year).

(** Write week data into the cleared template sheet. *)
Definition _fill_sheet (ws : worksheet) (week_lerntage : list Lerntag)
    (kw_number kw_year report_nr : Z) : outcome worksheet :=
  let day_map := fold_left add_day week_lerntage [] in
  let lf_sample := first_some lernfeld week_lerntage in
  let doz_sample := first_some dozent week_lerntage in
  week <~ week_range kw_number kw_year ;;
  Returns (write_sheet ws day_map lf_sample doz_sample (fst week) (snd week)
             kw_number kw_year report_nr).

(** [os.path.join(a, b)], as on POSIX. *)
Definition ends_with_sep (a : string) : bool :=
  match last_char a None with
  | Some c => Ascii.eqb c "/"
  | None => false
  end.

Definition path_join (a b : string) : string :=
  if String.prefix "/" b then b
  else if String.eqb a "" || ends_with_sep a then a ++ b
  else a ++ "/" ++ b.

(** The files are behind [os], [shutil] and [openpyxl].  The file system
    is any type [FS]; a call that writes takes it and gives it back, with
    the exception the call raised, if it raised one; [os.path.isfile] and
    [load_workbook] read it.  A workbook is seen through its active sheet,
    the only one the code touches: [load_workbook fs path] stands for
    [load_workbook(path)] with [wb.active] after it, [save fs ws path] for
    [wb.save(path)] of the workbook with that sheet. *)
Section Files.
Context {FS : Type}.
Variable isfile : FS -> string -> bool.
Variable makedirs : FS -> string -> FS * option error.    (* [exist_ok=True] *)
Variable copy2 : FS -> string -> string -> FS * option error.
Variable load_workbook : FS -> string -> outcome worksheet.
Variable save : FS -> worksheet -> string -> FS * option error.

(** Generate a Berichtsheft for one calendar week. *)
Definition create_berichtsheft (fs : FS) (lerntage : list Lerntag)
    (year_week' output_path : string) (report_nr : Z) (template_path : string)
    : FS * outcome unit :=
  let by_kw := group_by_calendar_week lerntage in
  let week_days := match dict_get String.eqb by_kw year_week' with
                   | Some l => l
                   | None => []
                   end in
  match split "-KW" year_week' with
  | [kw_year_str; kw_str] =>
      match int kw_str with
      | Raises e => (fs, Raises e)
      | Returns kw_number =>
      match int kw_year_str with
      | Raises e => (fs, Raises e)
      | Returns kw_year =>
      if negb (isfile fs template_path) then (fs, Raises FileNotFoundError)
      else
        match copy2 fs template_path output_path with
        | (fs, Some e) => (fs, Raises e)
        | (fs, None) =>
        match load_workbook fs output_path with
        | Raises e => (fs, Raises e)
        | Returns ws =>
        let ws := _clear_data_cells ws in
        match _fill_sheet ws week_days kw_number kw_year report_nr with
        | Raises e => (fs, Raises e)
        | Returns ws =>
        match save fs ws output_path with
        | (fs, Some e) => (fs, Raises e)
        | (fs, None) => (fs, Returns tt)
        end
        end
        end
        end
      end
      end
  | _ => (fs, Raises ValueError)
  end.

(** The loop of [create_all_berichtshefte]: [nr] counts the weeks from
    1, and the first call that raises ends the loop. *)
Fixpoint export_weeks (fs : FS) (lerntage : list Lerntag)
    (output_dir template_path : string) (nr : Z) (weeks : list (string * list Lerntag))
    : FS * outcome unit :=
  match weeks with
  | [] => (fs, Returns tt)
  | (year_week', _) :: rest =>
      let filename :=
        path_join output_dir ("berichtsheft_" ++ year_week' ++ ".xlsx") in
      match create_berichtsheft fs lerntage year_week' filename nr template_path with
      | (fs, Raises e) => (fs, Raises e)
      | (fs, Returns _) =>
          export_weeks fs lerntage output_dir template_path (nr + 1)%Z rest
      end
  end.

(** Export one Berichtsheft per calendar week found in the data. *)
Definition create_all_berichtshefte (fs : FS) (lerntage : list Lerntag)
    (output_dir template_path : string) : FS * outcome unit :=
  match makedirs fs output_dir with
  | (fs, Some e) => (fs, Raises e)
  | (fs, None) =>
      let by_kw := group_by_calendar_week lerntage in
      export_weeks fs lerntage output_dir template_path 1 (sorted_items by_kw)
  end.
End Files.

(** ** Notions used in the properties of the export *)

(** A date that the constructor accepts. *)
Definition valid (d : date) : Prop := valid_date (year d) (month d) (day d) = true.

(** The ordinal of the Monday on or before a date. *)
Definition monday_of (d : date) : Z := (toordinal d - weekday d)%Z.

(** The order of the items of a dict by their keys. *)
Definition key_le {V : Type} (x y : string * V) : Prop :=
  String.leb (fst x) (fst y) = true.
Definition key_lt {V : Type} (x y : string * V) : Prop :=
  String.ltb (fst x) (fst y) = true.

(** The Lerntage of a list with a given key, in the order of the list, and
    the group they make when there are any. *)
Definition members_of (key : string) (lerntage : list Lerntag) : list Lerntag :=
  filter (fun lt => String.eqb (year_week lt) key) lerntage.

Definition group_of (key : string) (lerntage : list Lerntag) : option (list Lerntag) :=
  match members_of key lerntage with
  | [] => None
  | m => Some m
  end.

(** The units of a weekday in [day_map], in the order of the sheet. *)
Definition day_units (day_map : list (Z * Lerntag)) (day_idx : Z)
    : list Unterrichtseinheit :=
  match dict_get Z.eqb day_map day_idx with
  | Some lt => sorted_by_stunde (einheiten lt)
  | None => []
  end.

(** The unit that belongs in row [r] of the sheet: rows 4 to 58 are the
    five day blocks of eleven rows. *)
Definition slot (day_map : list (Z * Lerntag)) (r : Z) : option Unterrichtseinheit :=
  if ((4 <=? r) && (r <=? 58))%Z
  then nth_error (day_units day_map ((r - 4) / 11)) (Z.to_nat ((r - 4) mod 11))
  else None.

(** The cells the export writes: D1, F1 and F2 of the header, columns B
    and J of the day blocks, and J59. *)
Definition header_cell (r c : Z) : bool :=
  ((r =? 1) && ((c =? 4) || (c =? 6)) || (r =? 2) && (c =? 6))%Z.

Definition block_cell (r c : Z) : bool :=
  ((4 <=? r) && (r <=? 58) && ((c =? 2) || (c =? 10)))%Z.

Definition total_cell (r c : Z) : bool := ((r =? 59) && (c =? 10))%Z.

Definition data_cell (r c : Z) : bool :=
  header_cell r c || block_cell r c || total_cell r c.

(** The number of rows a weekday fills, and the sum over the week. *)
Definition filled (day_map : list (Z * Lerntag)) (day_idx : Z) : nat :=
  Nat.min _ROWS_PER_DAY (List.length (day_units day_map day_idx)).

Definition total_units (day_map : list (Z * Lerntag)) : Z :=
  Z.of_nat (filled day_map 0 + filled day_map 1 + filled day_map 2
            + filled day_map 3 + filled day_map 4).

(** The rows of the day blocks. *)
Definition block_rows : list Z := map (fun k => (4 + Z.of_nat k)%Z) (seq 0 55).

Definition is_one (v : value) : bool :=
  match v with
  | Number 1 => true
  | _ => false
  end.

Definition le_stunde (a b : Unterrichtseinheit) : Prop := (stunde a <= stunde b)%Z.

(** The last Lerntag of a list that falls on a weekday. *)
Definition day_lerntag (week_lerntage : list Lerntag) (day_idx : Z) : option Lerntag :=
  find (fun lt => (weekday (datum lt) =? day_idx)%Z) (rev week_lerntage).

(** The unit that belongs in row [r], from the Lerntage of the week. *)
Definition unit_at (week_lerntage : list Lerntag) (r : Z) : option Unterrichtseinheit :=
  if ((4 <=? r) && (r <=? 58))%Z then
    match day_lerntag week_lerntage ((r - 4) / 11) with
    | Some lt => nth_error (sorted_by_stunde (einheiten lt)) (Z.to_nat ((r - 4) mod 11))
    | None => None
    end
  else None.

(** Sample data: three Lerntage, a template, and the sheet of week 10. *)
Definition lerntage_example : list Lerntag :=
  [ {| lerntag_id := 1; datum := {| year := 2024; month := 3; day := 5 |};
       lernfeld := None; dozent := None;
       einheiten := [ {| einheit_id := 1; stunde := 2; inhalt := "b" |};
                      {| einheit_id := 2; stunde := 1; inhalt := "a" |} ] |};
    {| lerntag_id := 2; datum := {| year := 2024; month := 12; day := 30 |};
       lernfeld := None; dozent := None; einheiten := [] |};
    {| lerntag_id := 3; datum := {| year := 2024; month := 3; day := 4 |};
       lernfeld := None; dozent := None;
       einheiten := [ {| einheit_id := 3; stunde := 1; inhalt := "m" |} ] |} ].

Definition template_example : worksheet :=
  {| cell := fun _ _ => Text "old"; height := fun _ => Some 1%Q; title := "Vorlage" |}.

Definition sheet_example : worksheet :=
  write_sheet (_clear_data_cells template_example)
    (fold_left add_day lerntage_example [])
    (first_some lernfeld lerntage_example) (first_some dozent lerntage_example)
    {| year := 2024; month := 3; day := 4 |} {| year := 2024; month := 3; day := 8 |}
    10 2024 7.

(** The sheet of a week: what [_fill_sheet] returns on the cleared sheet
    [ws] for the Lerntage of the week, with the ISO week and year of the
    first of them. *)
Definition week_sheet (ws : worksheet) (members : list Lerntag) (report_nr : Z)
    : worksheet :=
  match members with
  | [] => ws
  | lt :: _ =>
      match _fill_sheet (_clear_data_cells ws) members (calendar_week lt) (iso_year lt)
              report_nr with
      | Returns sheet => sheet
      | Raises _ => ws
      end
  end.

(** The path of the file of a week: the directory, a slash unless the
    directory is the empty text or ends with one, and the name of the
    file. *)
Definition week_path (output_dir key : string) : string :=
  output_dir
  ++ (if String.eqb output_dir "" || ends_with_sep output_dir then "" else "/")
  ++ "berichtsheft_" ++ key ++ ".xlsx".

Section FileSteps.
Context {FS : Type}.
Variable isfile : FS -> string -> bool.
Variable copy2 : FS -> string -> string -> FS * option error.
Variable load_workbook : FS -> string -> outcome worksheet.
Variable save : FS -> worksheet -> string -> FS * option error.

(** The file operations for one week, in their order: the test of the
    template, the copy, the loading of the copy, and the saving of the
    sheet of the week in its place; the first that raises ends them. *)
Definition write_week (fs : FS) (template_path output_path : string)
    (members : list Lerntag) (nr : Z) : FS * outcome unit :=
  if isfile fs template_path then
    match copy2 fs template_path output_path with
    | (fs, Some e) => (fs, Raises e)
    | (fs, None) =>
        match load_workbook fs output_path with
        | Raises e => (fs, Raises e)
        | Returns ws =>
            match save fs (week_sheet ws members nr) output_path with
            | (fs, Some e) => (fs, Raises e)
            | (fs, None) => (fs, Returns tt)
            end
        end
    end
  else (fs, Raises FileNotFoundError).

(** The same for the weeks one after the other, numbered from [nr]. *)
Fixpoint write_weeks (fs : FS) (output_dir template_path : string) (nr : Z)
    (weeks : list (string * list Lerntag)) : FS * outcome unit :=
  match weeks with
  | [] => (fs, Returns tt)
  | (key, members) :: rest =>
      match write_week fs template_path (week_path output_dir key) members nr with
      | (fs, Raises e) => (fs, Raises e)
      | (fs, Returns _) => write_weeks fs output_dir template_path (nr + 1)%Z rest
      end
  end.
End FileSteps.

(** A file system for the examples: the workbooks by their paths; every
    directory is there, and a call raises only for a file that is not. *)
Definition files : Type := list (string * worksheet).

Definition files_isfile (fs : files) (path : string) : bool :=
  dict_mem String.eqb fs path.
Definition files_makedirs (fs : files) (path : string) : files * option error :=
  (fs, None).
Definition files_copy2 (fs : files) (src dst : string) : files * option error :=
  match dict_get String.eqb fs src with
  | Some wb => (dict_set String.eqb fs dst wb, None)
  | None => (fs, Some FileNotFoundError)
  end.
Definition files_load_workbook (fs : files) (path : string) : outcome worksheet :=
  match dict_get String.eqb fs path with
  | Some wb => Returns wb
  | None => Raises FileNotFoundError
  end.
Definition files_save (fs : files) (wb : worksheet) (path : string)
    : files * option error :=
  (dict_set String.eqb fs path wb, None).

Definition files_example : files := [("vorlage.xlsx", template_example)].

End Excel.

(** * Properties *)

(** ** Header extractor *)

(** C7: the header text of the specification's example parses to the date
    2024-03-05, the unit LF12, the title Grundlagen and the range 2024-03-01
    to 2024-04-05, every date in ISO form and the title trimmed; and
    [parse_date] maps 05.03.2024 to 2024-03-05. *)
Theorem parse_header_spec_example :
  parse_header spec_header_text
  = Ok {| datum := "2024-03-05";
          lernfeld_id := "LF12";
          titel := "Grundlagen";
          start_datum := Some "2024-03-01";
          end_datum := Some "2024-04-05" |}
  /\ parse_date "05.03.2024" = Ok "2024-03-05".
Proof. split; vm_compute; reflexivity. Qed.

(** C10: a header whose "Datum:" field matches the digit pattern but is no
    calendar date (31.02.2024) makes [parse_header] fail with the error of
    the date conversion, which is none of the three failures the program
    raises itself. *)
Theorem parse_header_invalid_calendar_date :
  (exists m, re_search DATUM_RE bad_date_header_text = Some m
             /\ group (groups m) 1 = Some "31.02.2024")
  /\ (exists m, re_search TITEL_RE bad_date_header_text = Some m)
  /\ parse_date "31.02.2024" = Err (StrptimeError "31.02.2024")
  /\ parse_header bad_date_header_text = Err (StrptimeError "31.02.2024")
  /\ StrptimeError "31.02.2024" <> HeaderParseError_date_missing
  /\ StrptimeError "31.02.2024" <> HeaderParseError_title_missing
  /\ StrptimeError "31.02.2024" <> NoRowsFoundError.
Proof.
  repeat split; try discriminate; try (vm_compute; reflexivity);
    eexists; vm_compute; try split; reflexivity.
Qed.

(** *** The date and title patterns, read declaratively *)

Lemma exec_lit {R : Type} (p : string) (prev : option ascii) (s : string)
    (c : caps) (k : option ascii -> string -> caps -> option R) (x : R) :
  exec (lit p) prev s c k = Some x ->
  exists s', s = (p ++ s')%string /\ k (last_char p prev) s' c = Some x.
Proof.
  revert prev s. induction p as [|a p IH]; intros prev s; simpl.
  - intros H. exists s. auto.
  - destruct s as [|b t]; [discriminate|].
    destruct (Ascii.eqb a b) eqn:E; [|discriminate].
    apply Ascii.eqb_eq in E. subst b. intros H.
    destruct (IH _ _ H) as (s' & -> & K). eauto.
Qed.

Lemma exec_lit_ok {R : Type} (p : string) (prev : option ascii) (s : string)
    (c : caps) (k : option ascii -> string -> caps -> option R) :
  exec (lit p) prev (p ++ s) c k = k (last_char p prev) s c.
Proof.
  revert prev. induction p as [|a p IH]; intros prev; simpl; [reflexivity|].
  rewrite Ascii.eqb_refl. apply IH.
Qed.

(** A greedy repetition of a class takes characters of the class. *)
Lemma rep_greedy_sound {R : Type} (p : ascii -> bool) (s : string)
    (prev : option ascii) (k : option ascii -> string -> option R) (x : R) :
  rep true 0 p prev s k = Some x ->
  exists ws s', s = (ws ++ s')%string /\ all_chars p ws = true
                /\ k (last_char ws prev) s' = Some x.
Proof.
  revert prev. induction s as [|a t IH]; intros prev; simpl.
  - intros H. exists "", "". auto.
  - destruct (p a) eqn:P.
    + destruct (rep true 0 p (Some a) t k) as [y|] eqn:E.
      * intros H. inversion H; subst y.
        destruct (IH _ E) as (ws & s' & -> & A & K).
        exists (String a ws), s'. simpl. rewrite P, A. auto.
      * intros H. exists "", (String a t). auto.
    + intros H. exists "", (String a t). auto.
Qed.

Lemma rep_greedy_some {R : Type} (p : ascii -> bool) (ws s : string)
    (prev : option ascii) (k : option ascii -> string -> option R) :
  all_chars p ws = true ->
  (forall prev', k prev' s <> None) ->
  rep true 0 p prev (ws ++ s) k <> None.
Proof.
  intros A K. revert prev. induction ws as [|a ws IH]; intros prev.
  - simpl. destruct s as [|b t]; simpl; [apply K|].
    destruct (p b); [|apply K].
    destruct (rep true 0 p (Some b) t k); [discriminate | apply K].
  - simpl in *. apply andb_true_iff in A. destruct A as [-> A].
    specialize (IH A (Some a)).
    destruct (rep true 0 p (Some a) (ws ++ s) k); [discriminate | congruence].
Qed.

Lemma exec_dmy {R : Type} (prev : option ascii) (s : string) (c : caps)
    (k : option ascii -> string -> caps -> option R) (x : R) :
  exec dmy prev s c k = Some x ->
  exists d tail, s = (d ++ tail)%string /\ is_dmy d = true
                 /\ k (last_char d prev) tail c = Some x.
Proof.
  destruct s as [|c0 [|c1 [|c2 [|c3 [|c4 [|c5 [|c6 [|c7 [|c8 [|c9 tail]]]]]]]]]];
    simpl;
    repeat match goal with
           | |- (if ?b then _ else _) = Some _ -> _ =>
               destruct b eqn:?; [|discriminate]
           | |- None = Some _ -> _ => discriminate
           end.
  intros H.
  exists (String c0 (String c1 (String c2 (String c3 (String c4 (String c5
            (String c6 (String c7 (String c8 (String c9 "")))))))))), tail.
  split; [reflexivity|]. split; [|exact H].
  simpl. repeat match goal with E : _ = true |- _ => rewrite E; clear E end.
  reflexivity.
Qed.

Lemma exec_dmy_ok {R : Type} (prev : option ascii) (d tail : string) (c : caps)
    (k : option ascii -> string -> caps -> option R) :
  is_dmy d = true ->
  exec dmy prev (d ++ tail) c k = k (last_char d prev) tail c.
Proof.
  destruct d as [|c0 [|c1 [|c2 [|c3 [|c4 [|c5 [|c6 [|c7 [|c8 [|c9 [|]]]]]]]]]]];
    try discriminate.
  unfold is_dmy. intros H.
  repeat match type of H with
         | (_ && _) = true => apply andb_true_iff in H; destruct H as [H ?]
         end.
  repeat match goal with
         | E : Ascii.eqb _ _ = true |- _ => apply Ascii.eqb_eq in E; subst
         end.
  simpl. repeat match goal with E : _ = true |- _ => rewrite E; clear E end.
  reflexivity.
Qed.

(** The date pattern matches at a position exactly when the date field
    stands there. *)
Lemma match_datum_iff (prev : option ascii) (s : string) :
  match_at DATUM_RE prev s <> None <-> date_field_here s.
Proof.
  unfold match_at, DATUM_RE. cbn [seqs exec]. split.
  - destruct (exec (lit "Datum:") _ _ _ _) as [m|] eqn:E; [|congruence]. intros _.
    apply exec_lit in E. destruct E as (s1 & -> & E).
    apply rep_greedy_sound in E. destruct E as (ws & s2 & -> & A & E).
    apply exec_dmy in E. destruct E as (d & tail & -> & D & _).
    exists ws, d, tail. auto.
  - intros (ws & d & tail & -> & A & D).
    rewrite exec_lit_ok. apply rep_greedy_some; [exact A|].
    intros prev'. rewrite (exec_dmy_ok _ _ _ _ _ D). discriminate.
Qed.

Lemma search_none (r : regex) (s : string) (prev : option ascii) :
  search_from r prev s = None <->
  forall pre suf, s = (pre ++ suf)%string -> match_at r (last_char pre prev) suf = None.
Proof.
  revert prev. induction s as [|a t IH]; intros prev; simpl.
  - destruct (match_at r prev "") eqn:M.
    + split; [discriminate|]. intros H. rewrite <- M. apply (H "" ""). reflexivity.
    + split; [|reflexivity]. intros _ pre suf E.
      destruct pre; [|discriminate]. simpl in E. subst. exact M.
  - destruct (match_at r prev (String a t)) eqn:M.
    + split; [discriminate|]. intros H. rewrite <- M. apply (H "" (String a t)).
      reflexivity.
    + rewrite IH. split.
      * intros H pre suf E. destruct pre as [|b pre]; simpl in E.
        -- subst. exact M.
        -- inversion E; subst. simpl. apply H. reflexivity.
      * intros H pre suf E. apply (H (String a pre) suf). simpl. congruence.
Qed.

(** The date pattern is absent from a text exactly when no date field
    stands in it. *)
Lemma datum_absent_iff (text : string) :
  re_search DATUM_RE text = None <-> ~ has_date_field text.
Proof.
  unfold re_search. rewrite search_none. split.
  - intros H (pre & s & E & D). specialize (H pre s E).
    apply (proj2 (match_datum_iff (last_char pre None) s)) in D. contradiction.
  - intros H pre suf E.
    destruct (match_at DATUM_RE (last_char pre None) suf) eqn:M; [|reflexivity].
    exfalso. apply H. exists pre, suf. split; [exact E|].
    apply (match_datum_iff (last_char pre None)). congruence.
Qed.

(** Without the label "Titel:" the title pattern is absent. *)
Lemma titel_absent (text : string) :
  ~ occurs "Titel:" text -> re_search TITEL_RE text = None.
Proof.
  intros H. unfold re_search. apply search_none. intros pre suf E.
  unfold match_at, TITEL_RE. cbn [seqs exec].
  destruct (exec (lit "Titel:") _ _ _ _) eqn:X; [|reflexivity].
  apply exec_lit in X. destruct X as (s' & -> & _).
  exfalso. apply H. exists pre, s'. exact E.
Qed.

(** C8, as stated, fails: when both patterns are absent the date is
    reported, not the title. *)
Lemma parse_header_title_missing_counterexample :
  ~ (forall text, re_search TITEL_RE text = None ->
       parse_header text = Err HeaderParseError_title_missing).
Proof.
  intro H. specialize (H "" eq_refl). vm_compute in H. discriminate H.
Qed.

(** C8, amended: a text without the date pattern (that is, without a date
    field: the label "Datum:", white space, a date shape) fails with the
    date failure; a text with the date pattern but without the title pattern
    (as when the label "Titel:" does not occur) fails with the title
    failure, whatever the date is; no header is returned in either case. *)
Theorem parse_header_missing_fields (text : string) :
  (re_search DATUM_RE text = None ->
     parse_header text = Err HeaderParseError_date_missing)
  /\ (~ has_date_field text ->
        parse_header text = Err HeaderParseError_date_missing)
  /\ (re_search DATUM_RE text <> None -> re_search TITEL_RE text = None ->
        parse_header text = Err HeaderParseError_title_missing)
  /\ (has_date_field text -> ~ occurs "Titel:" text ->
        parse_header text = Err HeaderParseError_title_missing)
  /\ (re_search DATUM_RE text = None \/ re_search TITEL_RE text = None ->
        forall h, parse_header text <> Ok h).
Proof.
  assert (A : re_search DATUM_RE text = None ->
              parse_header text = Err HeaderParseError_date_missing).
  { unfold parse_header. intros ->. reflexivity. }
  assert (B : re_search DATUM_RE text <> None -> re_search TITEL_RE text = None ->
              parse_header text = Err HeaderParseError_title_missing).
  { unfold parse_header. intros D ->.
    destruct (re_search DATUM_RE text); [reflexivity | congruence]. }
  split; [exact A|]. split; [intros H; apply A, datum_absent_iff, H|].
  split; [exact B|]. split.
  - intros D T. apply B; [|apply titel_absent, T].
    intros N. apply datum_absent_iff in N. contradiction.
  - intros [D|T] h.
    + rewrite (A D). discriminate.
    + destruct (re_search DATUM_RE text) eqn:D.
      * rewrite B; [discriminate | discriminate | exact T].
      * rewrite A; [discriminate | reflexivity].
Qed.

Lemma parse_header_missing_fields_witness :
  parse_header "Titel: LF12 Grundlagen" = Err HeaderParseError_date_missing
  /\ parse_header "Datum: 31.02.2024" = Err HeaderParseError_title_missing.
Proof.
  split.
  - apply (proj1 (parse_header_missing_fields _)). vm_compute. reflexivity.
  - apply (proj1 (proj2 (proj2 (proj2 (parse_header_missing_fields _))))).
    + exists "", "Datum: 31.02.2024". split; [reflexivity|].
      exists " ", "31.02.2024", "". repeat split.
    + intros (a & b & E).
      repeat (destruct a as [|? a]; [discriminate E | inversion E; subst; clear E;
              match goal with H : _ = (a ++ _)%string |- _ => rename H into E end]).
Defined.

(** ** Examples of the specification, evaluated *)

Example parse_date_example : parse_date "05.03.2024" = Ok "2024-03-05".
Proof. reflexivity. Qed.

Example parse_date_leap_day :
  parse_date "29.02.2024" = Ok "2024-02-29"
  /\ parse_date "29.02.2023" = Err (StrptimeError "29.02.2023").
Proof. split; reflexivity. Qed.

Example parse_header_open_range :
  parse_header ("Datum: 28.02.2024" ++ nl ++ "Titel: LF-12a Grund lagen  01.03.2024-  ")
  = Ok {| datum := "2024-02-28"; lernfeld_id := "LF-12a"; titel := "Grund lagen";
          start_datum := Some "2024-03-01"; end_datum := None |}.
Proof. vm_compute. reflexivity. Qed.

Example split_single_name : _first_dozent ["Mueller"] = Ok ("Mueller", "").
Proof. reflexivity. Qed.

Example split_no_tokens : _first_dozent [] = Ok ("", "").
Proof. reflexivity. Qed.

Example end_to_end_two_rows :
  parse_rows_from_page
    [mk_word "1" 40 100 110; mk_word "2" 40 200 210;
     mk_word "Einfuehrung" 80 100 110; mk_word "Vertiefung" 80 200 210]%Q
  = Ok [{| stunde := 1; inhalt := "Einfuehrung";
           dozent_vorname := ""; dozent_nachname := "" |};
        {| stunde := 2; inhalt := "Vertiefung";
           dozent_vorname := ""; dozent_nachname := "" |}].
Proof. vm_compute. reflexivity. Qed.

Example superscript_digit_raises :
  parse_rows_from_page [mk_word "1" 40 100 110; mk_word (String (ascii_of_N 178) "") 300 50 60]%Q
  = Err (IntLiteralError (String (ascii_of_N 178) "")).
Proof. vm_compute. reflexivity. Qed.

(** ** Row boundary locator: the stunde numbers *)

Lemma int_err (s : string) (e : exn) : int s = Err e -> e = IntLiteralError s.
Proof.
  unfold int. destruct (strip s); [congruence|].
  destruct (int_digits _ _); congruence.
Qed.

Lemma stunde_of_spec (w : word) :
  stunde_of w =
  if int_rejects w then Err (IntLiteralError (text w))
  else Ok (option_map (fun n => (n, top w)) (anchor_nr w)).
Proof.
  unfold stunde_of, int_rejects, anchor_nr.
  destruct (isdigit (text w)); [|reflexivity].
  destruct (int (text w)) as [n|e] eqn:E; simpl.
  - destruct (_ && _ && _); reflexivity.
  - rewrite (int_err _ _ E). reflexivity.
Qed.

Lemma locate_ok (words : list word) (raw : list (Z * Q)) :
  locate words = Ok raw ->
  raw = anchors_of words /\ forall w, In w words -> int_rejects w = false.
Proof.
  revert raw. induction words as [|w t IH]; simpl; intros raw H.
  - inversion H. split; [reflexivity | intros ? []].
  - rewrite stunde_of_spec in H.
    destruct (int_rejects w) eqn:R; [discriminate|]. simpl in H.
    destruct (locate t) as [r|e]; [|discriminate]. simpl in H.
    destruct (IH r eq_refl) as [-> Hr]. inversion H; subst.
    split.
    + destruct (anchor_nr w); reflexivity.
    + intros w' [<-|Hw]; auto.
Qed.

Lemma locate_total (words : list word) :
  (forall w, In w words -> int_rejects w = false) ->
  locate words = Ok (anchors_of words).
Proof.
  induction words as [|w t IH]; simpl; intros H; [reflexivity|].
  rewrite stunde_of_spec, (H w (or_introl eq_refl)). simpl.
  rewrite IH by (intros; apply H; right; assumption). simpl.
  destruct (anchor_nr w); reflexivity.
Qed.

Lemma locate_err (words : list word) (e : exn) :
  locate words = Err e -> exists s, e = IntLiteralError s.
Proof.
  induction words as [|w t IH]; simpl; [discriminate|].
  rewrite stunde_of_spec. destruct (int_rejects w); simpl.
  - intros H. inversion H. eauto.
  - destruct (locate t); simpl; [discriminate|].
    intros H. inversion H; subst. apply IH. reflexivity.
Qed.

Lemma anchors_of_In (words : list word) (n : Z) (t : Q) :
  In (n, t) (anchors_of words) <->
  exists w, In w words /\ anchor_nr w = Some n /\ top w = t.
Proof.
  induction words as [|w ws IH]; simpl.
  - split; [intros [] | intros (? & [] & _)].
  - destruct (anchor_nr w) as [m|] eqn:E; simpl; rewrite ?IH.
    + split.
      * intros [H|(w' & ? & ? & ?)]; [inversion H; subst; eauto 6 | eauto 6].
      * intros (w' & [<-|?] & A & T); [left; congruence | right; eauto].
    + split.
      * intros (w' & ? & ? & ?); eauto 6.
      * intros (w' & [<-|?] & A & T); [congruence | eauto].
Qed.

(** The sort is a stable permutation that orders the numbers. *)
Lemma insert_perm (x : Z * Q) (l : list (Z * Q)) : Permutation (insert x l) (x :: l).
Proof.
  induction l as [|y t IH]; simpl; [reflexivity|].
  destruct (fst x <=? fst y)%Z; [reflexivity|].
  rewrite IH. apply perm_swap.
Qed.

Lemma sorted_perm (l : list (Z * Q)) : Permutation (sorted l) l.
Proof.
  induction l as [|x t IH]; simpl; [reflexivity|].
  rewrite insert_perm. constructor. exact IH.
Qed.

Lemma insert_sorted (x : Z * Q) (l : list (Z * Q)) :
  StronglySorted le_nr l -> StronglySorted le_nr (insert x l).
Proof.
  induction 1 as [|y t Ht IH Hy]; simpl.
  - repeat constructor.
  - destruct (fst x <=? fst y)%Z eqn:E.
    + apply Z.leb_le in E. constructor; [constructor; assumption|].
      constructor; [exact E|].
      eapply Forall_impl; [|exact Hy]. unfold le_nr. intros; lia.
    + apply Z.leb_gt in E. constructor; [exact IH|].
      eapply Permutation_Forall; [symmetry; apply insert_perm|].
      constructor; [unfold le_nr; lia | exact Hy].
Qed.

Lemma sorted_sorted (l : list (Z * Q)) : StronglySorted le_nr (sorted l).
Proof.
  induction l; simpl; [constructor | apply insert_sorted; assumption].
Qed.

Lemma find_insert (nr : Z) (x : Z * Q) (l : list (Z * Q)) :
  find (has_nr nr) (insert x l) = find (has_nr nr) (x :: l).
Proof.
  induction l as [|y t IH]; simpl; [reflexivity|].
  destruct (fst x <=? fst y)%Z eqn:E; [reflexivity|].
  apply Z.leb_gt in E. simpl in *. rewrite IH. unfold has_nr.
  destruct (fst x =? nr)%Z eqn:X, (fst y =? nr)%Z eqn:Y; try reflexivity.
  apply Z.eqb_eq in X, Y. lia.
Qed.

Lemma find_sorted (nr : Z) (l : list (Z * Q)) :
  find (has_nr nr) (sorted l) = find (has_nr nr) l.
Proof.
  induction l as [|x t IH]; simpl; [reflexivity|].
  rewrite find_insert. simpl. rewrite IH. reflexivity.
Qed.

Lemma mem_In (n : Z) (seen : list Z) : existsb (Z.eqb n) seen = true <-> In n seen.
Proof.
  rewrite existsb_exists. split.
  - intros (x & H & E). apply Z.eqb_eq in E. congruence.
  - intros H. exists n. split; [exact H | apply Z.eqb_refl].
Qed.

Lemma dedup_In (l : list (Z * Q)) (seen : list Z) (p : Z * Q) :
  In p (dedup seen l) -> In p l /\ ~ In (fst p) seen.
Proof.
  revert seen. induction l as [|[n t] l IH]; simpl; intros seen; [intros []|].
  destruct (existsb (Z.eqb n) seen) eqn:E.
  - intros H. destruct (IH _ H). auto.
  - intros [<-|H].
    + split; [auto|]. simpl. rewrite <- mem_In. congruence.
    + destruct (IH _ H) as [? N]. split; [auto|]. simpl in N. tauto.
Qed.

Lemma dedup_complete (l : list (Z * Q)) (seen : list Z) (n : Z) :
  In n (map fst l) -> ~ In n seen -> In n (map fst (dedup seen l)).
Proof.
  revert seen. induction l as [|[m t] l IH]; simpl; intros seen; [intros []|].
  intros H N. destruct (existsb (Z.eqb m) seen) eqn:E.
  - apply mem_In in E. destruct H as [->|H]; [contradiction | auto].
  - simpl. destruct (Z.eq_dec m n) as [->|D]; [auto|].
    right. apply IH; [tauto|]. simpl. tauto.
Qed.

Lemma dedup_first (l : list (Z * Q)) (seen : list Z) (p : Z * Q) :
  In p (dedup seen l) -> find (has_nr (fst p)) l = Some p.
Proof.
  revert seen. induction l as [|[n t] l IH]; simpl; intros seen; [intros []|].
  unfold has_nr at 1. simpl.
  destruct (existsb (Z.eqb n) seen) eqn:E.
  - intros H. destruct (dedup_In _ _ _ H) as [_ N].
    apply mem_In in E.
    destruct (n =? fst p)%Z eqn:D; [apply Z.eqb_eq in D; congruence|].
    eapply IH, H.
  - intros [<-|H]; [simpl; rewrite Z.eqb_refl; reflexivity|].
    destruct (dedup_In _ _ _ H) as [_ N]. simpl in N.
    destruct (n =? fst p)%Z eqn:D; [apply Z.eqb_eq in D; tauto|].
    eapply IH, H.
Qed.

Lemma dedup_strictly_sorted (l : list (Z * Q)) (seen : list Z) :
  StronglySorted le_nr l ->
  (forall s p, In s seen -> In p l -> (s <= fst p)%Z) ->
  StronglySorted Z.lt (map fst (dedup seen l)).
Proof.
  intros S. revert seen. induction S as [|[n t] l S IH Hn]; simpl; intros seen B.
  - constructor.
  - assert (B' : forall s p, In s seen -> In p l -> (s <= fst p)%Z)
      by (intros; apply B; auto).
    destruct (existsb (Z.eqb n) seen) eqn:E; [apply IH; exact B'|].
    simpl. constructor.
    + apply IH. intros s p [<-|Hs] Hp; [|auto].
      rewrite Forall_forall in Hn. apply (Hn p Hp).
    + rewrite Forall_forall. intros m Hm. apply in_map_iff in Hm.
      destruct Hm as (p & <- & Hp). apply dedup_In in Hp. destruct Hp as [Hp N].
      rewrite Forall_forall in Hn. specialize (Hn p Hp). unfold le_nr in Hn.
      simpl in *. assert (n <> fst p) by tauto. lia.
Qed.

(** ** Name splitter: it always returns *)

Lemma split1_comma (sep : ascii) (s : string) :
  contains_char sep s = true ->
  exists a b, split1 sep s = [a; b]
              /\ s = (a ++ String sep b)%string /\ contains_char sep a = false.
Proof.
  induction s as [|c t IH]; simpl; [discriminate|].
  destruct (Ascii.eqb c sep) eqn:E; simpl.
  - intros _. apply Ascii.eqb_eq in E. subst. exists "", t. auto.
  - intros H. destruct (IH H) as (a & b & -> & -> & Ha).
    exists (String c a), b. simpl. rewrite E, Ha. auto.
Qed.

Lemma first_dozent_total (raw_words : list string) :
  exists nachname vorname, _first_dozent raw_words = Ok (nachname, vorname).
Proof.
  unfold _first_dozent.
  destruct (strip _) as [|c t] eqn:T; [eauto|].
  destruct (contains_char "," (String c t)) eqn:C; [|eauto].
  destruct (split1_comma _ _ C) as (a & b & -> & _). eauto.
Qed.

Lemma extract_row_ok (words : list word) (b : Z * Q * Q) :
  exists r, extract_row words b = Ok r /\ stunde r = fst (fst b).
Proof.
  destruct b as [[nr y0] y1]. unfold extract_row.
  destruct (first_dozent_total
              (_words_in_col words (fst COL_DOZENT) (snd COL_DOZENT) y0 y1))
    as (l & v & ->).
  simpl. eauto.
Qed.

Lemma extract_rows_ok (words : list word) (bs : list (Z * Q * Q)) :
  exists rows, mapM (extract_row words) bs = Ok rows
               /\ map stunde rows = map (fun b => fst (fst b)) bs.
Proof.
  induction bs as [|b bs (rows & E & M)]; simpl; [eauto|].
  destruct (extract_row_ok words b) as (r & -> & S). simpl.
  rewrite E. simpl. exists (r :: rows). simpl. rewrite S, M. auto.
Qed.

Lemma build_nrs (st : list (Z * Q)) (tb : Q) (l : list (Z * Q)) (i : nat) :
  map (fun b => fst (fst b)) (build st tb i l) = map fst l.
Proof.
  revert i. induction l as [|[nr t] l IH]; simpl; intros i; [reflexivity|].
  rewrite IH. reflexivity.
Qed.

(** What [parse_rows_from_page] returns, through its stages. *)
Lemma parse_rows_stages (words : list word) (rows : list row) :
  parse_rows_from_page words = Ok rows ->
  exists st, locate words = Ok (anchors_of words)
             /\ anchors_of words <> []
             /\ st = dedup [] (sorted (anchors_of words))
             /\ locate_stunden words = Ok st
             /\ row_boundaries words = Ok (build st (table_bottom words) 0 st)
             /\ map stunde rows = map fst st.
Proof.
  unfold parse_rows_from_page, row_boundaries, locate_stunden.
  destruct (locate words) as [raw|e] eqn:L; [|discriminate].
  destruct (locate_ok _ _ L) as [-> _]. cbv beta iota delta [bind].
  destruct (sorted (anchors_of words)) as [|p l] eqn:S; [discriminate|].
  set (st := dedup [] (p :: l)). intros H. exists st. repeat split; try reflexivity.
  - intros N. rewrite N in S. discriminate.
  - destruct (extract_rows_ok words (build st (table_bottom words) 0 st))
      as (rows' & E & M).
    rewrite E in H. inversion H; subst. rewrite M. apply build_nrs.
Qed.

Lemma strictly_sorted_NoDup (l : list Z) : StronglySorted Z.lt l -> NoDup l.
Proof.
  induction 1 as [|x l S IH H]; constructor; [|exact IH].
  intros I. rewrite Forall_forall in H. specialize (H x I). lia.
Qed.

Lemma strictly_sorted_ext (l1 l2 : list Z) :
  StronglySorted Z.lt l1 -> StronglySorted Z.lt l2 ->
  (forall n, In n l1 <-> In n l2) -> l1 = l2.
Proof.
  intros S1. revert l2. induction S1 as [|x l1 S1 IH H1]; intros l2 S2 E.
  - destruct l2 as [|y l2]; [reflexivity|]. destruct (proj2 (E y)). left. reflexivity.
  - destruct S2 as [|y l2 S2 H2]; [destruct (proj1 (E x)); left; reflexivity|].
    rewrite Forall_forall in H1, H2.
    assert (x = y).
    { destruct (proj1 (E x) (or_introl eq_refl)) as [->|I2]; [reflexivity|].
      destruct (proj2 (E y) (or_introl eq_refl)) as [->|I1]; [reflexivity|].
      specialize (H1 _ I1). specialize (H2 _ I2). lia. }
    subst y. f_equal. apply IH; [exact S2|].
    intros n. split; intros I.
    + destruct (proj1 (E n) (or_intror I)) as [<-|?]; [|assumption].
      specialize (H1 _ I). lia.
    + destruct (proj2 (E n) (or_intror I)) as [<-|?]; [|assumption].
      specialize (H2 _ I). lia.
Qed.

Lemma stunden_nrs (words : list word) (n : Z) :
  In n (map fst (dedup [] (sorted (anchors_of words)))) <->
  exists w, In w words /\ anchor_nr w = Some n.
Proof.
  split.
  - intros H. apply in_map_iff in H. destruct H as ([m t] & <- & H).
    apply dedup_In in H. destruct H as [H _].
    apply (Permutation_in _ (sorted_perm _)) in H.
    apply anchors_of_In in H. destruct H as (w & ? & ? & ?). eauto.
  - intros (w & I & A). apply dedup_complete; [|intros []].
    apply in_map_iff. exists (n, top w). split; [reflexivity|].
    apply (Permutation_in _ (Permutation_sym (sorted_perm _))).
    apply anchors_of_In. eauto.
Qed.

(** C2: the slot numbers of the emitted rows are strictly ascending, hence
    unique, whatever the order of the anchors among the words; when the
    anchors' values are 1, 3 and 5 the rows come out as 1, 3, 5. *)
Theorem rows_ascending_unique (words : list word) (rows : list row) :
  parse_rows_from_page words = Ok rows ->
  StronglySorted Z.lt (map stunde rows)
  /\ NoDup (map stunde rows)
  /\ ((forall n, (exists w, In w words /\ anchor_nr w = Some n)
                 <-> In n [1; 3; 5]%Z) ->
      map stunde rows = [1; 3; 5]%Z).
Proof.
  intros H. destruct (parse_rows_stages _ _ H) as (st & _ & _ & -> & _ & _ & ->).
  assert (S : StronglySorted Z.lt (map fst (dedup [] (sorted (anchors_of words))))).
  { apply dedup_strictly_sorted; [apply sorted_sorted | intros ? ? []]. }
  split; [exact S|]. split; [apply strictly_sorted_NoDup, S|].
  intros E. apply strictly_sorted_ext; [exact S | |].
  - repeat constructor; lia.
  - intros n. rewrite stunden_nrs. apply E.
Qed.

Lemma rows_ascending_unique_witness :
  exists rows, parse_rows_from_page words_531 = Ok rows
               /\ StronglySorted Z.lt (map stunde rows)
               /\ NoDup (map stunde rows)
               /\ map stunde rows = [1; 3; 5]%Z.
Proof.
  eexists. split; [vm_compute; reflexivity|].
  match goal with |- StronglySorted _ (map _ ?r) /\ _ =>
    destruct (rows_ascending_unique words_531 r eq_refl) as (S & N & E) end.
  split; [exact S|]. split; [exact N|].
  apply E. intros n. split.
  - intros (w & I & A). unfold words_531 in I. simpl in I.
    repeat (destruct I as [<-|I]; [vm_compute in A; inversion A; simpl; tauto|]).
    destruct I.
  - simpl. intros [<-|[<-|[<-|[]]]].
    + exists (mk_word "1" 40 100 110)%Q. split; [simpl; tauto | reflexivity].
    + exists (mk_word "3" 40 200 210)%Q. split; [simpl; tauto | reflexivity].
    + exists (mk_word "5" 40 300 310)%Q. split; [simpl; tauto | reflexivity].
Defined.

(** ** Row boundary locator: no anchors *)

Lemma single_digit_is_anchor (w : word) :
  single_digit_anchor w = true -> is_anchor w = true.
Proof.
  unfold single_digit_anchor, is_anchor, anchor_nr.
  destruct (text w) as [|c [|c' t]]; try discriminate.
  destruct (within _ _ _); [|rewrite andb_false_r; discriminate].
  rewrite andb_true_r. intros H.
  destruct c as [[] [] [] [] [] [] [] []]; try discriminate H; reflexivity.
Qed.

Lemma anchors_of_nil (words : list word) :
  (forall w, In w words -> is_anchor w = false) -> anchors_of words = [].
Proof.
  induction words as [|w t IH]; simpl; intros H; [reflexivity|].
  pose proof (H w (or_introl eq_refl)) as A. unfold is_anchor in A.
  destruct (anchor_nr w); [discriminate|]. apply IH. intros; apply H; auto.
Qed.

Lemma sorted_nil (l : list (Z * Q)) : sorted l = [] -> l = [].
Proof.
  intros H. apply Permutation_nil. rewrite <- H. apply sorted_perm.
Qed.

(** C9, as stated, fails: a token "05" in the band is no single digit, yet
    it is taken as the anchor of slot 5 and the rows are returned. *)
Lemma no_single_digit_anchor_counterexample :
  ~ (forall words,
       (forall w, In w words -> single_digit_anchor w = false) ->
       parse_rows_from_page words = Err NoRowsFoundError).
Proof.
  intros H. specialize (H [mk_word "05" 40 100 110]%Q).
  assert (E : parse_rows_from_page [mk_word "05" 40 100 110]%Q
              = Ok [{| stunde := 5; inhalt := ""; dozent_vorname := "";
                       dozent_nachname := "" |}])
    by (vm_compute; reflexivity).
  rewrite E in H. discriminate H.
  intros w [<-|[]]. reflexivity.
Qed.

(** C9, amended: an anchor is a word in the slot-number band whose text is
    a string of digits that [int] converts to a number of 1..9 (so "5" and
    also "05").  Without an anchor, and without a word of digit characters
    that [int] rejects, row extraction fails with the no-rows failure; with
    an anchor that failure is not raised; and every single-digit anchor is
    an anchor. *)
Theorem no_rows_failure (words : list word) :
  ((forall w, In w words -> is_anchor w = false) ->
   (forall w, In w words -> int_rejects w = false) ->
   parse_rows_from_page words = Err NoRowsFoundError)
  /\ ((exists w, In w words /\ is_anchor w = true) ->
      parse_rows_from_page words <> Err NoRowsFoundError)
  /\ (forall w, single_digit_anchor w = true -> is_anchor w = true).
Proof.
  split; [|split; [|apply single_digit_is_anchor]].
  - intros A R. unfold parse_rows_from_page, row_boundaries, locate_stunden.
    rewrite (locate_total _ R), (anchors_of_nil _ A). reflexivity.
  - intros (w & I & A).
    unfold parse_rows_from_page, row_boundaries, locate_stunden.
    destruct (locate words) as [raw|e] eqn:L.
    + destruct (locate_ok _ _ L) as [-> _]. cbv beta iota delta [bind].
      destruct (sorted (anchors_of words)) as [|p l] eqn:S.
      * apply sorted_nil in S. unfold is_anchor in A.
        destruct (anchor_nr w) as [n|] eqn:N; [|discriminate].
        assert (In (n, top w) (anchors_of words))
          by (apply anchors_of_In; eauto).
        rewrite S in *. contradiction.
      * match goal with |- mapM _ ?b <> _ =>
          destruct (extract_rows_ok words b) as (rows & -> & _) end.
        discriminate.
    + destruct (locate_err _ _ L) as (s & ->). discriminate.
Qed.

Lemma no_rows_failure_witness :
  parse_rows_from_page [mk_word "Inhalt" 80 100 110; mk_word "12" 40 100 110]%Q
  = Err NoRowsFoundError
  /\ parse_rows_from_page [mk_word "05" 40 100 110]%Q <> Err NoRowsFoundError.
Proof.
  split.
  - apply (proj1 (no_rows_failure _));
      intros w [<-|[<-|[]]]; reflexivity.
  - apply (proj1 (proj2 (no_rows_failure _))).
    eexists. split; [left; reflexivity | reflexivity].
Defined.

(** ** Row boundary locator: the spans *)

Lemma Qlt_bool_iff (a b : Q) : Qlt_bool a b = true <-> (a < b)%Q.
Proof.
  unfold Qlt_bool. rewrite negb_true_iff. split; intros H.
  - apply Qnot_le_lt. intros L. apply Qle_bool_iff in L. congruence.
  - destruct (Qle_bool b a) eqn:E; [|reflexivity].
    apply Qle_bool_iff in E. lra.
Qed.

Lemma build_nth (st : list (Z * Q)) (tb : Q) (l : list (Z * Q)) (i j : nat) :
  nth_error (build st tb i l) j =
  option_map (fun p => (fst p, y_start st (i + j) (snd p), y_end st tb (i + j) (snd p)))
             (nth_error l j).
Proof.
  revert i j. induction l as [|[nr t] l IH]; intros i j.
  - destruct j; reflexivity.
  - destruct j as [|j]; simpl.
    + rewrite Nat.add_0_r. reflexivity.
    + rewrite IH. rewrite <- plus_n_Sm. reflexivity.
Qed.

Lemma top_at_nth (st : list (Z * Q)) (i : nat) (nr : Z) (t : Q) :
  nth_error st i = Some (nr, t) -> top_at st i = t.
Proof.
  intros H. unfold top_at. rewrite (nth_error_nth _ _ _ H). reflexivity.
Qed.

Lemma y_start_S (st : list (Z * Q)) (i : nat) (t : Q) :
  y_start st (S i) t = ((top_at st i + t) / 2)%Q.
Proof. unfold y_start. simpl. rewrite Nat.sub_0_r. reflexivity. Qed.

Lemma y_end_inner (st : list (Z * Q)) (tb : Q) (i : nat) (t : Q) :
  (S i < List.length st)%nat ->
  y_end st tb i t = ((t + top_at st (S i)) / 2)%Q.
Proof.
  intros L. unfold y_end. rewrite Nat.add_1_r.
  rewrite (proj2 (Nat.ltb_lt _ _) L). reflexivity.
Qed.

Lemma y_end_last (st : list (Z * Q)) (tb : Q) (i : nat) (t : Q) :
  (List.length st <= S i)%nat -> y_end st tb i t = tb.
Proof.
  intros L. unfold y_end. rewrite Nat.add_1_r.
  rewrite (proj2 (Nat.ltb_ge _ _) L). reflexivity.
Qed.

(** The span at index [i], read off the stunde numbers. *)
Lemma build_span (st : list (Z * Q)) (tb : Q) (i : nat) (nr : Z) (y0 y1 : Q) :
  nth_error (build st tb 0 st) i = Some (nr, y0, y1) ->
  exists t, nth_error st i = Some (nr, t)
            /\ (i = 0%nat -> y0 = (t - 30)%Q)
            /\ (forall nr' a b,
                  nth_error (build st tb 0 st) (S i) = Some (nr', a, b) ->
                  exists t', nth_error st (S i) = Some (nr', t')
                             /\ y1 = ((t + t') / 2)%Q /\ a = y1)
            /\ (nth_error (build st tb 0 st) (S i) = None -> y1 = tb).
Proof.
  rewrite !build_nth, !Nat.add_0_l.
  destruct (nth_error st i) as [[n t]|] eqn:E; [|discriminate].
  cbn [option_map fst snd]. intros H. inversion H; subst.
  exists t. split; [reflexivity|].
  split; [intros ->; reflexivity|].
  split.
  - intros nr' a b.
    destruct (nth_error st (S i)) as [[n' t']|] eqn:E'; [|simpl; discriminate].
    cbn [option_map fst snd]. intros H'. inversion H'; subst.
    exists t'. split; [reflexivity|].
    assert (L' : (S i < List.length st)%nat)
      by (apply nth_error_Some; congruence).
    rewrite y_start_S, (y_end_inner _ _ _ _ L').
    rewrite (top_at_nth _ _ _ _ E), (top_at_nth _ _ _ _ E'). auto.
  - destruct (nth_error st (S i)) eqn:E'; [simpl; discriminate|]. intros _.
    apply nth_error_None in E'. apply y_end_last, E'.
Qed.

Lemma find_anchors (nr : Z) (words : list word) :
  find (has_nr nr) (anchors_of words)
  = option_map (fun w => (nr, top w)) (first_anchor nr words).
Proof.
  unfold first_anchor. induction words as [|w t IH]; simpl; [reflexivity|].
  destruct (anchor_nr w) as [n|]; simpl; [|exact IH].
  unfold has_nr at 1. simpl.
  destruct (n =? nr)%Z eqn:E; [|exact IH].
  apply Z.eqb_eq in E. subst. reflexivity.
Qed.

Lemma find_split {A : Type} (f : A -> bool) (l : list A) (x : A) :
  find f l = Some x ->
  exists pre post, l = pre ++ x :: post /\ f x = true
                   /\ forall u, In u pre -> f u = false.
Proof.
  induction l as [|a l IH]; simpl; [discriminate|].
  destruct (f a) eqn:E.
  - intros H. inversion H; subst. exists [], l. repeat split; auto. intros ? [].
  - intros H. destruct (IH H) as (pre & post & -> & F & P).
    exists (a :: pre), post. repeat split; auto.
    intros u [<-|I]; auto.
Qed.

(** The deduplicated stunde numbers hold, for each number, the first word
    of the page that is an anchor of it. *)
Lemma stunden_first_anchor (words : list word) (nr : Z) (t : Q) :
  In (nr, t) (dedup [] (sorted (anchors_of words))) ->
  exists pre w post,
    words = pre ++ w :: post /\ anchor_nr w = Some nr /\ top w = t
    /\ forall u, In u pre -> anchor_nr u <> Some nr.
Proof.
  intros H. apply dedup_first in H. simpl in H.
  rewrite find_sorted, find_anchors in H.
  destruct (first_anchor nr words) as [w|] eqn:F; [|discriminate].
  simpl in H. inversion H; subst.
  destruct (find_split _ _ _ F) as (pre & post & -> & A & P).
  exists pre, w, post. repeat split.
  - destruct (anchor_nr w); [apply Z.eqb_eq in A; congruence | discriminate].
  - intros u I N. specialize (P u I). rewrite N, Z.eqb_refl in P. discriminate.
Qed.

Lemma row_boundaries_ok (words : list word) (bs : list (Z * Q * Q)) :
  row_boundaries words = Ok bs ->
  let st := dedup [] (sorted (anchors_of words)) in
  st <> [] /\ bs = build st (table_bottom words) 0 st.
Proof.
  unfold row_boundaries, locate_stunden.
  destruct (locate words) as [raw|e] eqn:L; [|discriminate].
  destruct (locate_ok _ _ L) as [-> _]. cbv beta iota delta [bind].
  destruct (sorted (anchors_of words)) as [|[n t] l] eqn:S; [discriminate|].
  intros H. inversion H. split; [simpl; discriminate | reflexivity].
Qed.



(** ** Row boundary locator: contiguity and partition *)

Lemma chain_le (lo hi : Q) (l : list (Z * Q * Q)) :
  chain lo l hi -> upright l -> (lo <= hi)%Q.
Proof.
  induction 1 as [b|b l hi C IH]; intros U; inversion U; subst.
  - assumption.
  - specialize (IH H2). lra.
Qed.

Lemma chain_bounds (lo hi : Q) (l : list (Z * Q * Q)) :
  chain lo l hi -> upright l ->
  forall b, In b l -> (lo <= span_start b /\ span_end b <= hi)%Q.
Proof.
  induction 1 as [b|b l hi C IH]; intros U; inversion U; subst; intros b' I.
  - destruct I as [<-|[]]. lra.
  - pose proof (chain_le _ _ _ C H2). destruct I as [<-|I]; [lra|].
    specialize (IH H2 _ I). lra.
Qed.

Lemma chain_covers (lo hi : Q) (l : list (Z * Q * Q)) :
  chain lo l hi -> upright l -> covers l lo hi.
Proof.
  unfold covers, in_span.
  induction 1 as [b|b l hi C IH]; intros U; inversion U; subst; intros y.
  - split.
    + intros H. exists b. split; [left; reflexivity | exact H].
    + intros (b' & [<-|[]] & H). exact H.
  - pose proof (chain_le _ _ _ C H2). split.
    + intros [Hlo Hhi]. destruct (Qlt_le_dec y (span_end b)) as [Y|Y].
      * exists b. split; [left; reflexivity | split; assumption].
      * destruct (proj1 (IH H2 y) (conj Y Hhi)) as (b' & I & S).
        exists b'. split; [right; exact I | exact S].
    + intros (b' & [<-|I] & S); [lra|].
      assert (X : exists b, In b l /\ (span_start b <= y /\ y < span_end b)%Q)
        by eauto.
      apply (IH H2 y) in X. lra.
Qed.

Lemma chain_disjoint (lo hi : Q) (l : list (Z * Q * Q)) :
  chain lo l hi -> upright l -> pairwise_disjoint l.
Proof.
  unfold pairwise_disjoint, in_span.
  induction 1 as [b|b l hi C IH]; intros U; inversion U; subst;
    intros i j b1 b2 y N1 N2 S1 S2.
  - destruct i as [|[|i]], j as [|[|j]]; simpl in *; congruence.
  - destruct i as [|i], j as [|j]; simpl in *.
    + reflexivity.
    + inversion N1; subst. apply nth_error_In in N2.
      pose proof (chain_bounds _ _ _ C H2 _ N2). lra.
    + inversion N2; subst. apply nth_error_In in N1.
      pose proof (chain_bounds _ _ _ C H2 _ N1). lra.
    + f_equal. eapply IH; eauto.
Qed.

Lemma last_default {A : Type} (d d' : A) (l : list A) :
  l <> [] -> last l d = last l d'.
Proof.
  induction l as [|x l IH]; [congruence|]. intros _.
  destruct l as [|y l]; [reflexivity|].
  change (last (y :: l) d = last (y :: l) d'). apply IH. discriminate.
Qed.

Lemma contiguous_tail (b : Z * Q * Q) (l : list (Z * Q * Q)) :
  contiguous (b :: l) -> contiguous l.
Proof. intros H i b1 b2 N1 N2. apply (H (S i)); assumption. Qed.

Lemma contiguous_chain (b0 : Z * Q * Q) (l : list (Z * Q * Q)) :
  contiguous (b0 :: l) ->
  chain (span_start b0) (b0 :: l) (span_end (last (b0 :: l) b0)).
Proof.
  revert b0. induction l as [|b1 l IH]; intros b0 H.
  - apply chain_one.
  - apply chain_cons. rewrite (H 0%nat b0 b1 eq_refl eq_refl).
    change (last (b0 :: b1 :: l) b0) with (last (b1 :: l) b0).
    rewrite (last_default b0 b1 (b1 :: l)) by discriminate.
    apply IH. eapply contiguous_tail, H.
Qed.

Lemma build_contiguous (st : list (Z * Q)) (tb : Q) :
  contiguous (build st tb 0 st).
Proof.
  intros i [[nr y0] y1] [[nr' a] b] N N'.
  destruct (build_span _ _ _ _ _ _ N) as (t & _ & _ & H & _).
  destruct (H _ _ _ N') as (_ & _ & _ & E). symmetry. exact E.
Qed.

Lemma build_last (st : list (Z * Q)) (tb : Q) (l : list (Z * Q)) (i : nat)
    (d : Z * Q * Q) :
  l <> [] -> (i + List.length l = List.length st)%nat ->
  span_end (last (build st tb i l) d) = tb.
Proof.
  revert i. induction l as [|[n t] l IH]; intros i N L; [congruence|].
  destruct l as [|p l].
  - simpl in *. apply y_end_last. lia.
  - change (build st tb i ((n, t) :: p :: l))
      with ((n, y_start st i t, y_end st tb i t) :: build st tb (S i) (p :: l)).
    assert (B : build st tb (S i) (p :: l) <> [])
      by (destruct p; simpl; discriminate).
    destruct (build st tb (S i) (p :: l)) as [|x xs] eqn:E; [congruence|].
    change (last (_ :: x :: xs) d) with (last (x :: xs) d).
    rewrite <- E. apply IH; [discriminate | simpl in *; lia].
Qed.

Lemma py_max_spec (l : list Q) (d : Q) :
  l <> [] -> In (py_max l d) l /\ forall x, In x l -> (x <= py_max l d)%Q.
Proof.
  destruct l as [|x l]; [congruence|]. intros _. simpl.
  revert x. induction l as [|y l IH]; intros x; simpl.
  - split; [auto|]. intros z [<-|[]]. lra.
  - destruct (Qlt_bool x y) eqn:E.
    + apply Qlt_bool_iff in E. destruct (IH y) as [I M]. split.
      * destruct I; auto.
      * intros z [<-|[<-|Z]]; [|apply M; left; reflexivity|apply M; right; exact Z].
        specialize (M y (or_introl eq_refl)). lra.
    + assert (~ (x < y)%Q) by (rewrite <- Qlt_bool_iff; congruence).
      destruct (IH x) as [I M]. split.
      * destruct I; auto.
      * intros z [<-|[<-|Z]]; [apply M; left; reflexivity| |apply M; right; exact Z].
        specialize (M x (or_introl eq_refl)). lra.
Qed.

(** The table bottom: the largest bottom below 650, or 600 without one. *)
Lemma table_bottom_spec (words : list word) :
  ((exists w, In w words /\ (bottom w < 650)%Q) ->
   (exists w, In w words /\ bottom w = table_bottom words /\ (bottom w < 650)%Q)
   /\ forall w, In w words -> (bottom w < 650)%Q ->
                (bottom w <= table_bottom words)%Q)
  /\ ((forall w, In w words -> ~ (bottom w < 650)%Q) ->
      table_bottom words = 600%Q).
Proof.
  unfold table_bottom. split.
  - intros (w & I & B).
    assert (F : forall u, In u words -> (bottom u < 650)%Q ->
                In (bottom u) (filter (fun b => Qlt_bool b 650) (map bottom words))).
    { intros u Iu Bu. apply filter_In. split; [apply in_map, Iu|].
      apply Qlt_bool_iff, Bu. }
    destruct (py_max_spec (filter (fun b => Qlt_bool b 650) (map bottom words)) 600)
      as [M U].
    { intros E. specialize (F w I B). rewrite E in F. exact F. }
    split.
    + apply filter_In in M. destruct M as [M L]. apply in_map_iff in M.
      destruct M as (u & E & Iu). exists u. rewrite E.
      repeat split; auto. apply Qlt_bool_iff, L.
    + intros u Iu Bu. apply U, F; assumption.
  - intros H.
    assert (E : filter (fun b => Qlt_bool b 650) (map bottom words) = []).
    { destruct (filter _ _) as [|x l] eqn:E; [reflexivity|].
      assert (I : In x (filter (fun b => Qlt_bool b 650) (map bottom words)))
        by (rewrite E; left; reflexivity).
      apply filter_In in I. destruct I as [I L]. apply in_map_iff in I.
      destruct I as (u & <- & Iu). apply Qlt_bool_iff in L.
      destruct (H u Iu L). }
    rewrite E. reflexivity.
Qed.

(** C1, as stated, fails: when the tops of the anchors do not ascend with
    the slot numbers, two spans overlap (here those of slots 1 and 3 both
    hold y = 160). *)
Lemma row_spans_overlap_counterexample :
  ~ (forall words bs, row_boundaries words = Ok bs -> pairwise_disjoint bs).
Proof.
  intros H.
  specialize (H words_overlap
                [(1%Z, 70%Q, (400 # 2)%Q); (2%Z, (400 # 2)%Q, (300 # 2)%Q);
                 (3%Z, (300 # 2)%Q, 310%Q)] eq_refl
                0%nat 2%nat _ _ 160%Q eq_refl eq_refl).
  assert (E : 0%nat = 2%nat); [|discriminate E].
  apply H; unfold in_span, span_start, span_end; cbn [fst snd]; lra.
Qed.

(** C1, amended: the spans are contiguous, the first starts 30 above the
    anchor of the lowest slot number and the last ends at the table bottom,
    which is the largest bottom below 650 among the words, or 600 when there
    is none; when no span is inverted, the spans are pairwise disjoint and
    hold exactly the y from the first start up to the table bottom.  All
    this for the words in any order. *)
Theorem row_spans_partition (words : list word) (bs : list (Z * Q * Q)) :
  row_boundaries words = Ok bs ->
  exists b0 rest,
    bs = b0 :: rest
    /\ (exists w, In w words /\ anchor_nr w = Some (span_nr b0)
                  /\ span_start b0 = (top w - 30)%Q)
    /\ (forall b, In b rest -> (span_nr b0 < span_nr b)%Z)
    /\ span_end (last bs b0) = table_bottom words
    /\ contiguous bs
    /\ ((exists w, In w words /\ (bottom w < 650)%Q) ->
        (exists w, In w words /\ bottom w = table_bottom words
                   /\ (bottom w < 650)%Q)
        /\ forall w, In w words -> (bottom w < 650)%Q ->
                     (bottom w <= table_bottom words)%Q)
    /\ ((forall w, In w words -> ~ (bottom w < 650)%Q) ->
        table_bottom words = 600%Q)
    /\ (upright bs ->
        pairwise_disjoint bs
        /\ covers bs (span_start b0) (table_bottom words)).
Proof.
  intros R. destruct (row_boundaries_ok _ _ R) as [N E].
  set (st := dedup [] (sorted (anchors_of words))) in *.
  assert (L : span_end (last bs (0%Z, 0%Q, 0%Q)) = table_bottom words)
    by (rewrite E; apply build_last; [exact N | reflexivity]).
  assert (C : contiguous bs) by (rewrite E; apply build_contiguous).
  assert (S : StronglySorted Z.lt (map span_nr bs)).
  { rewrite E. unfold span_nr. rewrite build_nrs.
    apply dedup_strictly_sorted; [apply sorted_sorted | intros ? ? []]. }
  destruct st as [|[n t] l] eqn:ST; [congruence|].
  destruct bs as [|b0 rest]; [discriminate E|].
  rewrite (last_default (0%Z, 0%Q, 0%Q) b0 (b0 :: rest)) in L by discriminate.
  exists b0, rest.
  split; [reflexivity|]. split.
  { destruct (stunden_first_anchor words n t) as (pre & w & post & W & A & T & _).
    { fold st. rewrite ST. left. reflexivity. }
    exists w. simpl in E. inversion E; subst b0. simpl.
    repeat split; [rewrite W; apply in_elt | exact A |].
    rewrite T. reflexivity. }
  split.
  { simpl in S. inversion S; subst. intros b I.
    rewrite Forall_forall in H2. apply H2, in_map, I. }
  split; [exact L|]. split; [exact C|].
  destruct (table_bottom_spec words) as [T1 T2].
  split; [exact T1|]. split; [exact T2|].
  intros U. pose proof (contiguous_chain _ _ C) as CH. rewrite L in CH.
  split; [eapply chain_disjoint | eapply chain_covers]; eassumption.
Qed.

Lemma row_spans_partition_witness :
  exists bs, row_boundaries words_531 = Ok bs
             /\ contiguous bs /\ pairwise_disjoint bs /\ covers bs 70%Q 315%Q.
Proof.
  eexists. split; [vm_compute; reflexivity|].
  match goal with |- contiguous ?bs /\ _ =>
    destruct (row_spans_partition words_531 bs eq_refl)
      as (b0 & rest & E & _ & _ & _ & C & _ & _ & P) end.
  inversion E; subst b0 rest. split; [exact C|].
  apply P. repeat constructor; unfold span_start, span_end; cbn [fst snd]; lra.
Defined.

(** ** Strings: [strip] and [split] *)

Lemma rstrip_nonspace (w : string) : all_chars not_space w = true -> rstrip w = w.
Proof.
  induction w as [|c t IH]; simpl; [reflexivity|].
  unfold not_space at 1. intros H. apply andb_true_iff in H. destruct H as [C T].
  rewrite (IH T). apply negb_true_iff in C. rewrite C.
  destruct t; reflexivity.
Qed.

Lemma rstrip_app (a b : string) :
  rstrip b = b -> b <> "" -> rstrip (a ++ b)%string = (a ++ b)%string.
Proof.
  intros R N. induction a as [|c a IH]; simpl; [exact R|].
  rewrite IH. destruct (a ++ b)%string eqn:E; [|reflexivity].
  destruct a; simpl in E; [congruence | discriminate].
Qed.

Lemma rstrip_head (s : string) (c : ascii) (t : string) :
  rstrip s = String c t -> exists t', s = String c t'.
Proof.
  destruct s as [|a s]; simpl; [discriminate|].
  destruct (rstrip s); [destruct (isspace a)|]; intros H; inversion H; eauto.
Qed.

Lemma lstrip_head (s : string) (c : ascii) (t : string) :
  lstrip s = String c t -> isspace c = false.
Proof.
  induction s as [|a s IH]; simpl; [discriminate|].
  destruct (isspace a) eqn:E; [exact IH|]. intros H. inversion H; subst. exact E.
Qed.

Lemma strip_head (s : string) (c : ascii) (t : string) :
  strip s = String c t -> isspace c = false.
Proof.
  unfold strip. intros H. destruct (rstrip_head _ _ _ H) as (t' & L).
  eapply lstrip_head, L.
Qed.

(** *** [strip] gives the text without the white space around it *)

Lemma lstrip_split (s : string) :
  exists l, s = (l ++ lstrip s)%string /\ all_chars isspace l = true.
Proof.
  induction s as [|c t (l & E & A)]; cbn [lstrip]; [exists ""; auto|].
  destruct (isspace c) eqn:C.
  - exists (String c l). cbn [append all_chars]. rewrite <- E, C, A. auto.
  - exists "". auto.
Qed.

Lemma rstrip_split (s : string) :
  exists r, s = (rstrip s ++ r)%string /\ all_chars isspace r = true.
Proof.
  induction s as [|c t (r & E & A)]; cbn [rstrip]; [exists ""; auto|].
  destruct (rstrip t) as [|a u].
  - cbn [append] in E. subst r. destruct (isspace c) eqn:C.
    + exists (String c t). cbn [append all_chars]. rewrite C, A. auto.
    + exists t. auto.
  - exists r. cbn [append] in *. rewrite <- E. auto.
Qed.

Lemma rstrip_last (s : string) (prev : option ascii) (c : ascii) :
  rstrip s <> "" -> last_char (rstrip s) prev = Some c -> isspace c = false.
Proof.
  revert prev. induction s as [|a t IH]; intros prev; cbn [rstrip]; [congruence|].
  destruct (rstrip t) as [|b u] eqn:R.
  - destruct (isspace a) eqn:A; [congruence|].
    cbn [last_char]. intros _ X. inversion X; subst. exact A.
  - intros _. cbn [last_char]. apply (IH (Some a)). discriminate.
Qed.

Lemma strip_trimmed (s : string) : trimmed (strip s).
Proof.
  split; intros c H.
  - destruct (strip s) as [|a t] eqn:E; [discriminate H|].
    cbn [peek] in H. inversion H; subst. exact (strip_head _ _ _ E).
  - unfold strip in *. apply (rstrip_last (lstrip s) None c); [|exact H].
    intros E. rewrite E in H. discriminate H.
Qed.

Lemma strip_trim_of (s : string) : trim_of s (strip s).
Proof.
  split; [apply strip_trimmed|].
  destruct (lstrip_split s) as (l & L & A).
  destruct (rstrip_split (lstrip s)) as (r & R & B).
  exists l, r. unfold strip. rewrite <- R. auto.
Qed.

Lemma lstrip_app_space (l x : string) :
  all_chars isspace l = true -> lstrip (l ++ x) = lstrip x.
Proof.
  induction l as [|c l IH]; cbn [append all_chars lstrip]; [reflexivity|].
  intros H. apply andb_true_iff in H. destruct H as [C A]. rewrite C. auto.
Qed.

Lemma rstrip_space (r : string) : all_chars isspace r = true -> rstrip r = "".
Proof.
  induction r as [|c r IH]; cbn [all_chars rstrip]; [reflexivity|].
  intros H. apply andb_true_iff in H. destruct H as [C A]. rewrite (IH A), C. reflexivity.
Qed.

Lemma rstrip_app_space (t r : string) :
  all_chars isspace r = true -> rstrip (t ++ r) = rstrip t.
Proof.
  intros A. induction t as [|c t IH]; cbn [append rstrip]; [apply rstrip_space, A|].
  rewrite IH. reflexivity.
Qed.

Lemma rstrip_trimmed (t : string) (prev : option ascii) :
  t <> "" -> (forall c, last_char t prev = Some c -> isspace c = false) -> rstrip t = t.
Proof.
  revert prev. induction t as [|a t IH]; intros prev N H; [congruence|].
  cbn [rstrip]. destruct t as [|b u].
  - cbn [rstrip]. rewrite (H a eq_refl). reflexivity.
  - rewrite (IH (Some a)); [reflexivity | discriminate | exact H].
Qed.

(** The text without the white space around it is the one [strip]
    returns, and no other. *)
Lemma trim_of_strip (s t : string) : trim_of s t -> t = strip s.
Proof.
  intros ((P & L) & l & r & -> & A & B). unfold strip.
  rewrite (lstrip_app_space _ _ A).
  destruct t as [|a u].
  - cbn [append]. rewrite (rstrip_space (lstrip r)); [reflexivity|].
    clear - B. induction r as [|c r IH]; cbn [lstrip all_chars] in *; [reflexivity|].
    apply andb_true_iff in B. destruct B as [C B]. rewrite C. auto.
  - cbn [append lstrip]. rewrite (P a eq_refl).
    change (String a (u ++ r)) with (String a u ++ r)%string.
    rewrite (rstrip_app_space _ _ B).
    symmetry. apply (rstrip_trimmed _ None); [discriminate | exact L].
Qed.

Lemma split_ws_lstrip (s : string) : split_ws (lstrip s) = split_ws s.
Proof.
  unfold split_ws. induction s as [|c t IH]; simpl; [reflexivity|].
  destruct (isspace c) eqn:E; [exact IH|]. simpl. rewrite E. reflexivity.
Qed.

Lemma split_ws_aux_rstrip (s : string) (cur : list ascii) :
  split_ws_aux cur (rstrip s) = split_ws_aux cur s.
Proof.
  revert cur. induction s as [|c t IH]; intros cur; simpl; [reflexivity|].
  destruct (rstrip t) as [|a r] eqn:R.
  - destruct (isspace c) eqn:E; simpl; rewrite ?E, <- !IH; reflexivity.
  - simpl. destruct (isspace c); rewrite <- !IH; reflexivity.
Qed.

Lemma split_ws_strip (s : string) : split_ws (strip s) = split_ws s.
Proof.
  unfold strip, split_ws at 1. rewrite split_ws_aux_rstrip. apply split_ws_lstrip.
Qed.

Lemma split_ws_aux_nonempty (s : string) (cur : list ascii) :
  cur <> [] -> split_ws_aux cur s <> [].
Proof.
  revert cur. induction s as [|c t IH]; intros cur N; simpl.
  - destruct cur; [congruence | discriminate].
  - destruct (isspace c); [|apply IH; discriminate].
    destruct cur; [congruence | discriminate].
Qed.

Lemma all_chars_of_list (p : ascii -> bool) (l : list ascii) :
  all_chars p (string_of_list_ascii l) = forallb p l.
Proof. induction l as [|c l IH]; simpl; [|rewrite IH]; reflexivity. Qed.

Lemma forallb_rev {A : Type} (p : A -> bool) (l : list A) :
  forallb p (rev l) = forallb p l.
Proof.
  induction l as [|x l IH]; simpl; [reflexivity|].
  rewrite forallb_app, IH. simpl. rewrite andb_true_r. apply andb_comm.
Qed.

Lemma flush_wordy (cur : list ascii) (acc : list string) :
  forallb not_space cur = true -> Forall wordy acc -> Forall wordy (flush cur acc).
Proof.
  intros C A. destruct cur as [|c cur]; [exact A|]. simpl. constructor; [|exact A].
  split.
  - intros E. apply (f_equal list_ascii_of_string) in E.
    rewrite list_ascii_of_string_of_list_ascii in E.
    destruct (rev cur); discriminate E.
  - rewrite all_chars_of_list, forallb_app, forallb_rev. simpl in *.
    apply andb_true_iff in C. destruct C as [-> ->]. reflexivity.
Qed.

Lemma split_ws_aux_wordy (s : string) (cur : list ascii) :
  forallb not_space cur = true -> Forall wordy (split_ws_aux cur s).
Proof.
  revert cur. induction s as [|c t IH]; intros cur C; simpl.
  - apply flush_wordy; [exact C | constructor].
  - destruct (isspace c) eqn:E.
    + apply flush_wordy; [exact C | apply IH; reflexivity].
    + apply IH. simpl. unfold not_space at 1. rewrite E, C. reflexivity.
Qed.

Lemma split_ws_wordy (s : string) : Forall wordy (split_ws s).
Proof. apply split_ws_aux_wordy. reflexivity. Qed.

Lemma wordy_lstrip (w : string) : wordy w -> lstrip w = w.
Proof.
  intros [N A]. destruct w as [|c t]; [congruence|]. simpl in *.
  apply andb_true_iff in A. destruct A as [C _].
  apply negb_true_iff in C. rewrite C. reflexivity.
Qed.

Lemma join_wordy (ws : list string) :
  Forall wordy ws -> ws <> [] ->
  join " " ws <> "" /\ lstrip (join " " ws) = join " " ws
  /\ rstrip (join " " ws) = join " " ws.
Proof.
  induction 1 as [|w ws W F IH]; [congruence|]. intros _.
  destruct ws as [|v ws].
  - simpl. destruct W as [N A]. repeat split; auto.
    + apply wordy_lstrip. split; assumption.
    + apply rstrip_nonspace, A.
  - destruct IH as (N & _ & R); [discriminate|].
    change (join " " (w :: v :: ws)) with (w ++ " " ++ join " " (v :: ws))%string.
    pose proof (wordy_lstrip _ W) as L. destruct W as [Nw _].
    destruct w as [|c t]; [congruence|]. repeat split.
    + discriminate.
    + simpl in *. destruct (isspace c); [|reflexivity].
      exfalso. clear -L. assert (String.length (lstrip t) <= String.length t).
      { clear L. induction t as [|a t IH]; simpl; [lia|].
        destruct (isspace a); simpl; lia. }
      rewrite L in H. simpl in H. lia.
    + apply (rstrip_app (String c t) (" " ++ join " " (v :: ws))); [|discriminate].
      apply (rstrip_app " " (join " " (v :: ws))); assumption.
Qed.

Lemma strip_join_wordy (ws : list string) :
  Forall wordy ws -> strip (join " " ws) = join " " ws.
Proof.
  intros F. destruct ws as [|w ws]; [reflexivity|].
  destruct (join_wordy _ F) as (_ & L & R); [discriminate|].
  unfold strip. rewrite L. exact R.
Qed.

Lemma take_until_Forall (P : string -> Prop) (x : string) (ws : list string) :
  Forall P ws -> Forall P (take_until x ws).
Proof.
  induction 1 as [|w ws W F IH]; simpl; [constructor|].
  destruct (String.eqb w x); constructor; assumption.
Qed.

Lemma cut_repeat_take (x : string) (pre ws : list string) :
  cut_repeat x (List.length pre) ws (pre ++ ws) = pre ++ take_until x ws.
Proof.
  revert pre. induction ws as [|w ws IH]; intros pre; simpl.
  - reflexivity.
  - destruct (String.eqb w x).
    + rewrite firstn_app, firstn_all, Nat.sub_diag. reflexivity.
    + replace (pre ++ w :: ws) with ((pre ++ [w]) ++ ws)
        by (rewrite <- app_assoc; reflexivity).
      replace (S (List.length pre)) with (List.length (pre ++ [w]))
        by (rewrite length_app; simpl; lia).
      rewrite IH, <- app_assoc. reflexivity.
Qed.

(** ** Name splitter *)

(** *** Removal of the label *)

Lemma length_append (a b : string) :
  String.length (a ++ b) = (String.length a + String.length b)%nat.
Proof. induction a as [|c a IH]; simpl; [|rewrite IH]; reflexivity. Qed.

Lemma match_at_dozent (prev : option ascii) (s : string) :
  match_at DOZENT_RE prev s =
  if xorb (word_at prev) (word_at (peek s))
  then exec (lit "Dozent") prev s []
         (fun p' s' c' =>
            if xorb (word_at p') (word_at (peek s'))
            then Some {| groups := c'; rest := s' |} else None)
  else None.
Proof. reflexivity. Qed.

(** A match of the pattern is the label between word boundaries. *)
Lemma match_dozent (prev : option ascii) (s : string) (m : match_obj) :
  match_at DOZENT_RE prev s = Some m ->
  s = ("Dozent" ++ rest m)%string
  /\ word_at prev = false /\ word_at (peek (rest m)) = false.
Proof.
  rewrite match_at_dozent. destruct (xorb _ _) eqn:X; [|discriminate].
  intros H. apply exec_lit in H. destruct H as (s' & -> & H).
  change (word_at (peek ("Dozent" ++ s'))) with true in X.
  change (word_at (last_char "Dozent" prev)) with true in H.
  destruct (word_at (peek s')) eqn:S; [discriminate H|].
  destruct (word_at prev); [discriminate X|].
  inversion H. auto.
Qed.

Lemma match_dozent_ok (prev : option ascii) (s : string) :
  word_at prev = false -> word_at (peek s) = false ->
  match_at DOZENT_RE prev ("Dozent" ++ s) = Some {| groups := []; rest := s |}.
Proof.
  intros P S. rewrite match_at_dozent. simpl. rewrite P, S. reflexivity.
Qed.

Lemma match_dozent_none (prev : option ascii) (s : string) :
  match_at DOZENT_RE prev s = None -> ~ label_here prev s.
Proof.
  intros M (s' & -> & P & S). rewrite (match_dozent_ok _ _ P S) in M. discriminate.
Qed.

Lemma match_dozent_blank (prev : option ascii) (s : string) :
  match_at DOZENT_RE prev (String " " s) = None.
Proof. rewrite match_at_dozent. simpl. destruct (xorb _ _); reflexivity. Qed.

Lemma sub_aux_skip (r : regex) (p s : string) (prev : option ascii) :
  sub_aux r (String.length p) prev (p ++ s) = sub_aux r 0 (last_char p prev) s.
Proof.
  revert prev. induction p as [|a p IH]; intros prev; simpl; [reflexivity|].
  apply IH.
Qed.

Lemma sub_aux_label (prev : option ascii) (s : string) (m : match_obj) :
  match_at DOZENT_RE prev s = Some m ->
  sub_aux DOZENT_RE 0 prev s = sub_aux DOZENT_RE 0 (Some "t"%char) (rest m).
Proof.
  intros M. destruct (match_dozent _ _ _ M) as (E & _).
  destruct s as [|a t]; [discriminate E|].
  cbn [sub_aux]. rewrite M.
  replace (String.length (String a t) - String.length (rest m))%nat with 6%nat
    by (rewrite E, length_append; cbn [String.length]; lia).
  inversion E; subst.
  apply (sub_aux_skip DOZENT_RE "ozent" (rest m)).
Qed.

Lemma sub_deletes (n : nat) (s : string) (prev : option ascii) :
  (String.length s <= n)%nat ->
  deletes_label prev s (sub_aux DOZENT_RE 0 prev s).
Proof.
  revert s prev. induction n as [|n IH]; intros s prev L.
  - destruct s; [constructor | simpl in L; lia].
  - destruct s as [|a t]; [constructor|].
    destruct (match_at DOZENT_RE prev (String a t)) as [m|] eqn:M.
    + rewrite (sub_aux_label _ _ _ M).
      destruct (match_dozent _ _ _ M) as (E & P & S).
      rewrite E in *. apply del_drop; [exact P | exact S |].
      apply IH. simpl in L. lia.
    + cbn [sub_aux]. rewrite M.
      apply del_keep; [apply match_dozent_none, M|].
      apply IH. simpl in L. lia.
Qed.

Lemma lstrip_blank (s : string) : all_chars isspace s = true -> lstrip s = "".
Proof.
  induction s as [|c t IH]; simpl; [reflexivity|].
  destruct (isspace c); [exact IH | discriminate].
Qed.

Lemma sub_all_label (raw : list string) (prev : option ascii) :
  word_at prev = false -> Forall (fun w => w = "Dozent") raw ->
  all_chars isspace (sub_aux DOZENT_RE 0 prev (join " " raw)) = true.
Proof.
  intros P F. revert prev P. induction F as [|w ws -> F IH]; intros prev P.
  - reflexivity.
  - destruct ws as [|v ws].
    + pose proof (match_dozent_ok prev "" P eq_refl) as M.
      change (join " " ["Dozent"]) with ("Dozent" ++ "")%string.
      cbn [sub_aux append]. cbn [append] in M. rewrite M. reflexivity.
    + set (J := join " " (v :: ws)) in *.
      change (join " " ("Dozent" :: v :: ws)) with ("Dozent" ++ String " " J)%string.
      pose proof (match_dozent_ok prev (String " " J) P eq_refl) as M.
      cbn [sub_aux append]. cbn [append] in M. rewrite M.
      replace (String.length (String "D" (String "o" (String "z" (String "e"
                 (String "n" (String "t" (String " " J)))))))
               - String.length (rest {| groups := []; rest := String " " J |}))%nat
        with 6%nat by (cbn [String.length rest]; lia).
      cbn [sub_aux]. rewrite match_dozent_blank.
      cbn [all_chars]. rewrite IH by reflexivity. reflexivity.
Qed.

(** The deletion of the label has one result, the one of
    [re.sub]. *)
Lemma deletes_label_sub (prev : option ascii) (s s' : string) :
  deletes_label prev s s' -> s' = sub_aux DOZENT_RE 0 prev s.
Proof.
  induction 1 as [prev | prev c s s' N D IH | prev s s' P S D IH].
  - reflexivity.
  - cbn [sub_aux].
    destruct (match_at DOZENT_RE prev (String c s)) as [m|] eqn:M.
    + destruct (match_dozent _ _ _ M) as (E & P & S).
      destruct N. exists (rest m). auto.
    + rewrite IH. reflexivity.
  - rewrite (sub_aux_label _ _ _ (match_dozent_ok prev s P S)). exact IH.
Qed.

(** C5, as stated, fails: with the label removed token by token, a token
    that holds the label before the comma keeps it, and the last name the
    code returns is another one. *)
Lemma label_before_comma_counterexample :
  ~ (forall raw_words,
       contains_char ","
         (join " " (filter (fun w => negb (String.eqb w "Dozent")) raw_words)) = true ->
       _first_dozent raw_words = Ok (name_splitter_spec raw_words)).
Proof.
  intros H. specialize (H ["Dozent-Meier,"; "Anna"] eq_refl).
  vm_compute in H. discriminate H.
Qed.

(** C5, amended: let the text be the joined tokens with the occurrences of
    "Dozent" between word boundaries deleted (also inside a token) and
    without the white space around it.  With a comma in the text, the last
    name is the text before the first comma without the white space around
    it, and the first name joins, with single blanks, the words after that
    comma up to the first word equal to the last name; without a comma
    (and with some text left) the last word is the last name and the words
    before it, joined, the first name; "Schmidt, Anna Schmidt" gives
    (Schmidt, Anna). *)
Theorem first_dozent_cases (raw_words : list string) :
  (exists deleted text,
     deletes_label None (join " " raw_words) deleted /\ trim_of deleted text)
  /\ (forall deleted text,
        deletes_label None (join " " raw_words) deleted -> trim_of deleted text ->
        (contains_char "," text = true ->
         exists before after last_name,
           text = (before ++ "," ++ after)%string
           /\ contains_char "," before = false
           /\ trim_of before last_name
           /\ _first_dozent raw_words
              = Ok (last_name, join " " (take_until last_name (split_ws after))))
        /\ (contains_char "," text = false ->
            _first_dozent raw_words
            = Ok (last (split_ws text) "", join " " (removelast (split_ws text)))
            /\ (text <> "" ->
                exists firsts last_word,
                  split_ws text = firsts ++ [last_word]
                  /\ _first_dozent raw_words = Ok (last_word, join " " firsts))))
  /\ _first_dozent ["Schmidt,"; "Anna"; "Schmidt"] = Ok ("Schmidt", "Anna")
  /\ _first_dozent ["Schmidt, Anna Schmidt"] = Ok ("Schmidt", "Anna")
  /\ _first_dozent ["Dozent-Meier,"; "Anna"] = Ok ("-Meier", "Anna").
Proof.
  split; [|split; [|repeat split; vm_compute; reflexivity]].
  { exists (re_sub_delete DOZENT_RE (join " " raw_words)),
      (strip (re_sub_delete DOZENT_RE (join " " raw_words))).
    split; [eapply sub_deletes; reflexivity | apply strip_trim_of]. }
  intros deleted text D T.
  apply deletes_label_sub in D. fold (re_sub_delete DOZENT_RE (join " " raw_words)) in D.
  apply trim_of_strip in T. subst deleted.
  unfold _first_dozent. rewrite <- T.
  split.
  - intros C. destruct (split1_comma _ _ C) as (a & b & S & E & Ca).
    exists a, b, (strip a). split; [exact E|]. split; [exact Ca|].
    split; [apply strip_trim_of|].
    destruct text as [|c t]; [discriminate C|]. rewrite C, S.
    rewrite split_ws_strip.
    pose proof (cut_repeat_take (strip a) [] (split_ws b)) as CR.
    simpl in CR. rewrite CR.
    rewrite strip_join_wordy; [reflexivity|].
    apply take_until_Forall, split_ws_wordy.
  - intros C.
    assert (E : match text with
                | EmptyString => Ok ("", "")
                | String _ _ =>
                    if contains_char "," text
                    then match split1 "," text with
                         | [nachname; rest] =>
                             Ok (strip nachname,
                                 strip (join " "
                                   (cut_repeat (strip nachname) 0
                                      (split_ws (strip rest)) (split_ws (strip rest)))))
                         | _ => Err UnpackError
                         end
                    else Ok (last (split_ws text) "", join " " (init (split_ws text)))
                end
                = Ok (last (split_ws text) "", join " " (removelast (split_ws text)))).
    { rewrite C. destruct text; reflexivity. }
    split; [exact E|]. intros N. rewrite E.
    destruct text as [|c t]; [congruence|].
    assert (S : split_ws (String c t) <> []).
    { unfold split_ws. cbn [split_ws_aux]. rewrite (strip_head _ _ _ (eq_sym T)).
      apply split_ws_aux_nonempty. discriminate. }
    destruct (exists_last S) as (firsts & last_word & ->).
    exists firsts, last_word. split; [reflexivity|].
    rewrite last_last, removelast_last. reflexivity.
Qed.

Lemma first_dozent_cases_witness :
  (exists before after last_name,
     "Meier , Anna Maria Meier, Anna" = (before ++ "," ++ after)%string
     /\ contains_char "," before = false
     /\ trim_of before last_name
     /\ _first_dozent ["Dozent"; "Meier"; ","; "Anna"; "Maria"; "Meier,"; "Anna"]
        = Ok (last_name, join " " (take_until last_name (split_ws after))))
  /\ (exists firsts last_word,
        split_ws "Anna Maria Meier" = firsts ++ [last_word]
        /\ _first_dozent ["Anna"; "Maria"; "Meier"]
           = Ok (last_word, join " " firsts)).
Proof.
  split.
  - apply (proj1 (proj2 (first_dozent_cases
                           ["Dozent"; "Meier"; ","; "Anna"; "Maria"; "Meier,"; "Anna"]))
             " Meier , Anna Maria Meier, Anna" "Meier , Anna Maria Meier, Anna").
    + apply (sub_deletes 40 "Dozent Meier , Anna Maria Meier, Anna" None).
      vm_compute. lia.
    + apply (strip_trim_of " Meier , Anna Maria Meier, Anna").
    + reflexivity.
  - apply (proj1 (proj2 (first_dozent_cases ["Anna"; "Maria"; "Meier"]))
             "Anna Maria Meier" "Anna Maria Meier").
    + apply (sub_deletes 40 "Anna Maria Meier" None). vm_compute. lia.
    + apply (strip_trim_of "Anna Maria Meier").
    + reflexivity.
    + discriminate.
Defined.

(** C6, as stated, fails: the label is also removed from inside a token
    that is not equal to it, so the result differs from the one the
    specification's steps give. *)
Lemma label_inside_token_counterexample :
  ~ (forall raw_words, _first_dozent raw_words = Ok (name_splitter_spec raw_words)).
Proof.
  intros H. specialize (H ["Dozent-Meier"]). vm_compute in H. discriminate H.
Qed.

(** C6, amended: the name splitter always returns a pair; from the joined
    text it deletes the occurrences of "Dozent" between word boundaries, and
    nothing else (so also the label inside a token such as "Dozent-Meier");
    when only white space is left, as when every token is the label or
    there is no token, the pair is ("", ""). *)
Theorem first_dozent_never_fails (raw_words : list string) :
  (exists nachname vorname, _first_dozent raw_words = Ok (nachname, vorname))
  /\ deletes_label None (join " " raw_words)
                   (re_sub_delete DOZENT_RE (join " " raw_words))
  /\ (strip (re_sub_delete DOZENT_RE (join " " raw_words)) = "" ->
      _first_dozent raw_words = Ok ("", ""))
  /\ (Forall (fun w => w = "Dozent") raw_words ->
      _first_dozent raw_words = Ok ("", ""))
  /\ _first_dozent [] = Ok ("", "")
  /\ _first_dozent ["Dozent-Meier"] = Ok ("-Meier", "").
Proof.
  split; [apply first_dozent_total|].
  split; [eapply sub_deletes; reflexivity|].
  assert (E : strip (re_sub_delete DOZENT_RE (join " " raw_words)) = "" ->
              _first_dozent raw_words = Ok ("", ""))
    by (unfold _first_dozent; intros ->; reflexivity).
  split; [exact E|]. split; [|split; vm_compute; reflexivity].
  intros F. apply E. unfold strip, re_sub_delete.
  rewrite lstrip_blank; [reflexivity|]. apply sub_all_label; auto.
Qed.

Lemma first_dozent_never_fails_witness :
  _first_dozent ["Dozent"; "Dozent"; "Dozent"] = Ok ("", "")
  /\ _first_dozent [" "] = Ok ("", "").
Proof.
  split.
  - apply (proj1 (proj2 (proj2 (proj2 (first_dozent_never_fails _))))).
    repeat constructor.
  - apply (proj1 (proj2 (proj2 (first_dozent_never_fails _)))). reflexivity.
Defined.

(** ** Column text assembler *)

Lemma mapM_In {A B : Type} (f : A -> result B) (l : list A) (ys : list B) (y : B) :
  mapM f l = Ok ys -> In y ys -> exists x, In x l /\ f x = Ok y.
Proof.
  revert ys. induction l as [|x l IH]; simpl; intros ys H I.
  - inversion H; subst. destruct I.
  - destruct (f x) as [y'|e] eqn:F; [|discriminate]. simpl in H.
    destruct (mapM f l) as [ys'|e]; [|discriminate]. simpl in H.
    inversion H; subst. destruct I as [<-|I]; [eauto|].
    destruct (IH _ eq_refl I) as (x' & ? & ?). eauto.
Qed.

Lemma append_empty (s : string) : (s ++ "")%string = s.
Proof. induction s as [|c s IH]; simpl; [|rewrite IH]; reflexivity. Qed.

Lemma split_ws_aux_word (w s : string) (cur : list ascii) :
  all_chars not_space w = true ->
  split_ws_aux cur (w ++ s) = split_ws_aux (rev (list_ascii_of_string w) ++ cur) s.
Proof.
  revert cur. induction w as [|c w IH]; intros cur A; simpl; [reflexivity|].
  simpl in A. apply andb_true_iff in A. destruct A as [C A].
  apply negb_true_iff in C. rewrite C, (IH _ A), <- app_assoc. reflexivity.
Qed.

Lemma flush_word (w : string) (acc : list string) :
  w <> "" -> flush (rev (list_ascii_of_string w)) acc = w :: acc.
Proof.
  intros N. unfold flush.
  destruct (rev (list_ascii_of_string w)) as [|a l] eqn:E.
  - apply (f_equal (@rev ascii)) in E. rewrite rev_involutive in E.
    destruct w; [congruence | discriminate E].
  - rewrite <- E, rev_involutive, string_of_list_ascii_of_string. reflexivity.
Qed.

Lemma split_ws_join (ws : list string) :
  Forall wordy ws -> split_ws (join " " ws) = ws.
Proof.
  unfold split_ws. induction 1 as [|w ws [N A] F IH]; [reflexivity|].
  destruct ws as [|v ws].
  - simpl. rewrite <- (append_empty w) at 1.
    rewrite (split_ws_aux_word _ _ _ A), app_nil_r. simpl.
    apply flush_word, N.
  - change (join " " (w :: v :: ws)) with (w ++ String " " (join " " (v :: ws)))%string.
    rewrite (split_ws_aux_word _ _ _ A), app_nil_r.
    change (split_ws_aux ?c (String " " ?s)) with (flush c (split_ws_aux [] s)).
    rewrite IH. apply flush_word, N.
Qed.

(** C4, as stated, fails: the instructor band is not filtered against the
    denylist, so the entry "Stunde" there becomes the last name. *)
Lemma noise_in_instructor_counterexample :
  ~ (forall words rows r tok,
       parse_rows_from_page words = Ok rows -> In r rows ->
       is_noise tok = true ->
       ~ In tok (split_ws (inhalt r))
       /\ ~ In tok (split_ws (dozent_nachname r))
       /\ ~ In tok (split_ws (dozent_vorname r))).
Proof.
  intros H.
  destruct (H [mk_word "1" 40 100 110; mk_word "Stunde" 460 100 110]%Q
              [{| stunde := 1; inhalt := ""; dozent_vorname := "";
                  dozent_nachname := "Stunde" |}]
              {| stunde := 1; inhalt := ""; dozent_vorname := "";
                 dozent_nachname := "Stunde" |}
              "Stunde" eq_refl (or_introl eq_refl) eq_refl)
    as (_ & N & _).
  apply N. left. reflexivity.
Qed.

(** C4, amended: the content text of a row joins, in the order of the
    words, exactly the tokens of the content band in the row's span that are
    not on the denylist, so no denylist entry is among them (and, the tokens
    being free of white space, none is a word of the content text).  The
    instructor text is computed from all tokens of the instructor band in
    the span; only the label "Dozent" is deleted there. *)
Theorem content_free_of_noise (words : list word) (rows : list row) (r : row) :
  parse_rows_from_page words = Ok rows -> In r rows ->
  exists bs y0 y1 toks,
    row_boundaries words = Ok bs /\ In (stunde r, y0, y1) bs
    /\ inhalt r = join " " toks
    /\ (forall t, In t toks <->
          is_noise t = false
          /\ exists w, In w words /\ text w = t
                       /\ within (fst COL_LEHRINHALTE) (snd COL_LEHRINHALTE) (x0 w) = true
                       /\ within y0 y1 (top w) = true)
    /\ (Forall (fun w => wordy (text w)) words ->
        forall t, In t (split_ws (inhalt r)) -> is_noise t = false)
    /\ _first_dozent (_words_in_col words (fst COL_DOZENT) (snd COL_DOZENT) y0 y1)
       = Ok (dozent_nachname r, dozent_vorname r).
Proof.
  unfold parse_rows_from_page. intros H I.
  destruct (row_boundaries words) as [bs|e]; [|discriminate]. simpl in H.
  destruct (mapM_In _ _ _ _ H I) as ([[nr y0] y1] & Ib & E).
  unfold extract_row in E.
  destruct (_first_dozent _) as [[l v]|e] eqn:D; [|discriminate]. simpl in E.
  inversion E; subst r. clear E. simpl.
  set (toks := filter (fun w => negb (is_noise w))
                 (_words_in_col words (fst COL_LEHRINHALTE) (snd COL_LEHRINHALTE) y0 y1)).
  assert (T : forall t, In t toks <->
                is_noise t = false
                /\ exists w, In w words /\ text w = t
                     /\ within (fst COL_LEHRINHALTE) (snd COL_LEHRINHALTE) (x0 w) = true
                     /\ within y0 y1 (top w) = true).
  { intros t. unfold toks, _words_in_col.
    rewrite filter_In, in_map_iff, negb_true_iff. split.
    - intros [(w & <- & F) N]. apply filter_In in F. destruct F as [F B].
      apply andb_true_iff in B. destruct B. eauto 8.
    - intros (N & w & Iw & <- & X & Y). split; [|exact N].
      exists w. split; [reflexivity|]. apply filter_In. rewrite X, Y. auto. }
  exists bs, y0, y1, toks. repeat split; try apply T; auto.
  intros W t It. rewrite split_ws_join in It; [apply T, It|].
  rewrite Forall_forall in *. intros x Ix. apply T in Ix.
  destruct Ix as (_ & w & Iw & <- & _). apply W, Iw.
Qed.

Lemma content_free_of_noise_witness :
  exists toks,
    "Einfuehrung" = join " " toks
    /\ forall t, In t (split_ws "Einfuehrung") -> is_noise t = false.
Proof.
  destruct (content_free_of_noise words_noise
              [{| stunde := 1; inhalt := "Einfuehrung"; dozent_vorname := "";
                  dozent_nachname := "" |}]
              {| stunde := 1; inhalt := "Einfuehrung"; dozent_vorname := "";
                 dozent_nachname := "" |}
              eq_refl (or_introl eq_refl))
    as (bs & y0 & y1 & toks & _ & _ & J & _ & S & _).
  exists toks. split; [exact J|]. apply S.
  repeat constructor; discriminate.
Defined.

(** * Further properties of the program *)

(** ** Escaping for SQL *)

Lemma sql_escape_app (a b : string) :
  sql_escape (a ++ b) = (sql_escape a ++ sql_escape b)%string.
Proof.
  induction a as [|c a IH]; simpl; [reflexivity|].
  rewrite IH. destruct (Ascii.eqb c "'"); reflexivity.
Qed.

(** X1: a text escaped by [sql_escape] and put between quotes is read back
    by SQL as exactly that text, whatever quotes it holds, and the literal
    ends at the closing quote, provided the text that follows does not start
    with a quote. *)
Theorem sql_escape_read_back (text rest : string) :
  peek rest <> Some "'"%char ->
  read_sql_literal (sql_escape text ++ String "'" rest) = Some (text, rest).
Proof.
  intros R. induction text as [|c t IH]; simpl.
  - destruct rest as [|c' t']; [reflexivity|].
    destruct (Ascii.eqb c' "'") eqn:E; [|reflexivity].
    apply Ascii.eqb_eq in E. subst. simpl in R. congruence.
  - destruct (Ascii.eqb c "'") eqn:E; simpl; rewrite ?E, ?Ascii.eqb_refl, IH.
    + apply Ascii.eqb_eq in E. subst. reflexivity.
    + reflexivity.
Qed.

Lemma sql_escape_read_back_witness :
  read_sql_literal (sql_escape "Grundlagen 'SQL' - it's" ++ String "'" " FROM lerntag")
  = Some ("Grundlagen 'SQL' - it's", " FROM lerntag").
Proof. apply sql_escape_read_back. simpl. discriminate. Defined.

(** ** Rows: number and range *)

Lemma anchor_nr_range (w : word) (n : Z) :
  anchor_nr w = Some n -> (1 <= n <= 9)%Z.
Proof.
  unfold anchor_nr. destruct (isdigit (text w)); [|discriminate].
  destruct (int (text w)) as [m|]; [|discriminate].
  destruct ((1 <=? m) && (m <=? 9))%Z eqn:E; [|discriminate].
  destruct (within _ _ _); [|discriminate].
  intros H. inversion H; subst.
  apply andb_true_iff in E. destruct E as [A B].
  apply Z.leb_le in A, B. lia.
Qed.

Lemma strictly_sorted_length (l : list Z) (a b : Z) :
  StronglySorted Z.lt l -> (a <= b + 1)%Z ->
  (forall n, In n l -> (a <= n <= b)%Z) ->
  (Z.of_nat (List.length l) <= b - a + 1)%Z.
Proof.
  intros S. revert a. induction S as [|x l S IH H]; intros a A R.
  - simpl. lia.
  - pose proof (R x (or_introl eq_refl)) as Rx.
    rewrite Forall_forall in H.
    assert (I : (Z.of_nat (List.length l) <= b - (x + 1) + 1)%Z).
    { apply IH; [lia|]. intros n In'. specialize (H n In').
      specialize (R n (or_intror In')). lia. }
    simpl List.length. lia.
Qed.

(** The slot numbers of the rows returned lie in 1..9. *)
Lemma rows_nrs_range (words : list word) (rows : list row) :
  parse_rows_from_page words = Ok rows ->
  forall n, In n (map stunde rows) -> (1 <= n <= 9)%Z.
Proof.
  intros H. destruct (parse_rows_stages _ _ H) as (st & _ & _ & -> & _ & _ & M).
  intros n I. rewrite M in I. apply stunden_nrs in I.
  destruct I as (w & _ & A). eapply anchor_nr_range, A.
Qed.

Lemma rows_not_nil (words : list word) (rows : list row) :
  parse_rows_from_page words = Ok rows -> rows <> [].
Proof.
  intros H. destruct (parse_rows_stages _ _ H) as (st & _ & N & -> & _ & _ & M).
  intros E. subst rows. simpl in M.
  assert (X : exists p, In p (anchors_of words)).
  { clear M. destruct (anchors_of words) as [|p l]; [congruence|].
    exists p. left. reflexivity. }
  destruct X as ([n t] & X).
  assert (I : In n (map fst (dedup [] (sorted (anchors_of words))))).
  { apply dedup_complete; [|intros []]. apply in_map_iff. exists (n, t).
    split; [reflexivity|].
    apply (Permutation_in _ (Permutation_sym (sorted_perm _))). exact X. }
  rewrite <- M in I. destruct I.
Qed.

Lemma rows_strictly_sorted (words : list word) (rows : list row) :
  parse_rows_from_page words = Ok rows -> StronglySorted Z.lt (map stunde rows).
Proof.
  intros H. destruct (parse_rows_stages _ _ H) as (st & _ & _ & -> & _ & _ & M).
  rewrite M. apply dedup_strictly_sorted; [apply sorted_sorted | intros ? ? []].
Qed.

(** X2: when [parse_rows_from_page] returns, it returns between one and
    nine rows, and every slot number lies in 1..9. *)
Theorem rows_count_and_range (words : list word) (rows : list row) :
  parse_rows_from_page words = Ok rows ->
  rows <> []
  /\ (List.length rows <= 9)%nat
  /\ Forall (fun r => (1 <= stunde r <= 9)%Z) rows.
Proof.
  intros H. pose proof (rows_nrs_range _ _ H) as R.
  split; [exact (rows_not_nil _ _ H)|]. split.
  - pose proof (strictly_sorted_length _ 1 9 (rows_strictly_sorted _ _ H) ltac:(lia) R) as L.
    rewrite length_map in L. lia.
  - rewrite Forall_forall. intros r I. apply R, in_map, I.
Qed.

Lemma rows_count_and_range_witness :
  exists rows, parse_rows_from_page words_531 = Ok rows
               /\ rows <> [] /\ (List.length rows <= 9)%nat.
Proof.
  eexists. split; [vm_compute; reflexivity|].
  match goal with |- ?r <> [] /\ _ =>
    destruct (rows_count_and_range words_531 r eq_refl) as (N & L & _) end.
  split; assumption.
Defined.

(** ** Print path: the statements of [build_print_statements] *)

Section DictFacts.
Context {K V : Type} (eqb : K -> K -> bool).
Hypothesis eqb_spec : forall a b, eqb a b = true <-> a = b.

Lemma dict_get_set_same (d : list (K * V)) (k : K) (v : V) :
  dict_get eqb (dict_set eqb d k v) k = Some v.
Proof.
  induction d as [|[k' v'] d IH]; simpl.
  - rewrite (proj2 (eqb_spec k k) eq_refl). reflexivity.
  - destruct (eqb k' k) eqn:E; simpl; rewrite E; [reflexivity | exact IH].
Qed.

Lemma dict_get_set_other (d : list (K * V)) (k k' : K) (v : V) :
  k <> k' -> dict_get eqb (dict_set eqb d k v) k' = dict_get eqb d k'.
Proof.
  intros N. induction d as [|[k0 v0] d IH]; simpl.
  - destruct (eqb k k') eqn:E; [apply eqb_spec in E; contradiction | reflexivity].
  - destruct (eqb k0 k) eqn:E; simpl.
    + apply eqb_spec in E. subst k0.
      destruct (eqb k k') eqn:E'; [apply eqb_spec in E'; contradiction | reflexivity].
    + destruct (eqb k0 k'); [reflexivity | exact IH].
Qed.

Lemma dict_mem_set (d : list (K * V)) (k k' : K) (v : V) :
  dict_mem eqb d k' = true -> dict_mem eqb (dict_set eqb d k v) k' = true.
Proof.
  unfold dict_mem. intros H. destruct (eqb k k') eqn:E.
  - apply eqb_spec in E. subst. rewrite dict_get_set_same. reflexivity.
  - rewrite dict_get_set_other; [exact H|]. intros ->.
    rewrite (proj2 (eqb_spec k' k') eq_refl) in E. discriminate.
Qed.
End DictFacts.

Lemma name_eqb_spec (a b : string * string) : name_eqb a b = true <-> a = b.
Proof.
  destruct a as [a1 a2], b as [b1 b2]. unfold name_eqb. simpl.
  rewrite andb_true_iff, !String.eqb_eq. split; [intros [-> ->] | intros E; inversion E]; auto.
Qed.

Lemma combo_eqb_spec (a b : string * Z) : combo_eqb a b = true <-> a = b.
Proof.
  destruct a as [a1 a2], b as [b1 b2]. unfold combo_eqb. simpl.
  rewrite andb_true_iff, String.eqb_eq, Z.eqb_eq.
  split; [intros [-> ->] | intros E; inversion E]; auto.
Qed.

Lemma grows_refl (s : PrintState) : grows s s.
Proof. repeat split; auto. Qed.

Lemma grows_trans (a b c : PrintState) : grows a b -> grows b c -> grows a c.
Proof.
  intros (A1 & A2 & A3 & A4) (B1 & B2 & B3 & B4). repeat split; auto.
Qed.

Lemma settled_grows (lf_id : string) (s s' : PrintState) (r : row) :
  grows s s' -> settled lf_id s r -> settled lf_id s' r.
Proof. intros (G1 & G2 & _) (did & D & L). exists did. auto. Qed.

Lemma print_lernfeld_grows (hdr : header) (s : PrintState) :
  grows s (fst (print_lernfeld hdr s))
  /\ dict_mem String.eqb (lernfelder (fst (print_lernfeld hdr s))) (lernfeld_id hdr) = true
  /\ lerntage (fst (print_lernfeld hdr s)) = lerntage s.
Proof.
  unfold print_lernfeld.
  destruct (dict_mem String.eqb (lernfelder s) (lernfeld_id hdr)) eqn:M; simpl.
  - split; [apply grows_refl | auto].
  - split; [|split; [|reflexivity]].
    + repeat split; simpl; auto. intros k. apply dict_mem_set, String.eqb_eq.
    + unfold dict_mem. rewrite (dict_get_set_same _ String.eqb_eq). reflexivity.
Qed.

(** One turn of the dozent loop settles its row and forgets nothing. *)
Lemma print_dozent_step (lf_id : string) (s : PrintState) (stmts : list string) (r : row) :
  let s' := fst (print_dozent lf_id (s, stmts) r) in
  grows s s' /\ settled lf_id s' r
  /\ lerntage s' = lerntage s /\ lernfelder s' = lernfelder s.
Proof.
  unfold print_dozent. fold (row_key r).
  set (reg := if dict_mem name_eqb (dozenten s) (row_key r) then (s, stmts) else _).
  assert (R : grows s (fst reg) /\ dict_mem name_eqb (dozenten (fst reg)) (row_key r) = true
              /\ lerntage (fst reg) = lerntage s /\ lernfelder (fst reg) = lernfelder s).
  { unfold reg. destruct (dict_mem name_eqb (dozenten s) (row_key r)) eqn:M; simpl.
    - split; [apply grows_refl | auto].
    - split; [|split; [|auto]].
      + repeat split; simpl; auto. intros k v G.
        rewrite (dict_get_set_other _ name_eqb_spec); [exact G|].
        intros <-. unfold dict_mem in M. rewrite G in M. discriminate.
      + unfold dict_mem. rewrite (dict_get_set_same _ name_eqb_spec). reflexivity. }
  destruct reg as [s1 st1]. simpl in R. destruct R as (G & M & T & F).
  unfold dict_mem in M.
  destruct (dict_get name_eqb (dozenten s1) (row_key r)) as [did|] eqn:D; [|discriminate].
  destruct (existsb (combo_eqb (lf_id, did)) (lf_doz s1)) eqn:C; simpl.
  - split; [exact G|]. split; [exists did; auto | auto].
  - split; [|split; [|auto]].
    + eapply grows_trans; [exact G|]. repeat split; simpl; auto.
      intros c H. rewrite H. apply orb_true_r.
    + exists did. simpl. split; [exact D|].
      rewrite (proj2 (combo_eqb_spec _ _) eq_refl). reflexivity.
Qed.

Lemma print_dozent_settled (lf_id : string) (s : PrintState) (stmts : list string) (r : row) :
  settled lf_id s r -> print_dozent lf_id (s, stmts) r = (s, stmts).
Proof.
  intros (did & D & C). unfold print_dozent. fold (row_key r).
  unfold dict_mem. rewrite D. simpl. rewrite D, C. reflexivity.
Qed.

Lemma print_dozenten_fold (lf_id : string) (rows : list row)
    (s : PrintState) (stmts : list string) :
  let s' := fst (fold_left (print_dozent lf_id) rows (s, stmts)) in
  grows s s' /\ Forall (settled lf_id s') rows
  /\ lerntage s' = lerntage s /\ lernfelder s' = lernfelder s.
Proof.
  revert s stmts. induction rows as [|r rows IH]; intros s stmts; cbn [fold_left].
  - split; [apply grows_refl | auto].
  - destruct (print_dozent lf_id (s, stmts) r) as [s1 st1] eqn:E.
    pose proof (print_dozent_step lf_id s stmts r) as P. rewrite E in P. simpl in P.
    destruct P as (G1 & S1 & T1 & F1).
    destruct (IH s1 st1) as (G & S & T & F).
    split; [eapply grows_trans; eassumption|].
    split; [|split; congruence].
    constructor; [|exact S]. eapply settled_grows; eassumption.
Qed.

Lemma print_dozenten_settled (lf_id : string) (rows : list row)
    (s : PrintState) (stmts : list string) :
  Forall (settled lf_id s) rows ->
  fold_left (print_dozent lf_id) rows (s, stmts) = (s, stmts).
Proof.
  induction 1 as [|r rows S F IH]; cbn [fold_left]; [reflexivity|].
  rewrite (print_dozent_settled _ _ _ _ S). exact IH.
Qed.

Lemma build_print_eq (data : pdf_data) (state : PrintState) :
  build_print_statements data state =
  let s := fst (print_blocks data state) in
  let stmts := snd (print_blocks data state) in
  let datum' := datum (pd_header data) in
  let einheiten := map (einheit_stmt datum') (pd_rows data) in
  if dict_mem String.eqb (lerntage s) datum' then (s, Stmts (stmts ++ einheiten))
  else (register_datum datum' s,
        match pd_rows data with
        | [] => IndexError
        | first :: _ =>
            Stmts (stmts ++ [lerntag_stmt datum' (lernfeld_id (pd_header data)) first]
                         ++ einheiten)
        end).
Proof.
  unfold build_print_statements, print_blocks.
  destruct (print_lernfeld (pd_header data) state) as [s1 st1].
  destruct (fold_left _ (pd_rows data) (s1, st1)) as [s2 st2]. cbn [fst snd].
  destruct (dict_mem String.eqb (lerntage s2) (datum (pd_header data))); [reflexivity|].
  destruct (pd_rows data); reflexivity.
Qed.

Lemma print_blocks_facts (data : pdf_data) (state : PrintState) :
  let s := fst (print_blocks data state) in
  grows state s
  /\ dict_mem String.eqb (lernfelder s) (lernfeld_id (pd_header data)) = true
  /\ Forall (settled (lernfeld_id (pd_header data)) s) (pd_rows data)
  /\ lerntage s = lerntage state.
Proof.
  unfold print_blocks.
  pose proof (print_lernfeld_grows (pd_header data) state) as (G1 & M1 & T1).
  destruct (print_lernfeld (pd_header data) state) as [s1 st1]. cbn [fst] in *.
  pose proof (print_dozenten_fold (lernfeld_id (pd_header data)) (pd_rows data) s1 st1)
    as (G2 & S2 & T2 & F2).
  cbn zeta in *. split; [|split; [|split]].
  - eapply grows_trans; eassumption.
  - rewrite F2. exact M1.
  - exact S2.
  - congruence.
Qed.

(** X3: [build_print_statements] raises [IndexError] exactly when there is
    no row and the date is not yet registered; in particular it never does
    on the data of a document that [extract_pdf] returned. *)
Theorem print_index_error (data : pdf_data) (state : PrintState) :
  (snd (build_print_statements data state) = IndexError
   <-> pd_rows data = []
       /\ dict_mem String.eqb (lerntage state) (datum (pd_header data)) = false)
  /\ (forall p, extract_pdf p = Ok data ->
        snd (build_print_statements data state) <> IndexError).
Proof.
  assert (A : snd (build_print_statements data state) = IndexError
              <-> pd_rows data = []
                  /\ dict_mem String.eqb (lerntage state) (datum (pd_header data)) = false).
  { rewrite build_print_eq. cbn zeta.
    destruct (print_blocks_facts data state) as (_ & _ & _ & ->).
    destruct (dict_mem String.eqb (lerntage state) (datum (pd_header data))); cbn [snd].
    - split; [discriminate | intros [_ ?]; discriminate].
    - destruct (pd_rows data); split; auto; try discriminate.
      intros [? _]. discriminate. }
  split; [exact A|]. intros p E N. apply A in N. destruct N as [N _].
  unfold extract_pdf in E.
  destruct (parse_header _) as [h|]; [|discriminate]. simpl in E.
  destruct (parse_rows_from_page (extract_words p)) as [r|] eqn:R; [|discriminate].
  inversion E; subst data. simpl in N. subst r.
  exact (rows_not_nil _ _ R eq_refl).
Qed.

(** X4: a second call of [build_print_statements] with the same data, on
    the state the first call left (whether it returned or raised), changes
    the state no more and returns only the statements of the
    unterrichtseinheiten, one for each row. *)
Theorem print_again (data : pdf_data) (state : PrintState) :
  let state' := fst (build_print_statements data state) in
  build_print_statements data state'
  = (state', Stmts (map (einheit_stmt (datum (pd_header data))) (pd_rows data))).
Proof.
  set (hdr := pd_header data). set (rows := pd_rows data).
  assert (S : let s := fst (build_print_statements data state) in
              dict_mem String.eqb (lernfelder s) (lernfeld_id hdr) = true
              /\ Forall (settled (lernfeld_id hdr) s) rows
              /\ dict_mem String.eqb (lerntage s) (datum hdr) = true).
  { rewrite build_print_eq. cbn zeta. fold hdr rows.
    destruct (print_blocks_facts data state) as (_ & L & D & _). fold hdr rows in L, D.
    destruct (dict_mem String.eqb (lerntage (fst (print_blocks data state))) (datum hdr))
      eqn:M; cbn [fst].
    - auto.
    - unfold register_datum. cbn [lernfelder dozenten lf_doz lerntage].
      repeat split; [exact L | |].
      + eapply Forall_impl; [|exact D]. intros r (did & X & C). exists did. auto.
      + unfold dict_mem. rewrite (dict_get_set_same _ String.eqb_eq). reflexivity. }
  cbn zeta in S. destruct S as (L & D & T). intros state'.
  fold state' in L, D, T.
  assert (B : print_blocks data state' = (state', [])).
  { unfold print_blocks, print_lernfeld. fold hdr rows. rewrite L.
    apply print_dozenten_settled, D. }
  rewrite build_print_eq. cbn zeta. rewrite B. cbn [fst snd]. fold hdr rows.
  rewrite T. reflexivity.
Qed.

Lemma print_index_error_witness :
  exists data, extract_pdf page_example = Ok data
               /\ snd (build_print_statements data PrintState_init) <> IndexError.
Proof.
  eexists. split; [vm_compute; reflexivity|].
  match goal with |- snd (build_print_statements ?d _) <> _ =>
    apply (proj2 (print_index_error d PrintState_init) page_example) end.
  vm_compute. reflexivity.
Defined.

Lemma name_mem_In (k : string * string) (l : list (string * string)) :
  existsb (name_eqb k) l = true <-> In k l.
Proof.
  rewrite existsb_exists. split.
  - intros (x & I & E). apply name_eqb_spec in E. subst. exact I.
  - intros I. exists k. split; [exact I | apply name_eqb_spec; reflexivity].
Qed.

Lemma combo_mem_In (c : string * Z) (l : list (string * Z)) :
  existsb (combo_eqb c) l = true <-> In c l.
Proof.
  rewrite existsb_exists. split.
  - intros (x & I & E). apply combo_eqb_spec in E. subst. exact I.
  - intros I. exists c. split; [exact I | apply combo_eqb_spec; reflexivity].
Qed.

Lemma name_eqb_sym (a b : string * string) : name_eqb a b = name_eqb b a.
Proof.
  destruct (name_eqb a b) eqn:E, (name_eqb b a) eqn:E'; try reflexivity.
  - apply name_eqb_spec in E. subst. rewrite (proj2 (name_eqb_spec b b) eq_refl) in E'.
    discriminate.
  - apply name_eqb_spec in E'. subst. rewrite (proj2 (name_eqb_spec a a) eq_refl) in E.
    discriminate.
Qed.

(** A turn of the dozent loop on a fresh state: a name met before gives no
    statement, a new name gives its two statements and the next id. *)
Lemma print_dozent_registering (lf_id : string) (seen : list (string * string))
    (s : PrintState) (stmts : list string) (r : row) :
  registering lf_id seen s ->
  exists s',
    print_dozent lf_id (s, stmts) r
    = (s', stmts ++ (if existsb (name_eqb (row_key r)) seen then []
                     else name_stmts lf_id (row_key r)))
    /\ registering lf_id
         (if existsb (name_eqb (row_key r)) seen then seen else row_key r :: seen) s'
    /\ lerntage s' = lerntage s /\ lernfelder s' = lernfelder s
    /\ lerntag_seq s' = lerntag_seq s.
Proof.
  intros (A & B & C & N & I). unfold print_dozent. fold (row_key r).
  rewrite A. destruct (existsb (name_eqb (row_key r)) seen) eqn:E.
  - pose proof (A (row_key r)) as M. rewrite E in M. unfold dict_mem in M.
    destruct (dict_get name_eqb (dozenten s) (row_key r)) as [did|] eqn:D; [|discriminate].
    rewrite (B _ _ D). exists s. rewrite app_nil_r.
    split; [reflexivity|]. split; [|auto]. repeat split; assumption.
  - cbn [dozenten lf_doz]. rewrite (dict_get_set_same _ name_eqb_spec).
    destruct (existsb (combo_eqb (lf_id, dozent_seq s)) (lf_doz s)) eqn:X.
    { apply combo_mem_In in X. apply C in X. simpl in X. lia. }
    eexists. split; [unfold name_stmts; rewrite <- app_assoc; reflexivity|].
    split; [|auto].
    split; [|split; [|split; [|split]]]; cbn [dozenten lf_doz dozent_seq].
    + intros key. simpl. destruct (name_eqb key (row_key r)) eqn:K.
      * apply name_eqb_spec in K. subst key. unfold dict_mem.
        rewrite (dict_get_set_same _ name_eqb_spec). reflexivity.
      * simpl. rewrite <- A. unfold dict_mem.
        rewrite (dict_get_set_other _ name_eqb_spec); [reflexivity|].
        intros <-. rewrite (proj2 (name_eqb_spec _ _) eq_refl) in K. discriminate.
    + intros key did G. simpl. destruct (name_eqb (row_key r) key) eqn:K.
      * apply name_eqb_spec in K. subst key.
        rewrite (dict_get_set_same _ name_eqb_spec) in G. inversion G; subst.
        rewrite (proj2 (combo_eqb_spec _ _) eq_refl). reflexivity.
      * rewrite (dict_get_set_other _ name_eqb_spec) in G.
        -- rewrite (B _ _ G). apply orb_true_r.
        -- intros <-. rewrite (proj2 (name_eqb_spec _ _) eq_refl) in K. discriminate.
    + intros c [<-|J]; [simpl; lia|]. specialize (C c J). lia.
    + cbn [List.length]. lia.
    + intros i key H. cbn [rev] in H.
      destruct (Nat.lt_ge_cases i (List.length (rev seen))) as [L|L].
      * rewrite nth_error_app1 in H by exact L.
        rewrite (dict_get_set_other _ name_eqb_spec); [exact (I _ _ H)|].
        intros <-. apply nth_error_In, in_rev, name_mem_In in H. congruence.
      * rewrite nth_error_app2 in H by exact L.
        destruct (i - List.length (rev seen))%nat as [|k] eqn:Y;
          [|destruct k; discriminate H].
        cbn [nth_error] in H. inversion H; subst key.
        rewrite (dict_get_set_same _ name_eqb_spec). f_equal.
        rewrite length_rev in *. lia.
Qed.

Lemma print_dozenten_registering (lf_id : string) (rows : list row)
    (seen : list (string * string)) (s : PrintState) (stmts : list string) :
  registering lf_id seen s ->
  exists s',
    fold_left (print_dozent lf_id) rows (s, stmts)
    = (s', stmts ++ flat_map (name_stmts lf_id) (first_names seen (map row_key rows)))
    /\ registering lf_id (rev (first_names seen (map row_key rows)) ++ seen) s'
    /\ lerntage s' = lerntage s /\ lernfelder s' = lernfelder s
    /\ lerntag_seq s' = lerntag_seq s.
Proof.
  revert seen s stmts. induction rows as [|r rows IH]; intros seen s stmts R;
    cbn [fold_left map first_names].
  - exists s. rewrite app_nil_r. auto.
  - destruct (print_dozent_registering lf_id seen s stmts r R)
      as (s1 & -> & R1 & T1 & F1 & Q1).
    destruct (existsb (name_eqb (row_key r)) seen) eqn:E.
    + rewrite app_nil_r. destruct (IH _ _ stmts R1) as (s' & -> & R' & T & F & Q).
      exists s'. split; [reflexivity|]. split; [exact R'|].
      split; [|split]; congruence.
    + destruct (IH _ _ (stmts ++ name_stmts lf_id (row_key r)) R1)
        as (s' & -> & R' & T & F & Q).
      exists s'. split; [cbn [flat_map]; rewrite <- app_assoc; reflexivity|].
      split; [|split; [|split]; congruence].
      cbn [rev]. rewrite <- app_assoc. exact R'.
Qed.

(** X5: on the fresh state, the statements for one document are, in this
    order: the lernfeld; for each dozent name, at its first occurrence among
    the rows, the insert of the dozent and its link to the lernfeld; the
    lerntag with the dozent of the first row; one unterrichtseinheit for each
    row.  Without a row the call raises.  In the state it leaves, whether it
    returned or raised, the names have the ids 1, 2, ... in the order of
    their first occurrence, each linked to the lernfeld, no other name has
    an id, the next dozent id follows the last one given, the lernfeld is
    registered, and the date has the lerntag id 1, the next one being 2. *)
Theorem print_fresh (data : pdf_data) :
  let hdr := pd_header data in
  let names := first_names [] (map row_key (pd_rows data)) in
  let state' := fst (build_print_statements data PrintState_init) in
  snd (build_print_statements data PrintState_init)
  = match pd_rows data with
    | [] => IndexError
    | first :: _ =>
        Stmts ([lernfeld_stmt hdr]
               ++ flat_map (name_stmts (lernfeld_id hdr)) names
               ++ [lerntag_stmt (datum hdr) (lernfeld_id hdr) first]
               ++ map (einheit_stmt (datum hdr)) (pd_rows data))
    end
  /\ (forall i key, nth_error names i = Some key ->
        dict_get name_eqb (dozenten state') key = Some (Z.of_nat i + 1)%Z
        /\ existsb (combo_eqb (lernfeld_id hdr, (Z.of_nat i + 1)%Z)) (lf_doz state')
           = true)
  /\ (forall key, ~ In key names -> dict_get name_eqb (dozenten state') key = None)
  /\ dozent_seq state' = (Z.of_nat (List.length names) + 1)%Z
  /\ dict_mem String.eqb (lernfelder state') (lernfeld_id hdr) = true
  /\ dict_get String.eqb (lerntage state') (datum hdr) = Some 1%Z
  /\ lerntag_seq state' = 2%Z.
Proof.
  intros hdr names state'. subst state'. rewrite build_print_eq. cbn zeta. fold hdr.
  unfold print_blocks. fold hdr. unfold print_lernfeld.
  cbn [PrintState_init lernfelder dict_mem dict_get].
  match goal with |- context [fold_left _ _ (?s1, ?st)] =>
    destruct (print_dozenten_registering (lernfeld_id hdr) (pd_rows data) [] s1 st)
      as (s' & -> & R & T & F & Q) end.
  { split; [|split; [|split; [|split]]]; cbn [dozenten lf_doz dozent_seq rev];
      intros; try reflexivity; try discriminate; try contradiction.
    destruct i; discriminate. }
  fold names in R |- *. rewrite app_nil_r in R.
  destruct R as (A & B & C & N & I). rewrite rev_involutive in I.
  rewrite length_rev in N.
  cbn [fst snd]. rewrite T. cbn [lerntage dict_mem dict_get snd fst].
  unfold register_datum.
  cbn [dozenten lf_doz dozent_seq lernfelder lerntage lerntag_seq dict_set dict_get].
  rewrite T, F, Q.
  change (dict_mem String.eqb (lerntage PrintState_init) (datum hdr)) with false.
  cbn [fst snd PrintState_init lerntage lernfelder lerntag_seq dozenten lf_doz
       dozent_seq dict_set dict_get dict_mem].
  rewrite !String.eqb_refl.
  split; [destruct (pd_rows data); [reflexivity|]; rewrite <- app_assoc; reflexivity|].
  split; [intros i key H; split; [exact (I _ _ H) | exact (B _ _ (I _ _ H))]|].
  split.
  - intros key H. specialize (A key). unfold dict_mem in A.
    destruct (dict_get name_eqb (dozenten s') key); [|reflexivity].
    symmetry in A. apply name_mem_In, in_rev in A. contradiction.
  - split; [exact N|]. split; [|split; reflexivity].
    unfold dict_mem. cbn [dict_get]. rewrite String.eqb_refl. reflexivity.
Qed.

Lemma print_fresh_witness :
  dict_get name_eqb
    (dozenten (fst (build_print_statements data_example PrintState_init)))
    ("Pat", "O'Neil") = Some 1%Z
  /\ dozent_seq (fst (build_print_statements data_example PrintState_init)) = 2%Z.
Proof.
  destruct (print_fresh data_example) as (_ & I & _ & N & _).
  split; [exact (proj1 (I 0%nat ("Pat", "O'Neil") eq_refl)) | exact N].
Defined.

(** ** Dates: what [parse_date] does on every text of the shape dd.dd.dddd *)

Lemma isdecimal_cases (a : ascii) :
  isdecimal a = true ->
  In a ["0"; "1"; "2"; "3"; "4"; "5"; "6"; "7"; "8"; "9"]%char.
Proof.
  destruct a as [[] [] [] [] [] [] [] []]; intros H;
    try discriminate H; simpl; tauto.
Qed.

Ltac digit_cases a H :=
  apply isdecimal_cases in H;
  repeat (destruct H as [<-|H]; [|]); [..|destruct H].

Lemma digit_not_space (a : ascii) : isdecimal a = true -> isspace a = false.
Proof. intros H. digit_cases a H; reflexivity. Qed.

Lemma digit_not_dot (a : ascii) : isdecimal a = true -> Ascii.eqb "." a = false.
Proof. intros H. digit_cases a H; reflexivity. Qed.

Lemma digit_not_blank (a : ascii) : isdecimal a = true -> Ascii.eqb " " a = false.
Proof. intros H. digit_cases a H; reflexivity. Qed.

Lemma digit_val_range (a : ascii) : isdecimal a = true -> (0 <= digit_val a <= 9)%Z.
Proof. intros H. digit_cases a H; vm_compute; split; discriminate. Qed.

Lemma digit_of_val (a : ascii) (n : Z) :
  isdecimal a = true -> (n mod 10 = digit_val a)%Z -> digit n = a.
Proof.
  intros H E. unfold digit. rewrite E. clear E. digit_cases a H; reflexivity.
Qed.

Lemma pad2_num2 (a b : ascii) :
  isdecimal a = true -> isdecimal b = true ->
  pad2 (num2 a b) = String a (String b "").
Proof.
  intros A B. pose proof (digit_val_range _ A). pose proof (digit_val_range _ B).
  unfold pad2, num2. f_equal; [|f_equal]; apply digit_of_val; auto;
    Z.div_mod_to_equations; lia.
Qed.

Lemma pad4_num4 (a b c d : ascii) :
  isdecimal a = true -> isdecimal b = true ->
  isdecimal c = true -> isdecimal d = true ->
  pad4 (num4 a b c d) = String a (String b (String c (String d ""))).
Proof.
  intros A B C D.
  pose proof (digit_val_range _ A). pose proof (digit_val_range _ B).
  pose proof (digit_val_range _ C). pose proof (digit_val_range _ D).
  unfold pad4, pad2, num4. repeat f_equal; apply digit_of_val; auto;
    Z.div_mod_to_equations; lia.
Qed.

Lemma day2_range (a b : ascii) :
  isdecimal a = true -> isdecimal b = true ->
  day2 a b = ((1 <=? num2 a b) && (num2 a b <=? 31))%Z.
Proof.
  intros A B. digit_cases a A; digit_cases b B; reflexivity.
Qed.

Lemma month2_range (a b : ascii) :
  isdecimal a = true -> isdecimal b = true ->
  month2 a b = ((1 <=? num2 a b) && (num2 a b <=? 12))%Z.
Proof.
  intros A B. digit_cases a A; digit_cases b B; reflexivity.
Qed.

Section StrptimeFields.
Context {R : Type} (K : option ascii -> string -> caps -> option R).
Hypothesis K_digit : forall p x s c, isdecimal x = true -> K p (String x s) c = None.

(** The day: of the alternatives of the pattern only those of two digits
    can be followed by what comes next. *)
Lemma exec_day (prev : option ascii) (a b : ascii) (t : string) (c : caps) :
  isdecimal a = true -> isdecimal b = true ->
  exec strptime_d prev (String a (String b t)) c K
  = if day2 a b then K (Some b) t c else None.
Proof.
  intros A B. unfold strptime_d, day2. cbn [exec lit].
  rewrite (K_digit _ _ _ _ B), (digit_not_blank _ A), B.
  destruct (Ascii.eqb "3" a), (in_range 48 49 b), (in_range 49 50 a),
    (Ascii.eqb "0" a), (in_range 49 57 b), (in_range 49 57 a);
    cbn [andb orb]; destruct (K (Some b) t c); reflexivity.
Qed.

Lemma exec_month (prev : option ascii) (a b : ascii) (t : string) (c : caps) :
  isdecimal a = true -> isdecimal b = true ->
  exec strptime_m prev (String a (String b t)) c K
  = if month2 a b then K (Some b) t c else None.
Proof.
  intros A B. unfold strptime_m, month2. cbn [exec lit].
  rewrite (K_digit _ _ _ _ B).
  destruct (Ascii.eqb "1" a), (in_range 48 50 b),
    (Ascii.eqb "0" a), (in_range 49 57 b), (in_range 49 57 a);
    cbn [andb orb]; destruct (K (Some b) t c); reflexivity.
Qed.
End StrptimeFields.

(** The match of the pattern of [strptime] on a text of the date shape. *)
Lemma strptime_match (a b c e f g h i : ascii) :
  forallb isdecimal [a; b; c; e; f; g; h; i] = true ->
  re_match strptime_re (dmy_text a b c e f g h i)
  = if day2 a b && month2 c e
    then Some {| groups := [(3, String f (String g (String h (String i ""))));
                            (2, String c (String e ""));
                            (1, String a (String b ""))]%nat;
                 rest := "" |}
    else None.
Proof.
  cbn [forallb]. intros H.
  repeat match type of H with
         | (_ && _) = true => apply andb_true_iff in H; destruct H as [? H]
         end.
  unfold re_match, match_at, strptime_re, dmy_text. cbn [seqs exec].
  rewrite exec_day; auto.
  2:{ intros p x s c0 X. cbn [exec lit]. rewrite (digit_not_dot _ X). reflexivity. }
  destruct (day2 a b); [|reflexivity]. cbn [andb exec lit].
  rewrite Ascii.eqb_refl. rewrite exec_month; auto.
  2:{ intros p x s c0 X. cbn [exec lit]. rewrite (digit_not_dot _ X). reflexivity. }
  destruct (month2 c e); [|reflexivity]. cbn [exec lit d4 d2].
  rewrite Ascii.eqb_refl.
  repeat match goal with X : isdecimal _ = true |- _ => rewrite X; clear X end.
  reflexivity.
Qed.

Lemma strip_nonspace (s : string) : all_chars not_space s = true -> strip s = s.
Proof.
  intros A. unfold strip.
  assert (L : lstrip s = s).
  { destruct s as [|c t]; [reflexivity|]. simpl in *.
    apply andb_true_iff in A. destruct A as [C _].
    apply negb_true_iff in C. rewrite C. reflexivity. }
  rewrite L. apply rstrip_nonspace, A.
Qed.

Lemma int_digits2 (a b : ascii) :
  isdecimal a = true -> isdecimal b = true ->
  int (String a (String b "")) = Ok (num2 a b).
Proof.
  intros A B. unfold int. rewrite strip_nonspace.
  - cbn [int_digits]. rewrite A, B. unfold num2, digit_val. f_equal; lia.
  - cbn [all_chars]. unfold not_space.
    rewrite (digit_not_space _ A), (digit_not_space _ B). reflexivity.
Qed.

Lemma int_digits4 (a b c d : ascii) :
  isdecimal a = true -> isdecimal b = true ->
  isdecimal c = true -> isdecimal d = true ->
  int (String a (String b (String c (String d "")))) = Ok (num4 a b c d).
Proof.
  intros A B C D. unfold int. rewrite strip_nonspace.
  - cbn [int_digits]. rewrite A, B, C, D. unfold num4, digit_val. f_equal; lia.
  - cbn [all_chars]. unfold not_space.
    rewrite (digit_not_space _ A), (digit_not_space _ B),
      (digit_not_space _ C), (digit_not_space _ D). reflexivity.
Qed.

Lemma strip_dmy (a b c e f g h i : ascii) :
  forallb isdecimal [a; b; c; e; f; g; h; i] = true ->
  strip (dmy_text a b c e f g h i) = dmy_text a b c e f g h i.
Proof.
  intros H. cbn [forallb] in H.
  repeat match type of H with
         | (_ && _) = true => apply andb_true_iff in H; destruct H as [? H]
         end.
  apply strip_nonspace.
  unfold dmy_text. cbn [all_chars]. unfold not_space.
  repeat match goal with X : isdecimal _ = true |- _ =>
           rewrite (digit_not_space _ X); clear X end.
  reflexivity.
Qed.

(** [strptime] on a text of the shape dd.mm.yyyy: the date of these
    numbers when they form one, the exception otherwise. *)
Lemma strptime_dmy (a b c e f g h i : ascii) :
  forallb isdecimal [a; b; c; e; f; g; h; i] = true ->
  strptime (dmy_text a b c e f g h i)
  = if valid_date (num4 f g h i) (num2 c e) (num2 a b)
    then Ok {| year := num4 f g h i; month := num2 c e; day := num2 a b |}
    else Err (StrptimeError (dmy_text a b c e f g h i)).
Proof.
  intros H. pose proof (strptime_match _ _ _ _ _ _ _ _ H) as M.
  cbn [forallb] in H.
  repeat match type of H with
         | (_ && _) = true => apply andb_true_iff in H; destruct H as [? H]
         end.
  unfold strptime. rewrite M.
  rewrite (day2_range a b), (month2_range c e) by assumption.
  unfold valid_date.
  destruct ((1 <=? num2 a b) && (num2 a b <=? 31))%Z eqn:D.
  2:{ cbn [andb bind].
      replace ((1 <=? num4 f g h i) && (num4 f g h i <=? 9999) && (1 <=? num2 c e)
               && (num2 c e <=? 12) && (1 <=? num2 a b)
               && (num2 a b <=? days_in_month (num4 f g h i) (num2 c e)))%Z with false;
        [reflexivity|].
      symmetry. apply andb_false_iff in D.
      assert (X : (days_in_month (num4 f g h i) (num2 c e) <= 31)%Z).
      { unfold days_in_month. repeat match goal with |- context [if ?x then _ else _] =>
          destruct x end; lia. }
      destruct D as [D|D].
      - rewrite D, andb_false_r. reflexivity.
      - apply Z.leb_gt in D.
        assert (Y : (num2 a b <=? days_in_month (num4 f g h i) (num2 c e))%Z = false)
          by (apply Z.leb_gt; lia).
        rewrite Y. apply andb_false_r. }
  destruct ((1 <=? num2 c e) && (num2 c e <=? 12))%Z eqn:Mo.
  2:{ cbn [andb bind].
      replace ((1 <=? num4 f g h i) && (num4 f g h i <=? 9999) && (1 <=? num2 c e)
               && (num2 c e <=? 12) && (1 <=? num2 a b)
               && (num2 a b <=? days_in_month (num4 f g h i) (num2 c e)))%Z with false;
        [reflexivity|].
      symmetry. apply andb_false_iff in Mo.
      destruct Mo as [X|X]; rewrite X, ?andb_false_r; reflexivity. }
  cbn [andb groups rest group Nat.eqb].
  rewrite int_digits4, int_digits2, int_digits2 by assumption. cbn [bind].
  reflexivity.
Qed.

(** [str] of a number from 1 to 9999: its four digits without the zeros
    in front. *)
Lemma str_int_pad4_table :
  forallb (fun k => let y := Z.of_nat k in
                    (y =? 0)%Z || String.eqb (str_int y) (drop_zeros (pad4 y)))
          (seq 0 (Z.to_nat 10000)) = true.
Proof. vm_compute. reflexivity. Qed.

Lemma str_int_num4 (f g h i : ascii) :
  isdecimal f = true -> isdecimal g = true ->
  isdecimal h = true -> isdecimal i = true ->
  (1 <= num4 f g h i)%Z ->
  str_int (num4 f g h i) = drop_zeros (String f (String g (String h (String i "")))).
Proof.
  intros F G H I P. rewrite <- (pad4_num4 f g h i F G H I).
  pose proof (digit_val_range _ F). pose proof (digit_val_range _ G).
  pose proof (digit_val_range _ H). pose proof (digit_val_range _ I).
  assert (R : (num4 f g h i <= 9999)%Z) by (unfold num4; lia).
  pose proof str_int_pad4_table as T. rewrite forallb_forall in T.
  specialize (T (Z.to_nat (num4 f g h i))). rewrite Z2Nat.id in T by lia.
  cbn zeta in T.
  assert (X : In (Z.to_nat (num4 f g h i)) (seq 0 (Z.to_nat 10000)))
    by (apply in_seq; lia).
  specialize (T X). apply orb_true_iff in T. destruct T as [T|T].
  - apply Z.eqb_eq in T. lia.
  - apply String.eqb_eq, T.
Qed.

Lemma strftime_dmy (a b c e f g h i : ascii) :
  forallb isdecimal [a; b; c; e; f; g; h; i] = true ->
  valid_date (num4 f g h i) (num2 c e) (num2 a b) = true ->
  strftime {| year := num4 f g h i; month := num2 c e; day := num2 a b |}
  = ymd_text a b c e f g h i.
Proof.
  intros H V. cbn [forallb] in H.
  repeat match type of H with
         | (_ && _) = true => apply andb_true_iff in H; destruct H as [? H]
         end.
  assert (Y : (1 <= num4 f g h i)%Z).
  { unfold valid_date in V. rewrite !andb_true_iff in V.
    destruct V as [[[[[V _] _] _] _] _]. apply Z.leb_le, V. }
  unfold strftime, ymd_text. cbn [year month day].
  rewrite str_int_num4, !pad2_num2 by assumption. reflexivity.
Qed.

(** From the year 1000 on, the text [strftime] writes is the ISO form. *)
Lemma ymd_text_iso (a b c e f g h i : ascii) :
  forallb isdecimal [a; b; c; e; f; g; h; i] = true ->
  (1000 <= num4 f g h i)%Z ->
  ymd_text a b c e f g h i = iso_text a b c e f g h i.
Proof.
  intros H Y. cbn [forallb] in H.
  repeat match type of H with
         | (_ && _) = true => apply andb_true_iff in H; destruct H as [? H]
         end.
  pose proof (digit_val_range g ltac:(assumption)).
  pose proof (digit_val_range h ltac:(assumption)).
  pose proof (digit_val_range i ltac:(assumption)).
  assert (F : isdecimal f = true) by assumption.
  digit_cases f F; try reflexivity.
  unfold num4 in Y. change (digit_val "0") with 0%Z in Y. lia.
Qed.

(** X6: on every text of the shape dd.mm.yyyy (digits and dots),
    [parse_date] raises when day, month and year form no calendar date (with
    its leap years), and otherwise returns the year, the month and the day
    between hyphens, month and day with their two digits and the year
    without the zeros it starts with; from the year 1000 on this is
    yyyy-mm-dd with the same digits. *)
Theorem parse_date_dmy (a b c e f g h i : ascii) :
  forallb isdecimal [a; b; c; e; f; g; h; i] = true ->
  parse_date (dmy_text a b c e f g h i)
  = (if valid_date (num4 f g h i) (num2 c e) (num2 a b)
     then Ok (ymd_text a b c e f g h i)
     else Err (StrptimeError (dmy_text a b c e f g h i)))
  /\ ((1000 <= num4 f g h i)%Z ->
      ymd_text a b c e f g h i = iso_text a b c e f g h i).
Proof.
  intros H. split; [|apply ymd_text_iso, H].
  unfold parse_date. rewrite (strip_dmy _ _ _ _ _ _ _ _ H).
  rewrite (strptime_dmy _ _ _ _ _ _ _ _ H).
  destruct (valid_date (num4 f g h i) (num2 c e) (num2 a b)) eqn:V; [|reflexivity].
  cbn [bind]. rewrite (strftime_dmy _ _ _ _ _ _ _ _ H V). reflexivity.
Qed.

Lemma parse_date_dmy_witness :
  parse_date "29.02.2024" = Ok "2024-02-29"
  /\ parse_date "29.02.1900" = Err (StrptimeError "29.02.1900")
  /\ parse_date "01.01.0999" = Ok "999-01-01".
Proof.
  split; [|split].
  - exact (proj1 (parse_date_dmy "2" "9" "0" "2" "2" "0" "2" "4" eq_refl)).
  - exact (proj1 (parse_date_dmy "2" "9" "0" "2" "1" "9" "0" "0" eq_refl)).
  - exact (proj1 (parse_date_dmy "0" "1" "0" "1" "0" "9" "9" "9" eq_refl)).
Defined.

(** ** Header: the shape of what [parse_header] returns *)

Lemma substring_prefix (a s : string) : substring 0 (String.length a) (a ++ s) = a.
Proof.
  induction a as [|c a IH]; simpl; [destruct s; reflexivity|].
  rewrite IH. reflexivity.
Qed.

Lemma consumed_app (a s : string) : consumed (a ++ s) s = a.
Proof.
  unfold consumed. rewrite length_append, Nat.add_sub. apply substring_prefix.
Qed.

Lemma string_app_assoc (a b c : string) : ((a ++ b) ++ c = a ++ b ++ c)%string.
Proof. induction a as [|x a IH]; simpl; [|rewrite IH]; reflexivity. Qed.

(** A repetition, greedy or lazy, takes characters of its class. *)
Lemma rep_sound {R : Type} (g : bool) (p : ascii -> bool) (s : string) (n : nat)
    (prev : option ascii) (k : option ascii -> string -> option R) (x : R) :
  rep g n p prev s k = Some x ->
  exists ws s', s = (ws ++ s')%string /\ all_chars p ws = true
                /\ k (last_char ws prev) s' = Some x.
Proof.
  revert n prev. induction s as [|a t IH]; intros n prev.
  - destruct n, g; simpl; try discriminate.
    + intros H. exists "", "". auto.
    + destruct (k prev "") eqn:E; [|discriminate].
      intros H. inversion H; subst. exists "", "". auto.
  - assert (Step : forall n', rep g n' p (Some a) t k = Some x -> p a = true ->
              exists ws s', String a t = (ws ++ s')%string /\ all_chars p ws = true
                            /\ k (last_char ws prev) s' = Some x).
    { intros n' H P. destruct (IH _ _ H) as (ws & s' & -> & A & K).
      exists (String a ws), s'. simpl. rewrite P, A. auto. }
    destruct n as [|n]; simpl.
    + destruct g.
      * destruct (p a) eqn:P.
        -- destruct (rep true 0 p (Some a) t k) as [y|] eqn:E.
           ++ intros H. inversion H; subst y. eapply Step; [eassumption | first [assumption | reflexivity]].
           ++ intros H. exists "", (String a t). auto.
        -- intros H. exists "", (String a t). auto.
      * destruct (k prev (String a t)) as [y|] eqn:E.
        -- intros H. inversion H; subst y. exists "", (String a t). auto.
        -- destruct (p a) eqn:P; [|discriminate]. intros H. eapply Step; [eassumption | first [assumption | reflexivity]].
    + destruct (p a) eqn:P; [|discriminate]. intros H. eapply Step; [eassumption | first [assumption | reflexivity]].
Qed.

Lemma exec_seq {R : Type} (r1 r2 : regex) (prev : option ascii) (s : string)
    (c : caps) (k : option ascii -> string -> caps -> option R) :
  exec (Seq r1 r2) prev s c k
  = exec r1 prev s c (fun prev' s' c' => exec r2 prev' s' c' k).
Proof. reflexivity. Qed.

Lemma exec_rep {R : Type} (g : bool) (n : nat) (p : ascii -> bool)
    (prev : option ascii) (s : string) (c : caps)
    (k : option ascii -> string -> caps -> option R) (x : R) :
  exec (Rep g n p) prev s c k = Some x ->
  exists ws s', s = (ws ++ s')%string /\ all_chars p ws = true
                /\ k (last_char ws prev) s' c = Some x.
Proof. cbn [exec]. apply rep_sound. Qed.

Lemma exec_group_dmy {R : Type} (n : nat) (prev : option ascii) (s : string)
    (c : caps) (k : option ascii -> string -> caps -> option R) (x : R) :
  exec (Group n dmy) prev s c k = Some x ->
  exists d tail, s = (d ++ tail)%string /\ is_dmy d = true
                 /\ k (last_char d prev) tail ((n, d) :: c) = Some x.
Proof.
  cbn [exec]. intros H. apply exec_dmy in H.
  destruct H as (d & tail & -> & D & H). rewrite consumed_app in H. eauto.
Qed.

Lemma exec_opt {R : Type} (r : regex) (prev : option ascii) (s : string)
    (c : caps) (k : option ascii -> string -> caps -> option R) (x : R) :
  exec (opt r) prev s c k = Some x ->
  exec r prev s c k = Some x \/ k prev s c = Some x.
Proof.
  unfold opt. cbn [exec]. destruct (exec r prev s c k); auto.
Qed.

(** The end of the title pattern adds no capture. *)
Lemma titel_tail (prev : option ascii) (s : string) (c : caps) (m : match_obj) :
  exec (Seq (Rep true 0 isspace) Eol) prev s c
       (fun _ s' c' => Some {| groups := c'; rest := s' |}) = Some m ->
  groups m = c.
Proof.
  rewrite exec_seq. intros H. apply exec_rep in H.
  destruct H as (ws & s' & _ & _ & H). cbn [exec] in H.
  destruct s' as [|a t]; [|destruct (Ascii.eqb a newline); [|discriminate]];
    inversion H; reflexivity.
Qed.

Lemma exec_group {R : Type} (n : nat) (r : regex) (prev : option ascii)
    (s : string) (c : caps) (k : option ascii -> string -> caps -> option R) :
  exec (Group n r) prev s c k
  = exec r prev s c (fun prev' s' c' => k prev' s' ((n, consumed s s') :: c')).
Proof. reflexivity. Qed.

Lemma match_titel (prev : option ascii) (s : string) (m : match_obj) :
  match_at TITEL_RE prev s = Some m -> titel_groups m.
Proof.
  unfold match_at, TITEL_RE. cbn [seqs]. intros H.
  rewrite exec_seq in H. apply exec_lit in H. destruct H as (s1 & _ & H).
  rewrite exec_seq in H. apply exec_rep in H. destruct H as (ws1 & s2 & _ & _ & H).
  rewrite exec_seq, exec_group, exec_seq in H.
  apply exec_lit in H. destruct H as (s3 & -> & H).
  apply exec_rep in H. destruct H as (w & s4 & -> & W & H).
  rewrite <- string_app_assoc, consumed_app in H.
  rewrite exec_seq in H. apply exec_rep in H. destruct H as (ws2 & s5 & _ & _ & H).
  rewrite exec_seq, exec_group in H.
  apply exec_rep in H. destruct H as (t & s6 & -> & T & H).
  rewrite consumed_app in H.
  exists w, t. split; [exact W|]. split; [exact T|]. cbn zeta.
  rewrite exec_seq in H. apply exec_opt in H. destruct H as [H|H].
  - right. rewrite exec_seq in H.
    apply exec_rep in H. destruct H as (ws3 & s7 & _ & _ & H).
    rewrite exec_seq in H.
    apply exec_group_dmy in H. destruct H as (d3 & s8 & _ & D3 & H).
    rewrite exec_seq in H.
    apply exec_lit in H. destruct H as (s9 & _ & H).
    exists d3. split; [exact D3|].
    apply exec_opt in H. destruct H as [H|H].
    + right. apply exec_group_dmy in H. destruct H as (d4 & s10 & _ & D4 & H).
      exists d4. split; [exact D4|]. apply titel_tail in H. exact H.
    + left. apply titel_tail in H. exact H.
  - left. apply titel_tail in H. exact H.
Qed.

Lemma match_datum (prev : option ascii) (s : string) (m : match_obj) :
  match_at DATUM_RE prev s = Some m ->
  exists d, is_dmy d = true /\ groups m = [(1%nat, d)].
Proof.
  unfold match_at, DATUM_RE. cbn [seqs]. intros H.
  rewrite exec_seq in H. apply exec_lit in H. destruct H as (s1 & _ & H).
  rewrite exec_seq in H. apply exec_rep in H. destruct H as (ws & s2 & _ & _ & H).
  apply exec_group_dmy in H. destruct H as (d & tail & _ & D & H).
  exists d. split; [exact D|]. inversion H. reflexivity.
Qed.

Lemma search_some (r : regex) (s : string) (prev : option ascii) (m : match_obj) :
  search_from r prev s = Some m ->
  exists pre suf, s = (pre ++ suf)%string
                  /\ match_at r (last_char pre prev) suf = Some m.
Proof.
  revert prev. induction s as [|a t IH]; intros prev; simpl.
  - destruct (match_at r prev "") eqn:M; [|discriminate].
    intros H. inversion H; subst. exists "", "". auto.
  - destruct (match_at r prev (String a t)) eqn:M.
    + intros H. inversion H; subst. exists "", (String a t). auto.
    + intros H. destruct (IH _ H) as (pre & suf & -> & X).
      exists (String a pre), suf. auto.
Qed.

Lemma is_dmy_text (d : string) :
  is_dmy d = true ->
  exists a b c e f g h i,
    forallb isdecimal [a; b; c; e; f; g; h; i] = true
    /\ d = dmy_text a b c e f g h i.
Proof.
  destruct d as [|c0 [|c1 [|c2 [|c3 [|c4 [|c5 [|c6 [|c7 [|c8 [|c9 [|]]]]]]]]]]];
    try discriminate.
  unfold is_dmy. intros H.
  repeat match type of H with
         | (_ && _) = true => apply andb_true_iff in H; destruct H as [H ?]
         end.
  repeat match goal with
         | E : Ascii.eqb _ _ = true |- _ => apply Ascii.eqb_eq in E; subst
         end.
  exists c0, c1, c3, c4, c6, c7, c8, c9. split; [|reflexivity].
  cbn [forallb].
  repeat match goal with E : isdecimal _ = true |- _ => rewrite E; clear E end.
  reflexivity.
Qed.

(** [parse_date] on a captured date: a calendar date as [strftime] writes
    it, or an exception. *)
Lemma parse_date_captured (d iso : string) :
  is_dmy d = true -> parse_date d = Ok iso -> ymd_date iso.
Proof.
  intros D P. destruct (is_dmy_text _ D) as (a & b & c & e & f & g & h & i & F & ->).
  unfold parse_date in P.
  rewrite (strip_dmy _ _ _ _ _ _ _ _ F), (strptime_dmy _ _ _ _ _ _ _ _ F) in P.
  destruct (valid_date _ _ _) eqn:V; [|discriminate]. cbn [bind] in P.
  rewrite (strftime_dmy _ _ _ _ _ _ _ _ F V) in P. inversion P; subst.
  exists a, b, c, e, f, g, h, i. auto.
Qed.

Lemma all_chars_lstrip (p : ascii -> bool) (s : string) :
  all_chars p s = true -> all_chars p (lstrip s) = true.
Proof.
  induction s as [|c t IH]; simpl; [reflexivity|].
  intros H. apply andb_true_iff in H. destruct H as [C T].
  destruct (isspace c); [auto | simpl; rewrite C, T; reflexivity].
Qed.

Lemma all_chars_rstrip (p : ascii -> bool) (s : string) :
  all_chars p s = true -> all_chars p (rstrip s) = true.
Proof.
  induction s as [|c t IH]; simpl; [reflexivity|].
  intros H. apply andb_true_iff in H. destruct H as [C T]. specialize (IH T).
  destruct (rstrip t); [destruct (isspace c)|]; simpl in *; rewrite ?C, ?IH; reflexivity.
Qed.

(** What [parse_header] returns, read off the captures of the two
    patterns. *)
Lemma parse_header_shape (text : string) (h : header) :
  parse_header text = Ok h ->
  exists w t,
    all_chars code_char w = true /\ all_chars dot t = true
    /\ lernfeld_id h = ("LF" ++ w)%string
    /\ titel h = strip t
    /\ ymd_date (datum h)
    /\ match start_datum h, end_datum h with
       | None, None => True
       | Some d3, None => ymd_date d3
       | Some d3, Some d4 => ymd_date d3 /\ ymd_date d4
       | None, Some _ => False
       end.
Proof.
  unfold parse_header, re_search.
  destruct (search_from DATUM_RE None text) as [dm|] eqn:SD; [|discriminate].
  destruct (search_from TITEL_RE None text) as [tm|] eqn:ST; [|discriminate].
  destruct (search_some _ _ _ _ SD) as (pre & suf & _ & MD).
  destruct (match_datum _ _ _ MD) as (d1 & D1 & G1).
  destruct (search_some _ _ _ _ ST) as (pre' & suf' & _ & MT).
  destruct (match_titel _ _ _ MT) as (w & t & W & T & G).
  unfold group_str. rewrite G1. cbn [group Nat.eqb].
  destruct (parse_date d1) as [iso1|] eqn:P1; [|discriminate]. cbn [bind].
  pose proof (parse_date_captured _ _ D1 P1) as I1.
  assert (OPT : forall d r, is_dmy d = true -> parse_date_opt (Some d) = Ok r ->
                exists iso, r = Some iso /\ ymd_date iso).
  { intros d r D. destruct d as [|c0 d']; [discriminate D|]. cbn [parse_date_opt].
    destruct (parse_date (String c0 d')) as [iso|] eqn:P; [|discriminate].
    cbn [bind]. intros X. inversion X. exists iso. split; [reflexivity|].
    exact (parse_date_captured _ _ D P). }
  cbn zeta in G.
  destruct G as [G|(d3 & D3 & [G|(d4 & D4 & G)])]; rewrite G; cbn [group Nat.eqb].
  - cbn [parse_date_opt bind]. intros H. inversion H; subst h. exists w, t. cbn. auto 10.
  - destruct (parse_date_opt (Some d3)) as [r3|] eqn:P3; [|discriminate].
    destruct (OPT _ _ D3 P3) as (iso3 & -> & I3).
    cbn [parse_date_opt bind]. intros H. inversion H; subst h. exists w, t. cbn. auto 10.
  - destruct (parse_date_opt (Some d3)) as [r3|] eqn:P3; [|discriminate].
    destruct (OPT _ _ D3 P3) as (iso3 & -> & I3). cbn [bind].
    destruct (parse_date_opt (Some d4)) as [r4|] eqn:P4; [|discriminate].
    destruct (OPT _ _ D4 P4) as (iso4 & -> & I4).
    cbn [bind]. intros H. inversion H; subst h. exists w, t. cbn. auto 10.
Qed.

(** X7: a header that [parse_header] returns is well formed: the unit code
    is "LF" followed by word characters and hyphens; the date, and the start
    and the end of the range when present, are calendar dates written as
    year-mm-dd, the year without zeros before it (so in ISO form from the
    year 1000 on); an end is never there without a start; the title neither
    starts nor ends with white space and holds no line break. *)
Theorem parse_header_well_formed (text : string) (h : header) :
  parse_header text = Ok h ->
  (exists w, lernfeld_id h = ("LF" ++ w)%string /\ all_chars code_char w = true)
  /\ ymd_date (datum h)
  /\ (forall d, start_datum h = Some d -> ymd_date d)
  /\ (forall d, end_datum h = Some d -> ymd_date d)
  /\ (end_datum h <> None -> start_datum h <> None)
  /\ trimmed (titel h)
  /\ all_chars dot (titel h) = true.
Proof.
  intros H. destruct (parse_header_shape _ _ H) as (w & t & W & T & L & Ti & D & R).
  split; [eauto|]. split; [exact D|].
  rewrite Ti.
  assert (Tr : trimmed (strip t)) by apply strip_trimmed.
  assert (Do : all_chars dot (strip t) = true)
    by apply all_chars_rstrip, all_chars_lstrip, T.
  destruct (start_datum h) as [d3|], (end_datum h) as [d4|];
    (split; [intros d X; inversion X; subst d; tauto|]);
    (split; [intros d X; inversion X; subst d; tauto|]);
    (split; [try discriminate; try tauto | split; assumption]).
Qed.

Lemma parse_header_well_formed_witness :
  (exists w, "LF12" = ("LF" ++ w)%string /\ all_chars code_char w = true)
  /\ ymd_date "2024-03-05".
Proof.
  destruct (parse_header_well_formed spec_header_text
              {| datum := "2024-03-05"; lernfeld_id := "LF12"; titel := "Grundlagen";
                 start_datum := Some "2024-03-01"; end_datum := Some "2024-04-05" |}
              eq_refl) as (L & D & _).
  split; assumption.
Defined.

(** ** Header values in the statements *)

Lemma code_char_not_quote (c : ascii) : code_char c = true -> Ascii.eqb c "'" = false.
Proof. destruct c as [[] [] [] [] [] [] [] []]; intros H; try discriminate H; reflexivity. Qed.

Lemma all_chars_no_quote (p : ascii -> bool) (s : string) :
  (forall c, p c = true -> Ascii.eqb c "'" = false) ->
  all_chars p s = true -> contains_char "'" s = false.
Proof.
  intros P. induction s as [|c t IH]; simpl; [reflexivity|].
  intros H. apply andb_true_iff in H. destruct H as [C T].
  rewrite (P _ C), (IH T). reflexivity.
Qed.

Lemma contains_char_app (c : ascii) (a b : string) :
  contains_char c (a ++ b) = contains_char c a || contains_char c b.
Proof.
  induction a as [|x a IH]; cbn [append contains_char]; [reflexivity|].
  rewrite IH. destruct (Ascii.eqb x c); reflexivity.
Qed.

Lemma drop_zeros_no_quote (s : string) :
  contains_char "'" s = false -> contains_char "'" (drop_zeros s) = false.
Proof.
  induction s as [|x s IH]; cbn [drop_zeros]; [auto|].
  destruct (Ascii.eqb x "0"); [|auto].
  cbn [contains_char]. destruct (Ascii.eqb x "'"); [discriminate | exact IH].
Qed.

Lemma ymd_date_no_quote (s : string) : ymd_date s -> contains_char "'" s = false.
Proof.
  intros (a & b & c & e & f & g & h & i & F & -> & _). cbn [forallb] in F.
  repeat match type of F with
         | (_ && _) = true => apply andb_true_iff in F; destruct F as [? F]
         end.
  assert (Q : forall x, isdecimal x = true -> Ascii.eqb x "'" = false).
  { intros x X. digit_cases x X; reflexivity. }
  unfold ymd_text. rewrite contains_char_app, drop_zeros_no_quote.
  - cbn [contains_char orb].
    repeat match goal with X : isdecimal _ = true |- _ => rewrite (Q _ X); clear X end.
    reflexivity.
  - cbn [contains_char].
    repeat match goal with X : isdecimal _ = true |- _ => rewrite (Q _ X); clear X end.
    reflexivity.
Qed.

(** X8: the values that [build_print_statements] puts between quotes
    without escaping them (the unit code, the date, the start and the end of
    the range) hold no quote in a header that [parse_header] returned. *)
Theorem header_values_quote_free (text : string) (h : header) :
  parse_header text = Ok h ->
  contains_char "'" (lernfeld_id h) = false
  /\ contains_char "'" (datum h) = false
  /\ (forall d, start_datum h = Some d -> contains_char "'" d = false)
  /\ (forall d, end_datum h = Some d -> contains_char "'" d = false).
Proof.
  intros H. destruct (parse_header_shape _ _ H) as (w & t & W & _ & -> & _ & D & R).
  split; [|split; [apply ymd_date_no_quote, D|]].
  - cbn [append contains_char]. cbn.
    apply (all_chars_no_quote _ _ code_char_not_quote W).
  - destruct (start_datum h) as [d3|], (end_datum h) as [d4|];
      split; intros d X; inversion X; subst d; apply ymd_date_no_quote; tauto.
Qed.

Lemma header_values_quote_free_witness :
  contains_char "'" "LF12" = false /\ contains_char "'" "2024-03-05" = false.
Proof.
  destruct (header_values_quote_free spec_header_text
              {| datum := "2024-03-05"; lernfeld_id := "LF12"; titel := "Grundlagen";
                 start_datum := Some "2024-03-01"; end_datum := Some "2024-04-05" |}
              eq_refl) as (L & D & _).
  split; assumption.
Defined.

(** ** PDF entry point *)

(** X9: [extract_pdf] on a page without text (no text layer, or an empty
    one) fails with the date failure whatever the words are; a failure of
    the header is raised before the rows are looked at; and what it returns
    has a header with a calendar date as [strftime] writes it (in ISO form
    from the year 1000 on) and a unit code that starts with "LF", and
    between one and nine rows of strictly ascending slot numbers. *)
Theorem extract_pdf_outcome (p : page) :
  (extract_text p = None \/ extract_text p = Some "" ->
   extract_pdf p = Err HeaderParseError_date_missing)
  /\ (forall text e, extract_text p = Some text -> parse_header text = Err e ->
        extract_pdf p = Err e)
  /\ (forall data, extract_pdf p = Ok data ->
        ymd_date (datum (pd_header data))
        /\ (exists w, lernfeld_id (pd_header data) = ("LF" ++ w)%string)
        /\ pd_rows data <> []
        /\ (List.length (pd_rows data) <= 9)%nat
        /\ StronglySorted Z.lt (map stunde (pd_rows data))).
Proof.
  unfold extract_pdf. split; [|split].
  - intros [-> | ->]; reflexivity.
  - intros text e -> H. destruct text as [|c t]; rewrite H; reflexivity.
  - intros data. destruct (parse_header _) as [h|] eqn:H; [|discriminate].
    cbn [bind].
    destruct (parse_rows_from_page (extract_words p)) as [r|] eqn:R; [|discriminate].
    cbn [bind]. intros E. inversion E; subst data. cbn [pd_header pd_rows].
    destruct (parse_header_shape _ _ H) as (w & _ & _ & _ & L & _ & D & _).
    pose proof (rows_strictly_sorted _ _ R) as S.
    pose proof (strictly_sorted_length _ 1 9 S ltac:(lia) (rows_nrs_range _ _ R)) as Len.
    rewrite length_map in Len.
    split; [exact D|]. split; [eauto|]. split; [exact (rows_not_nil _ _ R)|].
    split; [lia | exact S].
Qed.

Lemma extract_pdf_outcome_witness :
  extract_pdf {| extract_text := None; extract_words := extract_words page_example |}
  = Err HeaderParseError_date_missing
  /\ exists data, extract_pdf page_example = Ok data /\ pd_rows data <> [].
Proof.
  split.
  - apply (proj1 (extract_pdf_outcome _)). left. reflexivity.
  - eexists. split; [vm_compute; reflexivity|].
    match goal with |- pd_rows ?d <> [] =>
      destruct (proj2 (proj2 (extract_pdf_outcome page_example)) d eq_refl)
        as (_ & _ & N & _) end.
    exact N.
Defined.

(** ** DB-execute path: the cache of dozenten *)

Section CursorFacts.
Context {DB : Type}.
Variable select_dozent : DB -> string * string -> DB * answer (option Z).
Variable insert_dozent : DB -> string * string -> DB * answer (option Z).

(** X10: [_get_or_create_dozent] asks the database at most once for a
    name: with the name in the cache it returns the cached id and leaves the
    database and the cache as they are; after any call that returned, the
    name is in the cache with the id returned, so that a second call with
    the same name returns the same id without touching the database; a call
    that raised has left the cache as it was. *)
Theorem get_or_create_cached (db : DB) (cache : db_cache) (vorname nachname : string) :
  (forall did,
     dict_get name_eqb (cache_dozenten cache) (vorname, nachname) = Some did ->
     _get_or_create_dozent select_dozent insert_dozent db cache vorname nachname
     = (db, cache, Done did))
  /\ (forall db' cache' did,
        _get_or_create_dozent select_dozent insert_dozent db cache vorname nachname
        = (db', cache', Done did) ->
        dict_get name_eqb (cache_dozenten cache') (vorname, nachname) = Some did
        /\ (forall key, key <> (vorname, nachname) ->
              dict_get name_eqb (cache_dozenten cache') key
              = dict_get name_eqb (cache_dozenten cache) key)
        /\ _get_or_create_dozent select_dozent insert_dozent db' cache' vorname nachname
           = (db', cache', Done did))
  /\ (forall db' cache' e,
        _get_or_create_dozent select_dozent insert_dozent db cache vorname nachname
        = (db', cache', Fails e) ->
        cache' = cache).
Proof.
  assert (A : forall c did,
            dict_get name_eqb (cache_dozenten c) (vorname, nachname) = Some did ->
            forall d, _get_or_create_dozent select_dozent insert_dozent d c vorname nachname
                      = (d, c, Done did)).
  { intros c did H d. unfold _get_or_create_dozent. rewrite H. reflexivity. }
  assert (X : forall did,
            dict_get name_eqb
              (dict_set name_eqb (cache_dozenten cache) (vorname, nachname) did)
              (vorname, nachname) = Some did)
    by (intros did; apply (dict_get_set_same _ name_eqb_spec)).
  split; [intros did H; apply A, H|]. split.
  - intros db' cache' did. unfold _get_or_create_dozent at 1.
    destruct (dict_get name_eqb (cache_dozenten cache) (vorname, nachname)) as [d0|] eqn:G.
    + intros E. inversion E; subst. split; [exact G|]. split; [reflexivity|]. apply A, G.
    + destruct (select_dozent db (vorname, nachname)) as [db1 [[d1|]|msg]];
        [| |discriminate].
      * intros E. inversion E; subst. cbn [cache_dozenten].
        split; [apply X|]. split; [|apply A, X].
        intros key N. apply (dict_get_set_other _ name_eqb_spec). congruence.
      * destruct (insert_dozent db1 (vorname, nachname)) as [db2 [[d2|]|msg]];
          try discriminate.
        intros E. inversion E; subst. cbn [cache_dozenten].
        split; [apply X|]. split; [|apply A, X].
        intros key N. apply (dict_get_set_other _ name_eqb_spec). congruence.
  - intros db' cache' e. unfold _get_or_create_dozent.
    destruct (dict_get name_eqb (cache_dozenten cache) (vorname, nachname)) as [d0|];
      [discriminate|].
    destruct (select_dozent db (vorname, nachname)) as [db1 [[d1|]|msg]];
      [discriminate | | intros E; inversion E; reflexivity].
    destruct (insert_dozent db1 (vorname, nachname)) as [db2 [[d2|]|msg]];
      [discriminate | |]; intros E; inversion E; reflexivity.
Qed.
End CursorFacts.

(** ** Permission helpers *)

Lemma dict_get_init (t : string) (l : list string) :
  dict_get String.eqb (map (fun t => (t, @nil string)) l) t
  = if existsb (String.eqb t) l then Some [] else None.
Proof.
  induction l as [|x l IH]; simpl; [reflexivity|].
  rewrite String.eqb_sym. destruct (String.eqb t x); [reflexivity | exact IH].
Qed.

(** The privileges the rows give a table, in the order of the rows. *)
Lemma collect_privileges_spec (fetched : list (string * string))
    (result result' : list (string * list string)) :
  collect_privileges result fetched = Perms result' ->
  forall t,
    dict_get String.eqb result' t
    = match dict_get String.eqb result t with
      | Some privs =>
          Some (privs ++ map snd (filter (fun r => String.eqb (fst r) t) fetched))
      | None => None
      end.
Proof.
  revert result. induction fetched as [|[tn pt] l IH]; intros result; simpl.
  - intros H t. inversion H; subst. destruct (dict_get _ _ t); [rewrite app_nil_r|]; reflexivity.
  - destruct (dict_get String.eqb result tn) as [privs|] eqn:G; [|discriminate].
    intros H t. rewrite (IH _ H t). destruct (String.eqb tn t) eqn:E.
    + apply String.eqb_eq in E. subst t.
      rewrite (dict_get_set_same _ String.eqb_eq), G. simpl.
      rewrite <- app_assoc. reflexivity.
    + rewrite (dict_get_set_other _ String.eqb_eq); [reflexivity|].
      intros ->. rewrite String.eqb_refl in E. discriminate.
Qed.

Lemma collect_privileges_keys (fetched : list (string * string))
    (result : list (string * list string)) :
  (exists result', collect_privileges result fetched = Perms result')
  <-> forall r, In r fetched -> dict_mem String.eqb result (fst r) = true.
Proof.
  revert result. induction fetched as [|[tn pt] l IH]; intros result; simpl.
  - split; [intros _ r [] | eauto].
  - unfold dict_mem at 1.
    destruct (dict_get String.eqb result tn) as [privs|] eqn:G.
    + rewrite IH. split.
      * intros H r [<-|I]; [simpl; unfold dict_mem; rewrite G; reflexivity|].
        specialize (H r I). unfold dict_mem in *.
        destruct (String.eqb tn (fst r)) eqn:E.
        -- apply String.eqb_eq in E. rewrite <- E, G. reflexivity.
        -- rewrite (dict_get_set_other _ String.eqb_eq) in H; [exact H|].
           intros X. rewrite X, String.eqb_refl in E. discriminate.
      * intros H r I. apply (dict_mem_set _ String.eqb_eq). apply H. right. exact I.
    + split; [intros (r' & X); discriminate|].
      intros H. specialize (H (tn, pt) (or_introl eq_refl)). simpl in H.
      unfold dict_mem in H. rewrite G in H. discriminate.
Qed.

Lemma string_mem_In (x : string) (l : list string) :
  existsb (String.eqb x) l = true <-> In x l.
Proof.
  rewrite existsb_exists. split.
  - intros (y & I & E). apply String.eqb_eq in E. subst. exact I.
  - intros I. exists x. split; [exact I | apply String.eqb_refl].
Qed.

Lemma print_permissions_fold (perms : list (string * list string))
    (tables : list string) (acc : bool) :
  fold_left
    (fun all_ok table =>
       let privs := match dict_get String.eqb perms table with
                    | Some l => l
                    | None => []
                    end in
       let ok := existsb (String.eqb "INSERT") privs
                 && existsb (String.eqb "SELECT") privs in
       if negb ok then false else all_ok)
    tables acc = true
  <-> acc = true
      /\ forall t, In t tables ->
           exists privs, dict_get String.eqb perms t = Some privs
                         /\ In "INSERT" privs /\ In "SELECT" privs.
Proof.
  revert acc. induction tables as [|t l IH]; intros acc; cbn [fold_left].
  - split; [intros ->; split; [reflexivity | intros ? []] | intros [-> _]; reflexivity].
  - rewrite IH. cbn zeta.
    destruct (dict_get String.eqb perms t) as [privs|] eqn:G.
    + destruct (existsb (String.eqb "INSERT") privs) eqn:I.
      * destruct (existsb (String.eqb "SELECT") privs) eqn:S; cbn [andb negb].
        -- apply string_mem_In in I, S. split.
           ++ intros [-> H]. split; [reflexivity|].
              intros t' [<-|X]; [eauto | auto].
           ++ intros [-> H]. split; [reflexivity|]. intros t' X. apply H. right. exact X.
        -- split; [intros [X _]; discriminate|].
           intros [_ H]. destruct (H t (or_introl eq_refl)) as (pr & E & _ & X).
           rewrite G in E. inversion E; subst. apply string_mem_In in X. congruence.
      * cbn [andb negb]. split; [intros [X _]; discriminate|].
        intros [_ H]. destruct (H t (or_introl eq_refl)) as (pr & E & X & _).
        rewrite G in E. inversion E; subst. apply string_mem_In in X. congruence.
    + cbn [existsb andb negb]. split; [intros [X _]; discriminate|].
      intros [_ H]. destruct (H t (or_introl eq_refl)) as (pr & E & _).
      rewrite G in E. discriminate.
Qed.

(** X11: [check_permissions] raises [KeyError] exactly when a fetched row
    names a table outside the schema; otherwise [print_permissions_table]
    returns true on its result exactly when, for every table of the schema,
    the rows grant INSERT and SELECT. *)
Theorem permissions_ok (fetched : list (string * string)) :
  ((exists perms, check_permissions fetched = Perms perms)
   <-> forall r, In r fetched -> In (fst r) SCHEMA_TABLES)
  /\ (forall perms, check_permissions fetched = Perms perms ->
        (print_permissions_table perms = true
         <-> forall t, In t SCHEMA_TABLES ->
               In (t, "INSERT") fetched /\ In (t, "SELECT") fetched)).
Proof.
  unfold check_permissions. split.
  - rewrite collect_privileges_keys. split; intros H r I; specialize (H r I).
    + unfold dict_mem in H. rewrite dict_get_init in H.
      destruct (existsb _ _) eqn:E; [|discriminate]. apply string_mem_In, E.
    + unfold dict_mem. rewrite dict_get_init.
      rewrite (proj2 (string_mem_In _ _) H). reflexivity.
  - intros perms C. pose proof (collect_privileges_spec _ _ _ C) as S.
    unfold print_permissions_table. rewrite print_permissions_fold.
    assert (M : forall t p, In t SCHEMA_TABLES ->
              (exists privs, dict_get String.eqb perms t = Some privs /\ In p privs)
              <-> In (t, p) fetched).
    { intros t p I. rewrite S, dict_get_init, (proj2 (string_mem_In _ _) I).
      cbn [app]. split.
      - intros (privs & E & X). inversion E; subst. apply in_map_iff in X.
        destruct X as ([t' p'] & <- & F). apply filter_In in F. destruct F as [F Q].
        simpl in Q. apply String.eqb_eq in Q. subst. exact F.
      - intros F. eexists. split; [reflexivity|]. apply in_map_iff.
        exists (t, p). split; [reflexivity|]. apply filter_In.
        split; [exact F | apply String.eqb_refl]. }
    split.
    + intros [_ H] t I. destruct (H t I) as (privs & E & X & Y).
      split; apply (M _ _ I); eauto.
    + intros H. split; [reflexivity|]. intros t I. destruct (H t I) as [X Y].
      apply (M _ _ I) in X, Y. destruct X as (p1 & E1 & X), Y as (p2 & E2 & Y).
      rewrite E1 in E2. inversion E2; subst. eauto.
Qed.

Lemma permissions_ok_witness :
  exists perms, check_permissions fetched_example = Perms perms
                /\ print_permissions_table perms = true.
Proof.
  eexists. split; [vm_compute; reflexivity|].
  match goal with |- print_permissions_table ?p = true =>
    apply (proj2 (permissions_ok fetched_example) p eq_refl) end.
  intros t I. unfold SCHEMA_TABLES in I. cbn [In] in I.
  destruct I as [<-|[<-|[<-|[<-|[<-|[]]]]]]; split; cbn; tauto.
Defined.

Lemma get_or_create_cached_witness :
  _get_or_create_dozent select_none insert_next [] cache_example "Ada" "Lovelace"
  = ([], cache_example, Done 7%Z).
Proof.
  apply (proj1 (get_or_create_cached select_none insert_next [] cache_example
                  "Ada" "Lovelace")).
  reflexivity.
Defined.

(** ** DB-execute path: one document *)

Section ExecuteFacts.
Context {DB : Type}.
Variable select_dozent : DB -> string * string -> DB * answer (option Z).
Variable insert_dozent : DB -> string * string -> DB * answer (option Z).
Variable insert_lernfeld :
  DB -> string -> string -> option string -> option string -> DB * answer Z.
Variable insert_lernfeld_dozent : DB -> string -> Z -> DB * answer Z.
Variable insert_lerntag : DB -> string -> string -> Z -> DB * answer (option Z).
Variable select_lerntag : DB -> string -> DB * answer (option Z).
Variable insert_unterrichtseinheit : DB -> Z -> Z -> string -> DB * answer Z.
Variable set_iter : list (string * string) -> list (string * string).

Local Abbreviation get_or_create := (_get_or_create_dozent select_dozent insert_dozent).
Local Abbreviation run_dozent :=
  (execute_dozent select_dozent insert_dozent insert_lernfeld_dozent).
Local Abbreviation run_dozenten :=
  (execute_dozenten select_dozent insert_dozent insert_lernfeld_dozent).
Local Abbreviation run :=
  (execute_pdf_into_db select_dozent insert_dozent insert_lernfeld
     insert_lernfeld_dozent insert_lerntag select_lerntag
     insert_unterrichtseinheit set_iter).

Lemma cache_grows_refl (c : db_cache) : cache_grows c c.
Proof. repeat split; auto. Qed.

Lemma cache_grows_trans (a b c : db_cache) :
  cache_grows a b -> cache_grows b c -> cache_grows a c.
Proof.
  intros (A1 & A2 & A3 & A4) (B1 & B2 & B3 & B4).
  split; [auto|]. split; [auto|]. split; [auto | congruence].
Qed.

Lemma cached_grows (lf_id : string) (c c' : db_cache) (key : string * string) :
  cache_grows c c' -> cached lf_id c key -> cached lf_id c' key.
Proof. intros (G1 & G2 & _) (did & D & L). exists did. auto. Qed.

Lemma get_or_create_hit (db : DB) (c : db_cache) (key : string * string) (did : Z) :
  dict_get name_eqb (cache_dozenten c) key = Some did ->
  get_or_create db c (fst key) (snd key) = (db, c, Done did).
Proof.
  intros H. unfold _get_or_create_dozent. rewrite <- surjective_pairing, H. reflexivity.
Qed.

(** A call of [_get_or_create_dozent], returned or raised, forgets nothing
    of the cache; returned, it has the name in the cache. *)
Lemma get_or_create_facts (db db' : DB) (c c' : db_cache) (key : string * string)
    (r : reply Z) :
  get_or_create db c (fst key) (snd key) = (db', c', r) ->
  cache_grows c c'
  /\ cache_lf_doz c' = cache_lf_doz c
  /\ cache_lernfelder c' = cache_lernfelder c
  /\ (forall did, r = Done did ->
        dict_get name_eqb (cache_dozenten c') key = Some did).
Proof.
  unfold _get_or_create_dozent. rewrite <- surjective_pairing.
  destruct (dict_get name_eqb (cache_dozenten c) key) as [d0|] eqn:G.
  - intros E. inversion E; subst. split; [apply cache_grows_refl|].
    split; [reflexivity|]. split; [reflexivity|]. intros did X. inversion X; subst. exact G.
  - assert (S : forall d, cache_grows c
                {| cache_lernfelder := cache_lernfelder c;
                   cache_dozenten := dict_set name_eqb (cache_dozenten c) key d;
                   cache_lerntage := cache_lerntage c;
                   cache_lf_doz := cache_lf_doz c |}).
    { intros d. split; [|split; [|split]]; cbn; auto.
      intros k v X. rewrite (dict_get_set_other _ name_eqb_spec); [exact X|].
      intros <-. congruence. }
    assert (Stay : forall e, cache_grows c c
              /\ cache_lf_doz c = cache_lf_doz c
              /\ cache_lernfelder c = cache_lernfelder c
              /\ (forall did, @Fails Z e = Done did ->
                    dict_get name_eqb (cache_dozenten c) key = Some did)).
    { intros e. split; [apply cache_grows_refl|]. repeat split. discriminate. }
    assert (Set' : forall d, cache_grows c
                {| cache_lernfelder := cache_lernfelder c;
                   cache_dozenten := dict_set name_eqb (cache_dozenten c) key d;
                   cache_lerntage := cache_lerntage c;
                   cache_lf_doz := cache_lf_doz c |}
              /\ cache_lf_doz c = cache_lf_doz c
              /\ cache_lernfelder c = cache_lernfelder c
              /\ (forall did, Done d = Done did ->
                    dict_get name_eqb (dict_set name_eqb (cache_dozenten c) key d) key
                    = Some did)).
    { intros d. split; [apply S|]. repeat split. intros did X. inversion X; subst.
      apply (dict_get_set_same _ name_eqb_spec). }
    destruct (select_dozent db key) as [db1 [[d1|]|msg]].
    + intros E. inversion E; subst. apply Set'.
    + destruct (insert_dozent db1 key) as [db2 [[d2|]|msg]];
        intros E; inversion E; subst; [apply Set' | apply Stay | apply Stay].
    + intros E. inversion E; subst. apply Stay.
Qed.

(** One turn of the loop over the names forgets nothing; returned, it has
    linked its name. *)
Lemma execute_dozent_step (lf_id : string) (db db' : DB) (c c' : db_cache) (a : Z)
    (key : string * string) (r : reply Z) :
  run_dozent lf_id db c a key = (db', c', r) ->
  cache_grows c c' /\ cache_lernfelder c' = cache_lernfelder c
  /\ (forall a', r = Done a' -> cached lf_id c' key).
Proof.
  unfold execute_dozent.
  destruct (get_or_create db c (fst key) (snd key)) as [[db1 c1] [did|e]] eqn:E.
  2:{ destruct (get_or_create_facts _ _ _ _ _ _ E) as (G & L & F & _).
      intros X. inversion X; subst. split; [exact G|]. split; [exact F | discriminate]. }
  destruct (get_or_create_facts _ _ _ _ _ _ E) as (G & L & F & D).
  specialize (D did eq_refl).
  destruct (existsb (combo_eqb (lf_id, did)) (cache_lf_doz c1)) eqn:X.
  - intros Y. inversion Y; subst. split; [exact G|]. split; [exact F|].
    intros _ _. exists did. auto.
  - destruct (insert_lernfeld_dozent db1 lf_id did) as [db2 [rc|msg]];
      intros Y; inversion Y; subst.
    + split; [|split; [exact F|]].
      * eapply cache_grows_trans; [exact G|].
        split; [|split; [|split]]; cbn; auto.
        intros x H. rewrite H. apply orb_true_r.
      * intros _ _. exists did. cbn. split; [exact D|].
        rewrite (proj2 (combo_eqb_spec _ _) eq_refl). reflexivity.
    + split; [exact G|]. split; [exact F | discriminate].
Qed.

Lemma execute_dozent_cached (lf_id : string) (db : DB) (c : db_cache) (a : Z)
    (key : string * string) :
  cached lf_id c key -> run_dozent lf_id db c a key = (db, c, Done a).
Proof.
  intros (did & D & L). unfold execute_dozent.
  rewrite (get_or_create_hit _ _ _ _ D), L. reflexivity.
Qed.

Lemma execute_dozenten_fold (lf_id : string) (keys : list (string * string))
    (db db' : DB) (c c' : db_cache) (a : Z) (r : reply Z) :
  run_dozenten lf_id keys db c a = (db', c', r) ->
  cache_grows c c' /\ cache_lernfelder c' = cache_lernfelder c
  /\ (forall a', r = Done a' -> Forall (cached lf_id c') keys).
Proof.
  revert db c a. induction keys as [|k keys IH]; intros db c a; cbn [execute_dozenten].
  - intros X. inversion X; subst. split; [apply cache_grows_refl | auto].
  - destruct (run_dozent lf_id db c a k) as [[db1 c1] [a1|e]] eqn:E.
    + destruct (execute_dozent_step _ _ _ _ _ _ _ _ E) as (G1 & F1 & C1).
      intros X. destruct (IH _ _ _ X) as (G & F & C).
      split; [eapply cache_grows_trans; eassumption|]. split; [congruence|].
      intros a' Y. constructor; [|exact (C _ Y)].
      eapply cached_grows; [exact G|]. exact (C1 _ eq_refl).
    + destruct (execute_dozent_step _ _ _ _ _ _ _ _ E) as (G1 & F1 & _).
      intros X. inversion X; subst. split; [exact G1|]. split; [exact F1 | discriminate].
Qed.

Lemma execute_dozenten_cached (lf_id : string) (keys : list (string * string))
    (db : DB) (c : db_cache) (a : Z) :
  Forall (cached lf_id c) keys ->
  run_dozenten lf_id keys db c a = (db, c, Done a).
Proof.
  induction 1 as [|k keys C F IH]; cbn [execute_dozenten]; [reflexivity|].
  rewrite (execute_dozent_cached _ _ _ _ _ C). exact IH.
Qed.

Lemma execute_lernfeld_facts (hdr : header) (db db' : DB) (c c' : db_cache) (a : Z)
    (r : reply Z) :
  execute_lernfeld insert_lernfeld hdr db c a = (db', c', r) ->
  cache_grows c c'
  /\ (forall a', r = Done a' ->
        existsb (String.eqb (lernfeld_id hdr)) (cache_lernfelder c') = true).
Proof.
  unfold execute_lernfeld.
  destruct (existsb (String.eqb (lernfeld_id hdr)) (cache_lernfelder c)) eqn:M.
  - intros X. inversion X; subst. split; [apply cache_grows_refl | auto].
  - destruct (insert_lernfeld _ _ _ _ _) as [db1 [rc|msg]]; intros X; inversion X; subst.
    + split.
      * split; [|split; [|split]]; cbn; auto.
        intros k H. rewrite H. apply orb_true_r.
      * intros _ _. cbn. rewrite String.eqb_refl. reflexivity.
    + split; [apply cache_grows_refl | discriminate].
Qed.

Lemma execute_einheiten_cache (rows : list row) (lt_id : Z) (db db' : DB)
    (c c' : db_cache) (a : Z) (out : execute_outcome) :
  execute_einheiten insert_unterrichtseinheit rows lt_id db c a = (db', c', out) ->
  c' = c /\ out <> RowIndexError.
Proof.
  revert db a. induction rows as [|r rows IH]; intros db a; cbn [execute_einheiten].
  - intros E. inversion E; subst. split; [reflexivity | discriminate].
  - destruct (insert_unterrichtseinheit db lt_id (stunde r) (inhalt r))
      as [db1 [rc|msg]].
    + apply IH.
    + intros E. inversion E; subst. split; [reflexivity | discriminate].
Qed.

(** The call in its stages: either a statement raised before the rows
    were inserted, or the lernfeld block and the loop over the names went
    through and the date decides what comes next. *)
Lemma execute_stages (data : pdf_data) (db : DB) (cache : db_cache) :
  let hdr := pd_header data in
  let keys := set_iter (map (fun r => (dozent_vorname r, dozent_nachname r))
                            (pd_rows data)) in
  exists db' c',
    cache_grows cache c'
    /\ ((exists e, run data db cache = (db', c', CursorError e))
        \/ (existsb (String.eqb (lernfeld_id hdr)) (cache_lernfelder c') = true
            /\ Forall (cached (lernfeld_id hdr) c') keys
            /\ (exists db1 c1 a1,
                  execute_lernfeld insert_lernfeld hdr db cache 0 = (db1, c1, Done a1))
            /\ match dict_get String.eqb (cache_lerntage cache) (datum hdr) with
               | Some lt_id =>
                   exists a,
                     run data db cache
                     = execute_einheiten insert_unterrichtseinheit (pd_rows data)
                         lt_id db' c' a
               | None =>
                   match pd_rows data with
                   | [] => run data db cache = (db', c', RowIndexError)
                   | _ :: _ =>
                       exists lt_id a,
                         run data db cache
                         = execute_einheiten insert_unterrichtseinheit (pd_rows data)
                             lt_id db'
                             {| cache_lernfelder := cache_lernfelder c';
                                cache_dozenten := cache_dozenten c';
                                cache_lerntage :=
                                  dict_set String.eqb (cache_lerntage c') (datum hdr)
                                    lt_id;
                                cache_lf_doz := cache_lf_doz c' |} a
                   end
               end)).
Proof.
  intros hdr keys. unfold execute_pdf_into_db. fold hdr. cbv zeta. fold keys.
  destruct (execute_lernfeld insert_lernfeld hdr db cache 0) as [[db1 c1] [a1|e1]] eqn:E1;
    destruct (execute_lernfeld_facts _ _ _ _ _ _ _ E1) as (G1 & M1).
  2:{ exists db1, c1. split; [exact G1|]. left. eexists. reflexivity. }
  specialize (M1 a1 eq_refl).
  destruct (run_dozenten (lernfeld_id hdr) keys db1 c1 a1) as [[db2 c2] [a2|e2]] eqn:E2;
    destruct (execute_dozenten_fold _ _ _ _ _ _ _ _ E2) as (G2 & F2 & C2).
  2:{ exists db2, c2. split; [eapply cache_grows_trans; eassumption|]. left.
      eexists. reflexivity. }
  specialize (C2 a2 eq_refl).
  assert (G : cache_grows cache c2) by (eapply cache_grows_trans; eassumption).
  assert (M2 : existsb (String.eqb (lernfeld_id hdr)) (cache_lernfelder c2) = true)
    by congruence.
  assert (T : cache_lerntage c2 = cache_lerntage cache) by apply G.
  rewrite T.
  destruct (dict_get String.eqb (cache_lerntage cache) (datum hdr)) as [lt|] eqn:D.
  { exists db2, c2. split; [exact G|]. right.
    split; [exact M2|]. split; [exact C2|].
    split; [exists db1, c1, a1; reflexivity|]. exists a2. reflexivity. }
  destruct (pd_rows data) as [|first_row rest] eqn:R.
  { exists db2, c2. split; [exact G|]. right.
    split; [exact M2|]. split; [exact C2|].
    split; [exists db1, c1, a1; reflexivity | reflexivity]. }
  destruct (get_or_create db2 c2 (dozent_vorname first_row) (dozent_nachname first_row))
    as [[db3 c3] [day_dozent|e3]] eqn:E3;
    destruct (get_or_create_facts db2 db3 c2 c3
                (dozent_vorname first_row, dozent_nachname first_row) _ E3)
      as (G3 & L3 & F3 & _).
  2:{ exists db3, c3. split; [eapply cache_grows_trans; eassumption|]. left.
      eexists. reflexivity. }
  assert (G' : cache_grows cache c3) by (eapply cache_grows_trans; eassumption).
  assert (M3 : existsb (String.eqb (lernfeld_id hdr)) (cache_lernfelder c3) = true)
    by congruence.
  assert (C3 : Forall (cached (lernfeld_id hdr) c3) keys).
  { eapply Forall_impl; [|exact C2]. intros k. apply cached_grows, G3. }
  destruct (insert_lerntag db3 (datum hdr) (lernfeld_id hdr) day_dozent)
    as [db4 [[lt_id|]|msg]].
  - exists db4, c3. split; [exact G'|]. right.
    split; [exact M3|]. split; [exact C3|].
    split; [exists db1, c1, a1; reflexivity|].
    exists lt_id, (a2 + 1)%Z. reflexivity.
  - destruct (select_lerntag db4 (datum hdr)) as [db5 [[lt_id|]|msg]].
    + exists db5, c3. split; [exact G'|]. right.
      split; [exact M3|]. split; [exact C3|].
      split; [exists db1, c1, a1; reflexivity|].
      exists lt_id, (a2 + 1)%Z. reflexivity.
    + exists db5, c3. split; [exact G'|]. left. eexists. reflexivity.
    + exists db5, c3. split; [exact G'|]. left. eexists. reflexivity.
  - exists db4, c3. split; [exact G'|]. left. eexists. reflexivity.
Qed.

(** X12: a second call of [execute_pdf_into_db] with the same data, on
    the database and the cache the first call left when it returned, runs
    only the INSERTs of the unterrichtseinheiten, one for each row with the
    lerntag_id the cache holds for the date, and leaves the cache as it
    is. *)
Theorem execute_again (data : pdf_data) (db db1 : DB) (cache cache1 : db_cache)
    (n : Z) :
  run data db cache = (db1, cache1, Affected n) ->
  exists lt_id,
    dict_get String.eqb (cache_lerntage cache1) (datum (pd_header data)) = Some lt_id
    /\ run data db1 cache1
       = execute_einheiten insert_unterrichtseinheit (pd_rows data) lt_id db1 cache1 0.
Proof.
  intros H.
  assert (Again : forall lt_id,
            existsb (String.eqb (lernfeld_id (pd_header data))) (cache_lernfelder cache1)
            = true ->
            Forall (cached (lernfeld_id (pd_header data)) cache1)
              (set_iter (map (fun r => (dozent_vorname r, dozent_nachname r))
                             (pd_rows data))) ->
            dict_get String.eqb (cache_lerntage cache1) (datum (pd_header data))
            = Some lt_id ->
            run data db1 cache1
            = execute_einheiten insert_unterrichtseinheit (pd_rows data) lt_id
                db1 cache1 0).
  { intros lt_id M C T. unfold execute_pdf_into_db, execute_lernfeld.
    rewrite M. cbv zeta. rewrite (execute_dozenten_cached _ _ _ _ _ C), T. reflexivity. }
  destruct (execute_stages data db cache) as (db2 & c2 & G & [(e & S)|(M & C & _ & S)]).
  { rewrite H in S. discriminate S. }
  cbn zeta in *.
  destruct (dict_get String.eqb (cache_lerntage cache) (datum (pd_header data)))
    as [lt|] eqn:T.
  - destruct S as (a & S). rewrite H in S. symmetry in S.
    apply execute_einheiten_cache in S.
    destruct S as [-> _]. destruct G as (_ & _ & _ & T').
    exists lt. rewrite T'. split; [exact T|]. apply Again; [exact M | exact C |].
    rewrite T'. exact T.
  - destruct (pd_rows data) as [|first_row rest] eqn:R; [congruence|].
    destruct S as (lt_id & a & S).
    rewrite H in S. symmetry in S. apply execute_einheiten_cache in S.
    destruct S as [-> _]. cbn [cache_lerntage].
    exists lt_id.
    assert (X : dict_get String.eqb
                  (dict_set String.eqb (cache_lerntage c2) (datum (pd_header data)) lt_id)
                  (datum (pd_header data)) = Some lt_id)
      by apply (dict_get_set_same _ String.eqb_eq).
    split; [exact X|]. apply Again.
    + exact M.
    + eapply Forall_impl; [|exact C].
      intros k (did & D & L). exists did. auto.
    + exact X.
Qed.

(** X13: [execute_pdf_into_db] raises [IndexError] exactly when there is
    no row, the date is not in the cache, and the INSERT into lernfeld, if
    it is run, does not raise (with no row there is no name to iterate); it
    never raises [IndexError] on the data of a document that [extract_pdf]
    returned. *)
Theorem execute_index_error (data : pdf_data) (db : DB) (cache : db_cache) :
  set_iter [] = [] ->
  (snd (run data db cache) = RowIndexError
   <-> pd_rows data = []
       /\ dict_mem String.eqb (cache_lerntage cache) (datum (pd_header data)) = false
       /\ forall e,
            snd (execute_lernfeld insert_lernfeld (pd_header data) db cache 0)
            <> Fails e)
  /\ (forall p, extract_pdf p = Ok data -> snd (run data db cache) <> RowIndexError).
Proof.
  intros Empty.
  assert (E : forall rows lt d c a,
            snd (execute_einheiten insert_unterrichtseinheit rows lt d c a)
            <> RowIndexError).
  { intros rows lt d c a.
    destruct (execute_einheiten insert_unterrichtseinheit rows lt d c a)
      as [[d' c'] out] eqn:X.
    apply execute_einheiten_cache in X. apply X. }
  assert (A : snd (run data db cache) = RowIndexError
              -> pd_rows data = []
                 /\ dict_mem String.eqb (cache_lerntage cache) (datum (pd_header data))
                    = false
                 /\ forall e,
                      snd (execute_lernfeld insert_lernfeld (pd_header data) db cache 0)
                      <> Fails e).
  { destruct (execute_stages data db cache)
      as (db2 & c2 & _ & [(e & S)|(_ & _ & (db1 & c1 & a1 & L) & S)]).
    { rewrite S. discriminate. }
    cbn zeta in S. unfold dict_mem. rewrite L.
    destruct (dict_get String.eqb (cache_lerntage cache) (datum (pd_header data)))
      as [lt|].
    - destruct S as (a & ->). intros X. destruct (E _ _ _ _ _ X).
    - destruct (pd_rows data) as [|first_row rest].
      + intros _. split; [reflexivity|]. split; [reflexivity | discriminate].
      + destruct S as (lt_id & a & ->). intros X. destruct (E _ _ _ _ _ X). }
  split; [split; [exact A|]|].
  - intros (R & D & L). unfold execute_pdf_into_db. cbv zeta.
    destruct (execute_lernfeld insert_lernfeld (pd_header data) db cache 0)
      as [[db1 c1] [a1|e1]] eqn:E1; [|destruct (L e1 eq_refl)].
    destruct (execute_lernfeld_facts _ _ _ _ _ _ _ E1) as ((_ & _ & _ & T) & _).
    rewrite R. cbn [map]. rewrite Empty. cbn [execute_dozenten].
    rewrite T. unfold dict_mem in D.
    destruct (dict_get String.eqb (cache_lerntage cache) (datum (pd_header data)));
      [discriminate D | reflexivity].
  - intros p X N. apply A in N. destruct N as [N _].
    unfold extract_pdf in X.
    destruct (parse_header _) as [h|]; [|discriminate]. cbn [bind] in X.
    destruct (parse_rows_from_page (extract_words p)) as [r|] eqn:R; [|discriminate].
    cbn [bind] in X. inversion X; subst data. cbn in N. subst r.
    exact (rows_not_nil _ _ R eq_refl).
Qed.

(** X14: [execute_pdf_into_db] never replaces what the cache holds:
    after a call, whether it returned or raised, every id the cache had for
    a name or a date is still there; and unless it was a statement on the
    cursor that raised, the lernfeld of the document is in the cache and
    every name iterated has an id that is linked to the lernfeld. *)
Theorem execute_cache_keeps (data : pdf_data) (db : DB) (cache : db_cache) :
  let cache' := snd (fst (run data db cache)) in
  let lf_id := lernfeld_id (pd_header data) in
  (forall key did, dict_get name_eqb (cache_dozenten cache) key = Some did ->
                   dict_get name_eqb (cache_dozenten cache') key = Some did)
  /\ (forall d lt_id, dict_get String.eqb (cache_lerntage cache) d = Some lt_id ->
                      dict_get String.eqb (cache_lerntage cache') d = Some lt_id)
  /\ ((forall e, snd (run data db cache) <> CursorError e) ->
      existsb (String.eqb lf_id) (cache_lernfelder cache') = true
      /\ Forall (cached lf_id cache')
           (set_iter (map (fun r => (dozent_vorname r, dozent_nachname r))
                          (pd_rows data)))).
Proof.
  destruct (execute_stages data db cache) as (db2 & c2 & G & [(e & S)|(M & C & _ & S)]);
    cbn zeta in *.
  { rewrite S. cbn [fst snd]. destruct G as (G1 & _ & _ & G4). rewrite G4.
    split; [exact G1|]. split; [auto|]. intros N. destruct (N e eq_refl). }
  assert (E : forall rows lt d c a,
            snd (fst (execute_einheiten insert_unterrichtseinheit rows lt d c a)) = c).
  { intros rows lt d c a.
    destruct (execute_einheiten insert_unterrichtseinheit rows lt d c a)
      as [[d' c'] out] eqn:X.
    apply execute_einheiten_cache in X. apply X. }
  destruct G as (G1 & _ & _ & G4).
  destruct (dict_get String.eqb (cache_lerntage cache) (datum (pd_header data)))
    as [lt|] eqn:T.
  - destruct S as (a & ->). rewrite E, G4. auto.
  - destruct (pd_rows data) as [|first_row rest].
    + rewrite S. cbn [fst snd]. rewrite G4. auto.
    + destruct S as (lt_id & a & ->). rewrite E. cbn [cache_dozenten cache_lerntage
        cache_lernfelder].
      split; [exact G1|]. split; [|intros _; split; [exact M|]].
      * intros d l X. rewrite (dict_get_set_other _ String.eqb_eq).
        -- rewrite G4. exact X.
        -- intros <-. congruence.
      * eapply Forall_impl; [|exact C]. intros k (did & D & L). exists did. auto.
Qed.
End ExecuteFacts.

Lemma execute_again_witness :
  exists lt_id,
    dict_get String.eqb (cache_lerntage (snd (fst logged_first))) "2024-03-05"
    = Some lt_id
    /\ execute_logged data_example (fst (fst logged_first)) (snd (fst logged_first))
       = execute_einheiten log_insert_unterrichtseinheit (pd_rows data_example) lt_id
           (fst (fst logged_first)) (snd (fst logged_first)) 0.
Proof.
  eapply (execute_again log_select_dozent log_insert_dozent log_insert_lernfeld
            log_insert_lernfeld_dozent log_insert_lerntag log_select_lerntag
            log_insert_unterrichtseinheit log_set_iter data_example [] _
            make_db_cache).
  vm_compute. reflexivity.
Defined.

Lemma execute_index_error_witness :
  (exists data, extract_pdf page_example = Ok data
                /\ snd (execute_logged data [] make_db_cache) <> RowIndexError)
  /\ snd (execute_logged {| pd_header := pd_header data_example; pd_rows := [] |}
            [] make_db_cache) = RowIndexError.
Proof.
  split.
  - eexists. split; [vm_compute; reflexivity|].
    match goal with |- snd (execute_logged ?d _ _) <> _ =>
      apply (proj2 (execute_index_error log_select_dozent log_insert_dozent
                      log_insert_lernfeld log_insert_lernfeld_dozent log_insert_lerntag
                      log_select_lerntag log_insert_unterrichtseinheit log_set_iter
                      d [] make_db_cache eq_refl) page_example) end.
    vm_compute. reflexivity.
  - apply (proj1 (execute_index_error log_select_dozent log_insert_dozent
                    log_insert_lernfeld log_insert_lernfeld_dozent log_insert_lerntag
                    log_select_lerntag log_insert_unterrichtseinheit log_set_iter
                    {| pd_header := pd_header data_example; pd_rows := [] |}
                    [] make_db_cache eq_refl)).
    split; [reflexivity|]. split; [reflexivity | discriminate].
Defined.

Lemma execute_cache_keeps_witness :
  (existsb (String.eqb "LF12") (cache_lernfelder (snd (fst logged_first))) = true
   /\ Forall (cached "LF12" (snd (fst logged_first))) [("Pat", "O'Neil")])
  /\ dict_get name_eqb
       (cache_dozenten (snd (fst (execute_denied data_example [] cache_example))))
       ("Ada", "Lovelace") = Some 7%Z.
Proof.
  split.
  - apply (proj2 (proj2 (execute_cache_keeps log_select_dozent log_insert_dozent
                           log_insert_lernfeld log_insert_lernfeld_dozent
                           log_insert_lerntag log_select_lerntag
                           log_insert_unterrichtseinheit log_set_iter
                           data_example [] make_db_cache))).
    intros e. vm_compute. discriminate.
  - apply (proj1 (execute_cache_keeps log_select_dozent log_insert_dozent
                    log_insert_lernfeld denied_insert_lernfeld_dozent
                    log_insert_lerntag log_select_lerntag
                    log_insert_unterrichtseinheit log_set_iter
                    data_example [] cache_example)).
    reflexivity.
Defined.

(** * The Excel export *)

Import Excel.

(** ** Calendar arithmetic *)

Lemma is_leap_cases (y : Z) :
  (is_leap y = true /\ (y mod 4 = 0 /\ (y mod 100 <> 0 \/ y mod 400 = 0))%Z)
  \/ (is_leap y = false /\ (y mod 4 <> 0 \/ (y mod 100 = 0 /\ y mod 400 <> 0))%Z).
Proof.
  unfold is_leap.
  destruct (Z.eqb_spec (y mod 4) 0), (Z.eqb_spec (y mod 100) 0),
    (Z.eqb_spec (y mod 400) 0); cbn; tauto.
Qed.

Lemma days_before_year_succ (y : Z) :
  days_before_year (y + 1) = (days_before_year y + (if is_leap y then 366 else 365))%Z.
Proof.
  unfold days_before_year. cbn zeta.
  destruct (is_leap_cases y) as [[-> H]|[-> H]];
    replace (y + 1 - 1)%Z with y by lia;
    Z.div_mod_to_equations; lia.
Qed.

Lemma month_cases (m : Z) :
  (1 <= m <= 12)%Z ->
  m = 1%Z \/ m = 2%Z \/ m = 3%Z \/ m = 4%Z \/ m = 5%Z \/ m = 6%Z \/ m = 7%Z
  \/ m = 8%Z \/ m = 9%Z \/ m = 10%Z \/ m = 11%Z \/ m = 12%Z.
Proof. lia. Qed.

Lemma valid_date_iff (y m d : Z) :
  valid_date y m d = true
  <-> (1 <= y <= 9999 /\ 1 <= m <= 12 /\ 1 <= d <= days_in_month y m)%Z.
Proof.
  unfold valid_date. rewrite !andb_true_iff, !Z.leb_le. tauto.
Qed.

(** A day of the year: between 1 and the length of the year. *)
Lemma day_of_year_range (y m d : Z) :
  (1 <= m <= 12)%Z -> (1 <= d <= days_in_month y m)%Z ->
  (1 <= days_before_month y m + d <= (if is_leap y then 366 else 365))%Z.
Proof.
  intros M D. unfold days_before_month, days_in_month in *.
  destruct (month_cases m M) as [->|[->|[->|[->|[->|[->|[->|[->|[->|[->|[->| ->]]]]]]]]]]];
    cbn -[Z.add Z.sub Z.le] in *; destruct (is_leap y); cbn -[Z.add Z.sub Z.le] in *; lia.
Qed.

Lemma days_before_year_mono (a b : Z) :
  (a <= b)%Z -> (days_before_year a <= days_before_year b)%Z.
Proof.
  intros H. unfold days_before_year. cbn zeta. Z.div_mod_to_equations. lia.
Qed.

Lemma days_before_year_1 : days_before_year 1 = 0%Z.
Proof. reflexivity. Qed.

Lemma days_before_year_10000 : days_before_year 10000 = _MAXORDINAL.
Proof. reflexivity. Qed.

Lemma toordinal_range (d : date) :
  valid_date (year d) (month d) (day d) = true ->
  (days_before_year (year d) < toordinal d <= days_before_year (year d + 1))%Z
  /\ (1 <= toordinal d <= _MAXORDINAL)%Z.
Proof.
  intros V. apply valid_date_iff in V. destruct V as (Y & M & D).
  pose proof (day_of_year_range _ _ _ M D) as R.
  pose proof (days_before_year_succ (year d)) as S.
  pose proof (days_before_year_mono 1 (year d) ltac:(lia)) as L.
  pose proof (days_before_year_mono (year d + 1) 10000 ltac:(lia)) as U.
  rewrite days_before_year_1 in L. rewrite days_before_year_10000 in U.
  unfold toordinal. destruct (is_leap (year d)); lia.
Qed.

Lemma days_in_month_table (y m : Z) :
  (1 <= m <= 12)%Z ->
  days_in_month y m
  = (_DAYS_IN_MONTH m + (if (m =? 2)%Z && is_leap y then 1 else 0))%Z.
Proof.
  intros M. unfold days_in_month.
  destruct (month_cases m M) as [->|[->|[->|[->|[->|[->|[->|[->|[->|[->|[->| ->]]]]]]]]]]];
    cbn; destruct (is_leap y); reflexivity.
Qed.

(** The month and day of a day of the year, checked on every day. *)
Lemma month_day_table (leapyear : bool) :
  forallb (fun k =>
             let n := Z.of_nat k in
             let '(m, d) := month_day leapyear n in
             ((1 <=? m) && (m <=? 12) && (1 <=? d)
              && (d <=? _DAYS_IN_MONTH m + (if (m =? 2) && leapyear then 1 else 0))
              && (_DAYS_BEFORE_MONTH m + (if (2 <? m) && leapyear then 1 else 0) + d
                  =? n + 1))%Z)
          (seq 0 (if leapyear then 366 else 365)) = true.
Proof. destruct leapyear; vm_compute; reflexivity. Qed.

Lemma month_day_spec (leapyear : bool) (n : Z) :
  (0 <= n < (if leapyear then 366 else 365))%Z ->
  let '(m, d) := month_day leapyear n in
  (1 <= m <= 12)%Z
  /\ (1 <= d <= _DAYS_IN_MONTH m + (if (m =? 2)%Z && leapyear then 1 else 0))%Z
  /\ (_DAYS_BEFORE_MONTH m + (if (2 <? m)%Z && leapyear then 1 else 0) + d = n + 1)%Z.
Proof.
  intros R. pose proof (month_day_table leapyear) as T.
  rewrite forallb_forall in T. specialize (T (Z.to_nat n)).
  rewrite Z2Nat.id in T by lia. cbn zeta in T.
  destruct (month_day leapyear n) as [m d].
  assert (I : In (Z.to_nat n) (seq 0 (if leapyear then 366 else 365))).
  { apply in_seq. destruct leapyear; lia. }
  specialize (T I). rewrite !andb_true_iff, !Z.leb_le, Z.eqb_eq in T. lia.
Qed.

(** [fromordinal] gives the date of the ordinal. *)
Lemma fromordinal_spec (n : Z) :
  (1 <= n)%Z ->
  let d := fromordinal n in
  toordinal d = n
  /\ (1 <= year d)%Z /\ (1 <= month d <= 12)%Z
  /\ (1 <= day d <= days_in_month (year d) (month d))%Z.
Proof.
  intros N. unfold fromordinal.
  pose proof (Z.div_mod (n - 1) 146097 ltac:(lia)) as E400.
  pose proof (Z.mod_pos_bound (n - 1) 146097 ltac:(lia)) as B400.
  assert (Q400 : (0 <= (n - 1) / 146097)%Z) by (apply Z.div_pos; lia).
  set (n400 := ((n - 1) / 146097)%Z) in *. set (r400 := ((n - 1) mod 146097)%Z) in *.
  pose proof (Z.div_mod r400 36524 ltac:(lia)) as E100.
  pose proof (Z.mod_pos_bound r400 36524 ltac:(lia)) as B100.
  set (n100 := (r400 / 36524)%Z) in *. set (r100 := (r400 mod 36524)%Z) in *.
  pose proof (Z.div_mod r100 1461 ltac:(lia)) as E4.
  pose proof (Z.mod_pos_bound r100 1461 ltac:(lia)) as B4.
  set (n4 := (r100 / 1461)%Z) in *. set (r4 := (r100 mod 1461)%Z) in *.
  pose proof (Z.div_mod r4 365 ltac:(lia)) as E1.
  pose proof (Z.mod_pos_bound r4 365 ltac:(lia)) as B1.
  set (n1 := (r4 / 365)%Z) in *. set (r := (r4 mod 365)%Z) in *.
  clearbody n400 r400 n100 r100 n4 r4 n1 r.
  cbn zeta.
  destruct ((n1 =? 4) || (n100 =? 4))%Z eqn:Last.
  - cbn [year month day].
    set (y := (n400 * 400 + 1 + n100 * 100 + n4 * 4 + n1 - 1)%Z).
    assert (Y : (1 <= y)%Z) by (unfold y; apply orb_true_iff in Last; lia).
    split; [|split; [exact Y|]]; [|cbn; lia].
    unfold toordinal, days_before_month. cbn [year month day].
    change (_DAYS_BEFORE_MONTH 12) with 334%Z. change (2 <? 12)%Z with true.
    cbn [andb].
    pose proof (days_before_year_succ y) as S.
    assert (D : days_before_year (y + 1) = n).
    { unfold days_before_year, y. cbn zeta. apply orb_true_iff in Last.
      rewrite !Z.eqb_eq in Last. Z.div_mod_to_equations. lia. }
    destruct (is_leap y); lia.
  - apply orb_false_iff in Last. destruct Last as [L1 L100].
    apply Z.eqb_neq in L1, L100.
    set (y := (n400 * 400 + 1 + n100 * 100 + n4 * 4 + n1)%Z).
    set (leapyear := ((n1 =? 3) && (negb (n4 =? 24) || (n100 =? 3)))%Z).
    assert (Lp : is_leap y = leapyear).
    { unfold leapyear.
      destruct (is_leap_cases y) as [[-> H]|[-> H]]; symmetry; unfold y in H;
        destruct (Z.eqb_spec n1 3), (Z.eqb_spec n4 24), (Z.eqb_spec n100 3); cbn;
        try reflexivity; exfalso; Z.div_mod_to_equations; lia. }
    pose proof (month_day_spec leapyear r) as MD.
    destruct (month_day leapyear r) as [m d]. cbn [year month day].
    assert (R : (0 <= r < (if leapyear then 366 else 365))%Z)
      by (destruct leapyear; lia).
    destruct (MD R) as (M & D & T).
    split; [|split; [unfold y; lia|split; [exact M|]]].
    + unfold toordinal, days_before_month. cbn [year month day]. rewrite Lp.
      assert (DY : days_before_year y = (n - 1 - r)%Z).
      { unfold days_before_year, y. cbn zeta. Z.div_mod_to_equations. lia. }
      lia.
    + rewrite (days_in_month_table _ _ M), Lp. exact D.
Qed.

(** ** ISO weeks *)

(** The first ISO week starts on a Monday, at most three days before or
    after January 1st. *)
Lemma isoweek1monday_spec (y : Z) :
  ((isoweek1monday y + 6) mod 7 = 0)%Z
  /\ (days_before_year y - 2 <= isoweek1monday y <= days_before_year y + 4)%Z.
Proof.
  unfold isoweek1monday. cbn zeta.
  generalize (days_before_year y). intros b.
  destruct (Z.ltb_spec 3 ((b + 1 + 6) mod 7)); Z.div_mod_to_equations; lia.
Qed.

Lemma isoweek1monday_1 : isoweek1monday 1 = 1%Z.
Proof. reflexivity. Qed.

Lemma isoweek1monday_10000 : isoweek1monday 10000 = 3652062%Z.
Proof. reflexivity. Qed.

(** [isocalendar]: the date is the weekday [wd] of week [w] of ISO year
    [y], counted from the Monday of that year's first week. *)
Lemma isocalendar_spec (d : date) :
  valid_date (year d) (month d) (day d) = true ->
  let '(y, w, wd) := isocalendar d in
  toordinal d = (isoweek1monday y + 7 * (w - 1) + (wd - 1))%Z
  /\ (wd - 1)%Z = weekday d
  /\ (1 <= w <= 53)%Z /\ (1 <= y <= 9999)%Z.
Proof.
  intros V. pose proof (toordinal_range d V) as (T & R).
  apply valid_date_iff in V. destruct V as (Y & _ & _).
  unfold isocalendar, weekday. cbn zeta.
  pose proof (isoweek1monday_spec (year d)) as (M0 & B0).
  pose proof (isoweek1monday_spec (year d - 1)) as (Mp & Bp).
  pose proof (isoweek1monday_spec (year d + 1)) as (Mn & Bn).
  pose proof (days_before_year_succ (year d)) as S0.
  pose proof (days_before_year_succ (year d - 1)) as Sp.
  replace (year d - 1 + 1)%Z with (year d) in Sp by lia.
  assert (L0 : (365 <= days_before_year (year d + 1) - days_before_year (year d) <= 366)%Z)
    by (destruct (is_leap (year d)); lia).
  assert (Lp : (365 <= days_before_year (year d) - days_before_year (year d - 1) <= 366)%Z)
    by (destruct (is_leap (year d - 1)); lia).
  clear S0 Sp.
  assert (First : year d = 1%Z -> isoweek1monday (year d) = 1%Z)
    by (intros ->; reflexivity).
  assert (Last : year d = 9999%Z -> isoweek1monday (year d + 1) = 3652062%Z)
    by (intros ->; reflexivity).
  unfold _MAXORDINAL in R.
  set (m0 := isoweek1monday (year d)) in *.
  set (mp := isoweek1monday (year d - 1)) in *.
  set (mn := isoweek1monday (year d + 1)) in *.
  set (b0 := days_before_year (year d)) in *.
  set (bp := days_before_year (year d - 1)) in *.
  set (bn := days_before_year (year d + 1)) in *.
  set (t := toordinal d) in *.
  set (y := year d) in *.
  destruct (Z.ltb_spec ((t - m0) / 7) 0).
  - fold mp. clearbody m0 mp mn b0 bp bn t y. Z.div_mod_to_equations. lia.
  - destruct (Z.leb_spec 52 ((t - m0) / 7)); cbn [andb].
    + destruct (Z.leb_spec mn t).
      * fold mn. clearbody m0 mp mn b0 bp bn t y. Z.div_mod_to_equations. lia.
      * fold m0. clearbody m0 mp mn b0 bp bn t y. Z.div_mod_to_equations. lia.
    + fold m0. clearbody m0 mp mn b0 bp bn t y. Z.div_mod_to_equations. lia.
Qed.

Lemma fromordinal_valid (n : Z) :
  (1 <= n <= _MAXORDINAL)%Z ->
  toordinal (fromordinal n) = n
  /\ valid_date (year (fromordinal n)) (month (fromordinal n)) (day (fromordinal n))
     = true.
Proof.
  intros [L U]. destruct (fromordinal_spec n L) as (T & Y & M & D).
  split; [exact T|]. apply valid_date_iff. split; [|tauto]. split; [exact Y|].
  destruct (Z.le_gt_cases (year (fromordinal n)) 9999) as [H|H]; [exact H|exfalso].
  pose proof (days_before_year_mono 10000 (year (fromordinal n)) ltac:(lia)) as B.
  rewrite days_before_year_10000 in B.
  pose proof (day_of_year_range _ _ _ M D) as R.
  unfold toordinal in T. lia.
Qed.

(** January 4th lies in the first ISO week of its year. *)
Lemma jan4_week (y : Z) :
  (1 <= y <= 9999)%Z ->
  let jan4 := {| year := y; month := 1; day := 4 |} in
  new_date y 1 4 = Returns jan4
  /\ snd (fst (isocalendar jan4)) = 1%Z
  /\ (toordinal jan4 - weekday jan4)%Z = isoweek1monday y.
Proof.
  intros Y jan4.
  assert (V : valid_date y 1 4 = true) by (apply valid_date_iff; cbn; lia).
  split; [unfold new_date; rewrite V; reflexivity|].
  pose proof (isoweek1monday_spec y) as (M & B).
  assert (T : toordinal jan4 = (days_before_year y + 4)%Z).
  { unfold toordinal, days_before_month. cbn. lia. }
  unfold isocalendar, weekday. cbn zeta. rewrite T. change (year jan4) with y.
  set (b := days_before_year y) in *. set (m := isoweek1monday y) in *.
  destruct (Z.ltb_spec ((b + 4 - m) / 7) 0).
  - exfalso. clearbody b m. Z.div_mod_to_equations. lia.
  - destruct (Z.leb_spec 52 ((b + 4 - m) / 7)).
    + exfalso. clearbody b m. Z.div_mod_to_equations. lia.
    + cbn [andb fst snd]. clearbody b m. Z.div_mod_to_equations. lia.
Qed.

(** [week_range]: a [ValueError] for a year that no date has; otherwise
    the Monday that starts the week and the Friday four days later, or an
    [OverflowError] when one of them is no date. *)
Lemma week_range_spec (kw_number kw_year : Z) :
  week_range kw_number kw_year =
  if ((1 <=? kw_year) && (kw_year <=? 9999))%Z then
    let monday := (isoweek1monday kw_year + 7 * (kw_number - 1))%Z in
    if ((1 <=? monday) && (monday + 4 <=? _MAXORDINAL))%Z
    then Returns (fromordinal monday, fromordinal (monday + 4))
    else Raises OverflowError
  else Raises ValueError.
Proof.
  unfold week_range.
  destruct ((1 <=? kw_year) && (kw_year <=? 9999))%Z eqn:Y.
  - apply andb_true_iff in Y. rewrite !Z.leb_le in Y.
    destruct (jan4_week kw_year Y) as (-> & W & M). cbn [and_then].
    rewrite W. cbn zeta. set (jan4 := {| year := kw_year; month := 1; day := 4 |}) in *.
    assert (WD : (0 <= weekday jan4 < 7)%Z) by (apply Z.mod_pos_bound; lia).
    assert (J : (1 <= toordinal jan4 <= _MAXORDINAL)%Z).
    { apply toordinal_range. apply valid_date_iff. cbn. lia. }
    unfold _MAXORDINAL in *.
    unfold timedelta at 1.
    destruct (Z.ltb_spec 999999999 (Z.abs (- weekday jan4 + (kw_number - 1) * 7))).
    + cbn [and_then].
      destruct (Z.leb_spec 1 (isoweek1monday kw_year + 7 * (kw_number - 1)));
        [|reflexivity].
      destruct (Z.leb_spec (isoweek1monday kw_year + 7 * (kw_number - 1) + 4) 3652059);
        [exfalso; lia | reflexivity].
    + cbn [and_then]. unfold date_add at 1.
      replace (toordinal jan4 + (- weekday jan4 + (kw_number - 1) * 7))%Z
        with (isoweek1monday kw_year + 7 * (kw_number - 1))%Z by lia.
      set (monday := (isoweek1monday kw_year + 7 * (kw_number - 1))%Z) in *.
      unfold _MAXORDINAL.
      destruct (Z.ltb_spec 0 monday), (Z.leb_spec monday 3652059),
        (Z.leb_spec 1 monday), (Z.leb_spec (monday + 4) 3652059);
        cbn [andb and_then]; try reflexivity; try (exfalso; lia).
      * unfold timedelta. cbn [and_then]. change (4 + 0 * 7)%Z with 4%Z.
        change (999999999 <? Z.abs 4)%Z with false. cbn [and_then].
        unfold date_add.
        destruct (fromordinal_valid monday) as (-> & _); [unfold _MAXORDINAL; lia|].
        unfold _MAXORDINAL.
        destruct (Z.ltb_spec 0 (monday + 4)), (Z.leb_spec (monday + 4) 3652059);
          cbn [andb and_then]; try reflexivity; exfalso; lia.
      * unfold timedelta. cbn [and_then]. change (4 + 0 * 7)%Z with 4%Z.
        change (999999999 <? Z.abs 4)%Z with false. cbn [and_then].
        unfold date_add.
        destruct (fromordinal_valid monday) as (-> & _); [unfold _MAXORDINAL; lia|].
        unfold _MAXORDINAL.
        destruct (Z.ltb_spec 0 (monday + 4)), (Z.leb_spec (monday + 4) 3652059);
          cbn [andb and_then]; try reflexivity; exfalso; lia.
  - unfold new_date, valid_date. rewrite Y. reflexivity.
Qed.

(** The week of a date: the Monday on or before it, and the Friday. *)
Lemma week_of_date (d : date) :
  valid_date (year d) (month d) (day d) = true ->
  let monday := (toordinal d - weekday d)%Z in
  week_range (snd (fst (isocalendar d))) (fst (fst (isocalendar d)))
  = Returns (fromordinal monday, fromordinal (monday + 4))
  /\ (1 <= monday)%Z /\ (monday + 4 <= _MAXORDINAL)%Z.
Proof.
  intros V monday. pose proof (isocalendar_spec d V) as S.
  pose proof (toordinal_range d V) as (_ & R).
  destruct (isocalendar d) as [[y w] wd]. cbn [fst snd].
  destruct S as (T & WD & W & Y).
  assert (M : monday = (isoweek1monday y + 7 * (w - 1))%Z) by (unfold monday; lia).
  assert (B : (1 <= monday)%Z /\ (monday + 4 <= _MAXORDINAL)%Z).
  { unfold monday, weekday, _MAXORDINAL in *. Z.div_mod_to_equations. lia. }
  split; [|exact B].
  rewrite week_range_spec. cbn zeta. rewrite <- M.
  destruct (Z.leb_spec 1 y), (Z.leb_spec y 9999); try lia. cbn [andb].
  destruct (Z.leb_spec 1 monday), (Z.leb_spec (monday + 4) _MAXORDINAL); try lia.
  reflexivity.
Qed.

(** The week of [isocalendar] starts within its ISO year. *)
Lemma isocalendar_week_bound (d : date) :
  valid_date (year d) (month d) (day d) = true ->
  let '(y, w, wd) := isocalendar d in
  (isoweek1monday y + 7 * (w - 1) < isoweek1monday (y + 1))%Z.
Proof.
  intros V. pose proof (toordinal_range d V) as (T & R).
  unfold isocalendar. cbn zeta.
  pose proof (isoweek1monday_spec (year d)) as (M0 & B0).
  pose proof (isoweek1monday_spec (year d - 1)) as (Mp & Bp).
  pose proof (isoweek1monday_spec (year d + 1)) as (Mn & Bn).
  pose proof (isoweek1monday_spec (year d + 1 + 1)) as (Mnn & Bnn).
  pose proof (days_before_year_succ (year d)) as S0.
  pose proof (days_before_year_succ (year d + 1)) as Sn.
  pose proof (days_before_year_succ (year d - 1)) as Sp.
  replace (year d - 1 + 1)%Z with (year d) in * by lia.
  assert (L0 : (365 <= days_before_year (year d + 1) - days_before_year (year d) <= 366)%Z)
    by (destruct (is_leap (year d)); lia).
  assert (Ln : (365 <= days_before_year (year d + 1 + 1)
                       - days_before_year (year d + 1) <= 366)%Z)
    by (destruct (is_leap (year d + 1)); lia).
  assert (Lp : (365 <= days_before_year (year d) - days_before_year (year d - 1) <= 366)%Z)
    by (destruct (is_leap (year d - 1)); lia).
  clear S0 Sp Sn.
  set (m0 := isoweek1monday (year d)) in *.
  set (mp := isoweek1monday (year d - 1)) in *.
  set (mn := isoweek1monday (year d + 1)) in *.
  set (mnn := isoweek1monday (year d + 1 + 1)) in *.
  set (b0 := days_before_year (year d)) in *.
  set (bp := days_before_year (year d - 1)) in *.
  set (bn := days_before_year (year d + 1)) in *.
  set (bnn := days_before_year (year d + 1 + 1)) in *.
  set (t := toordinal d) in *.
  set (y := year d) in *.
  destruct (Z.ltb_spec ((t - m0) / 7) 0).
  - replace (y - 1 + 1)%Z with y by lia. fold mp m0.
    clearbody m0 mp mn mnn b0 bp bn bnn t y. Z.div_mod_to_equations. lia.
  - destruct (Z.leb_spec 52 ((t - m0) / 7)); cbn [andb].
    + destruct (Z.leb_spec mn t).
      * fold mn mnn. clearbody m0 mp mn mnn b0 bp bn bnn t y.
        Z.div_mod_to_equations. lia.
      * fold m0 mn. clearbody m0 mp mn mnn b0 bp bn bnn t y.
        Z.div_mod_to_equations. lia.
    + fold m0 mn. clearbody m0 mp mn mnn b0 bp bn bnn t y. Z.div_mod_to_equations. lia.
Qed.

Lemma days_before_year_gap (a b : Z) :
  (a <= b)%Z -> (days_before_year a + 365 * (b - a) <= days_before_year b)%Z.
Proof.
  intros H. unfold days_before_year. cbn zeta. Z.div_mod_to_equations. lia.
Qed.

Lemma isoweek1monday_mono (a b : Z) :
  (a <= b)%Z -> (isoweek1monday a <= isoweek1monday b)%Z.
Proof.
  intros H. destruct (Z.eq_dec a b) as [->|N]; [lia|].
  pose proof (isoweek1monday_spec a) as (_ & A).
  pose proof (isoweek1monday_spec b) as (_ & B).
  pose proof (days_before_year_gap a b H). lia.
Qed.

(** The ISO year and week of a date are those of its Monday alone. *)
Lemma isocalendar_monday (d e : date) :
  valid_date (year d) (month d) (day d) = true ->
  valid_date (year e) (month e) (day e) = true ->
  (toordinal d - weekday d = toordinal e - weekday e)%Z ->
  fst (isocalendar d) = fst (isocalendar e).
Proof.
  intros VD VE M.
  pose proof (isocalendar_spec d VD) as SD. pose proof (isocalendar_spec e VE) as SE.
  pose proof (isocalendar_week_bound d VD) as BD.
  pose proof (isocalendar_week_bound e VE) as BE.
  destruct (isocalendar d) as [[y w] wd]. destruct (isocalendar e) as [[y' w'] wd'].
  cbn [fst]. destruct SD as (TD & WD & RD & _). destruct SE as (TE & WE & RE & _).
  assert (Y : y = y').
  { destruct (Z.lt_trichotomy y y') as [L|[E|L]]; [exfalso|exact E|exfalso].
    - pose proof (isoweek1monday_mono (y + 1) y' ltac:(lia)). lia.
    - pose proof (isoweek1monday_mono (y' + 1) y ltac:(lia)). lia. }
  subst y'. f_equal. lia.
Qed.

(** ** The order of strings *)

Lemma ascii_compare_lt_trans (a b c : ascii) :
  Ascii.compare a b = Lt -> Ascii.compare b c = Lt -> Ascii.compare a c = Lt.
Proof.
  unfold Ascii.compare. rewrite !N.compare_lt_iff. lia.
Qed.

Lemma string_compare_lt_trans (a b c : string) :
  String.compare a b = Lt -> String.compare b c = Lt -> String.compare a c = Lt.
Proof.
  revert b c. induction a as [|x a IH]; intros [|y b] [|z c]; cbn; try congruence.
  destruct (Ascii.compare x y) eqn:XY; try discriminate;
    destruct (Ascii.compare y z) eqn:YZ; try discriminate; intros H1 H2.
  - apply Ascii.compare_eq_iff in XY, YZ. subst.
    replace (Ascii.compare z z) with Eq; [eauto|].
    symmetry. unfold Ascii.compare. apply N.compare_refl.
  - apply Ascii.compare_eq_iff in XY. subst. rewrite YZ. reflexivity.
  - apply Ascii.compare_eq_iff in YZ. subst. rewrite XY. reflexivity.
  - rewrite (ascii_compare_lt_trans _ _ _ XY YZ). reflexivity.
Qed.

Lemma string_compare_refl (a : string) : String.compare a a = Eq.
Proof.
  induction a as [|x a IH]; cbn; [reflexivity|].
  replace (Ascii.compare x x) with Eq; [exact IH|].
  symmetry. unfold Ascii.compare. apply N.compare_refl.
Qed.

Lemma string_leb_iff (a b : string) :
  String.leb a b = true <-> String.ltb a b = true \/ a = b.
Proof.
  unfold String.leb, String.ltb. destruct (String.compare a b) eqn:C.
  - apply String.compare_eq_iff in C. tauto.
  - tauto.
  - split; [discriminate|]. intros [H| ->]; [discriminate|].
    rewrite string_compare_refl in C. discriminate.
Qed.

Lemma string_ltb_trans (a b c : string) :
  String.ltb a b = true -> String.ltb b c = true -> String.ltb a c = true.
Proof.
  unfold String.ltb.
  destruct (String.compare a b) eqn:AB; try discriminate.
  destruct (String.compare b c) eqn:BC; try discriminate.
  rewrite (string_compare_lt_trans _ _ _ AB BC). reflexivity.
Qed.

Lemma string_leb_trans (a b c : string) :
  String.leb a b = true -> String.leb b c = true -> String.leb a c = true.
Proof.
  rewrite !string_leb_iff. intros [H1| ->] [H2| ->]; auto.
  left. eapply string_ltb_trans; eassumption.
Qed.

Lemma string_ltb_irrefl (a : string) : String.ltb a a = false.
Proof. unfold String.ltb. rewrite string_compare_refl. reflexivity. Qed.

(** ** Sorting the items of a dict *)

Section Items.
Context {V : Type}.
Implicit Types (x y : string * V) (l : list (string * V)).

Lemma insert_item_perm x l : Permutation (insert_item x l) (x :: l).
Proof.
  induction l as [|y l IH]; cbn; [reflexivity|].
  destruct (String.leb (fst x) (fst y)); [reflexivity|].
  rewrite IH. apply perm_swap.
Qed.

Lemma sorted_items_perm l : Permutation (sorted_items l) l.
Proof.
  induction l as [|x l IH]; cbn; [reflexivity|].
  rewrite insert_item_perm. constructor. exact IH.
Qed.

Lemma insert_item_sorted x l :
  StronglySorted key_le l -> StronglySorted key_le (insert_item x l).
Proof.
  induction 1 as [|y l S IH F]; cbn; [repeat constructor|].
  destruct (String.leb (fst x) (fst y)) eqn:E.
  - constructor; [constructor; assumption|].
    constructor; [exact E|].
    eapply Forall_impl; [|exact F]. intros z Z. unfold key_le in *.
    eapply string_leb_trans; eassumption.
  - constructor; [exact IH|].
    assert (P : Forall (key_le y) (x :: l)).
    { constructor; [|exact F]. unfold key_le.
      destruct (String.leb_total (fst x) (fst y)); congruence. }
    rewrite Forall_forall in *. intros z Z. apply P.
    apply (Permutation_in _ (insert_item_perm x l)). exact Z.
Qed.

Lemma sorted_items_sorted l : StronglySorted key_le (sorted_items l).
Proof.
  induction l as [|x l IH]; cbn; [constructor|]. apply insert_item_sorted, IH.
Qed.

(** With keys that differ, the order is strict. *)
Lemma sorted_strict l :
  NoDup (map fst l) -> StronglySorted key_le l -> StronglySorted key_lt l.
Proof.
  intros N S. induction S as [|x l S IH F]; [constructor|].
  inversion N as [|k ks NI N']; subst. constructor; [auto|].
  rewrite Forall_forall in *. intros y Y. specialize (F y Y).
  unfold key_le, key_lt in *. apply string_leb_iff in F. destruct F as [F|F]; [exact F|].
  exfalso. apply NI. rewrite F. apply in_map, Y.
Qed.

(** Sorting what is sorted changes nothing. *)
Lemma insert_item_head x l :
  Forall (key_le x) l -> insert_item x l = x :: l.
Proof.
  intros F. destruct l as [|y l]; [reflexivity|]. cbn.
  inversion F as [|? ? H _]; subst. unfold key_le in H. rewrite H. reflexivity.
Qed.

Lemma sorted_items_idem l : StronglySorted key_le l -> sorted_items l = l.
Proof.
  unfold sorted_items. induction 1 as [|x l S IH F]; cbn [fold_right]; [reflexivity|].
  rewrite IH. apply insert_item_head, F.
Qed.

(** Lookup in a dict whose keys differ. *)
Lemma dict_get_In l (k : string) (v : V) :
  NoDup (map fst l) -> (dict_get String.eqb l k = Some v <-> In (k, v) l).
Proof.
  induction l as [|[k' v'] l IH]; cbn; intros N.
  - split; [discriminate | intros []].
  - inversion N as [|? ? NI N']; subst. destruct (String.eqb k' k) eqn:E.
    + apply String.eqb_eq in E. subst k'. split.
      * intros H. inversion H. auto.
      * intros [H|H]; [inversion H; reflexivity|].
        exfalso. apply NI. change k with (fst (k, v)). apply in_map, H.
    + rewrite (IH N'). split; [auto|]. intros [H|H]; [|exact H].
      inversion H; subst. rewrite String.eqb_refl in E. discriminate.
Qed.

Lemma dict_get_perm l l' (k : string) :
  NoDup (map fst l) -> Permutation l l' ->
  dict_get String.eqb l' k = dict_get String.eqb l k.
Proof.
  intros N P.
  assert (N' : NoDup (map fst l')).
  { eapply Permutation_NoDup; [|exact N]. apply Permutation_map, P. }
  destruct (dict_get String.eqb l k) as [v|] eqn:G.
  - apply (dict_get_In _ _ _ N) in G. apply (dict_get_In _ _ _ N').
    eapply Permutation_in; eassumption.
  - destruct (dict_get String.eqb l' k) as [v|] eqn:G'; [|reflexivity].
    apply (dict_get_In _ _ _ N') in G'.
    apply (Permutation_in _ (Permutation_sym P)) in G'.
    apply (dict_get_In _ _ _ N) in G'. congruence.
Qed.

Lemma dict_set_keys l (k : string) (v : V) :
  map fst (dict_set String.eqb l k v)
  = if dict_mem String.eqb l k then map fst l else map fst l ++ [k].
Proof.
  unfold dict_mem. induction l as [|[k' v'] l IH]; cbn; [reflexivity|].
  destruct (String.eqb k' k) eqn:E; cbn; [reflexivity|].
  rewrite IH. destruct (dict_get String.eqb l k); reflexivity.
Qed.

Lemma dict_get_none l (k : string) :
  dict_get String.eqb l k = None <-> ~ In k (map fst l).
Proof.
  induction l as [|[k' v'] l IH]; cbn; [tauto|].
  destruct (String.eqb k' k) eqn:E.
  - apply String.eqb_eq in E. split; [discriminate | tauto].
  - rewrite IH. split; [|tauto]. intros H [X|X]; [|tauto].
    subst. rewrite String.eqb_refl in E. discriminate.
Qed.

Lemma dict_set_nodup l (k : string) (v : V) :
  NoDup (map fst l) -> NoDup (map fst (dict_set String.eqb l k v)).
Proof.
  intros N. rewrite dict_set_keys. unfold dict_mem.
  destruct (dict_get String.eqb l k) eqn:G; [exact N|].
  apply dict_get_none in G. apply NoDup_app; [exact N | repeat constructor; auto |].
  intros x X [<-|[]]. contradiction.
Qed.
End Items.

(** ** Grouping by calendar week *)

Lemma members_of_app (key : string) (a b : list Lerntag) :
  members_of key (a ++ b) = members_of key a ++ members_of key b.
Proof. apply filter_app. Qed.

Lemma add_to_group_inv (groups : list (string * list Lerntag))
    (seen : list Lerntag) (lt : Lerntag) :
  NoDup (map fst groups) ->
  (forall k, dict_get String.eqb groups k = group_of k seen) ->
  NoDup (map fst (add_to_group groups lt))
  /\ forall k, dict_get String.eqb (add_to_group groups lt) k = group_of k (seen ++ [lt]).
Proof.
  intros N I. unfold add_to_group. split; [apply dict_set_nodup, N|].
  intros k. unfold group_of. rewrite members_of_app. cbn [members_of filter].
  destruct (String.eqb (year_week lt) k) eqn:E.
  - apply String.eqb_eq in E. subst k.
    rewrite (dict_get_set_same _ String.eqb_eq), I. unfold group_of.
    destruct (members_of (year_week lt) seen) as [|m ms]; reflexivity.
  - rewrite (dict_get_set_other _ String.eqb_eq).
    + rewrite I, app_nil_r. reflexivity.
    + intros X. rewrite X, String.eqb_refl in E. discriminate.
Qed.

Lemma groups_fold (lerntage seen : list Lerntag) (groups : list (string * list Lerntag)) :
  NoDup (map fst groups) ->
  (forall k, dict_get String.eqb groups k = group_of k seen) ->
  NoDup (map fst (fold_left add_to_group lerntage groups))
  /\ forall k, dict_get String.eqb (fold_left add_to_group lerntage groups) k
               = group_of k (seen ++ lerntage).
Proof.
  revert seen groups. induction lerntage as [|lt l IH]; intros seen groups N I.
  - cbn. rewrite app_nil_r. auto.
  - cbn [fold_left]. destruct (add_to_group_inv groups seen lt N I) as (N' & I').
    destruct (IH _ _ N' I') as (N2 & I2). split; [exact N2|].
    intros k. rewrite I2, <- app_assoc. reflexivity.
Qed.

Lemma group_by_calendar_week_facts (lerntage : list Lerntag) :
  let groups := group_by_calendar_week lerntage in
  StronglySorted key_lt groups
  /\ NoDup (map fst groups)
  /\ forall key, dict_get String.eqb groups key = group_of key lerntage.
Proof.
  unfold group_by_calendar_week.
  destruct (groups_fold lerntage [] []) as (N & I); [constructor | reflexivity|].
  cbn [app] in I. set (g := fold_left add_to_group lerntage []) in *.
  assert (N' : NoDup (map fst (sorted_items g))).
  { eapply Permutation_NoDup; [|exact N].
    apply Permutation_map, Permutation_sym, sorted_items_perm. }
  split; [apply sorted_strict; [exact N' | apply sorted_items_sorted]|].
  split; [exact N'|]. intros key. rewrite <- I.
  apply dict_get_perm; [exact N|]. apply Permutation_sym, sorted_items_perm.
Qed.

Lemma strict_le {V : Type} (l : list (string * V)) :
  StronglySorted key_lt l -> StronglySorted key_le l.
Proof.
  induction 1 as [|x l S IH F]; constructor; [exact IH|].
  eapply Forall_impl; [|exact F]. intros y Y. apply string_leb_iff. left. exact Y.
Qed.

(** ** The key of a week, written and read back *)

Lemma text_of_cons (c : ascii) (cur : list ascii) (s : string) :
  (text_of (c :: cur) ++ s = text_of cur ++ String c s)%string.
Proof.
  unfold text_of. cbn [rev].
  induction (rev cur) as [|x r IH]; cbn; [reflexivity|]. rewrite IH. reflexivity.
Qed.

Lemma split_digits (cur : list ascii) (s : string) :
  all_chars isdecimal s = true ->
  split_aux "-KW" 0 cur s = [(text_of cur ++ s)%string].
Proof.
  revert cur. induction s as [|c s IH]; intros cur; cbn [split_aux all_chars].
  - intros _. rewrite append_empty. reflexivity.
  - intros H. apply andb_true_iff in H. destruct H as [C S].
    assert (P : String.prefix "-KW" (String c s) = false).
    { cbn. digit_cases c C; reflexivity. }
    rewrite P, (IH _ S), text_of_cons. reflexivity.
Qed.

Lemma split_key (a b : string) :
  all_chars isdecimal a = true -> all_chars isdecimal b = true ->
  split "-KW" (a ++ "-KW" ++ b)%string = [a; b].
Proof.
  intros A B. unfold split.
  assert (T : forall cur, split_aux "-KW" 0 cur ("-KW" ++ b)%string = [text_of cur; b]).
  { intros cur. cbn.
    replace (String.prefix "" b) with true by (destruct b; reflexivity).
    rewrite (split_digits [] b B). reflexivity. }
  revert T. generalize ("-KW" ++ b)%string. intros t T.
  assert (G : forall cur,
            split_aux "-KW" 0 cur (a ++ t)%string = [(text_of cur ++ a)%string; b]).
  { induction a as [|c a IH]; intros cur.
    - cbn [append]. rewrite T, append_empty. reflexivity.
    - cbn [all_chars] in A. apply andb_true_iff in A. destruct A as [C A].
      cbn [append split_aux].
      assert (P : String.prefix "-KW" (String c (a ++ t)%string) = false).
      { cbn. digit_cases c C; reflexivity. }
      rewrite P, (IH A), text_of_cons. reflexivity. }
  rewrite G. reflexivity.
Qed.

(** The decimal text of a year and of a week number: digits only, and
    [int] reads the number back. *)
Lemma str_int_table :
  forallb (fun k =>
             let y := Z.of_nat k in
             all_chars isdecimal (str_int y)
             && match int (str_int y) with
                | Returns n => (n =? y)%Z
                | Raises _ => false
                end)
          (seq 0 (Z.to_nat 10000)) = true.
Proof. vm_compute. reflexivity. Qed.

Lemma format_02d_table :
  forallb (fun k =>
             let w := Z.of_nat k in
             all_chars isdecimal (format_02d w)
             && (String.length (format_02d w) =? 2)%nat
             && match int (format_02d w) with
                | Returns n => (n =? w)%Z
                | Raises _ => false
                end)
          (seq 0 100) = true.
Proof. vm_compute. reflexivity. Qed.

Lemma str_int_read (y : Z) :
  (0 <= y <= 9999)%Z ->
  all_chars isdecimal (str_int y) = true /\ int (str_int y) = Returns y.
Proof.
  intros R. pose proof str_int_table as T. rewrite forallb_forall in T.
  specialize (T (Z.to_nat y)). rewrite Z2Nat.id in T by lia. cbn zeta in T.
  assert (I : In (Z.to_nat y) (seq 0 (Z.to_nat 10000))) by (apply in_seq; lia).
  specialize (T I). apply andb_true_iff in T. destruct T as [D N].
  split; [exact D|]. destruct (int (str_int y)) as [n|]; [|discriminate].
  apply Z.eqb_eq in N. subst. reflexivity.
Qed.

Lemma format_02d_read (w : Z) :
  (0 <= w <= 99)%Z ->
  all_chars isdecimal (format_02d w) = true /\ int (format_02d w) = Returns w.
Proof.
  intros R. pose proof format_02d_table as T. rewrite forallb_forall in T.
  specialize (T (Z.to_nat w)). rewrite Z2Nat.id in T by lia. cbn zeta in T.
  assert (I : In (Z.to_nat w) (seq 0 100)) by (apply in_seq; lia).
  specialize (T I). rewrite !andb_true_iff in T. destruct T as [[D _] N].
  split; [exact D|]. destruct (int (format_02d w)) as [n|]; [|discriminate].
  apply Z.eqb_eq in N. subst. reflexivity.
Qed.

(** ** Cells *)

Lemma range_S (n : nat) : range (S n) = range n ++ [Z.of_nat n].
Proof. unfold range. rewrite seq_S, map_app. reflexivity. Qed.

Lemma cell_set (ws : worksheet) (row column : Z) (v : value) (r c : Z) :
  cell (set_cell ws row column v) r c
  = if ((r =? row) && (c =? column))%Z then v else cell ws r c.
Proof. reflexivity. Qed.

(** The inner loop of [_clear_data_cells] on one block. *)
Lemma clear_rows (first_row : Z) (n : nat) (ws : worksheet) :
  let ws' := fold_left (clear_row first_row) (range n) ws in
  (forall r c,
     cell ws' r c
     = if ((first_row <=? r) && (r <? first_row + Z.of_nat n)
           && ((c =? 2) || (c =? 10)))%Z
       then Empty else cell ws r c)
  /\ (forall r,
        height ws' r
        = if ((first_row <=? r) && (r <? first_row + Z.of_nat n))%Z
          then None else height ws r)
  /\ title ws' = title ws.
Proof.
  induction n as [|n IH].
  - cbn. split; [|split; [|reflexivity]]; intros r; intros;
      destruct (Z.leb_spec first_row r), (Z.ltb_spec r (first_row + 0)); cbn;
      try reflexivity; lia.
  - rewrite range_S, fold_left_app. cbn [fold_left].
    destruct IH as (C & H & T). set (w := fold_left _ (range n) ws) in *.
    unfold clear_row. unfold _CONTENT_COL, _HOURS_COL.
    split; [|split].
    + intros r c. cbn [cell set_height]. rewrite !cell_set, C.
      destruct (Z.eqb_spec r (first_row + Z.of_nat n)), (Z.eqb_spec c 10),
        (Z.eqb_spec c 2), (Z.leb_spec first_row r),
        (Z.ltb_spec r (first_row + Z.of_nat n)),
        (Z.ltb_spec r (first_row + Z.of_nat (S n))); cbn; try reflexivity; lia.
    + intros r. cbn [height set_height set_cell]. rewrite H.
      destruct (Z.eqb_spec r (first_row + Z.of_nat n)), (Z.leb_spec first_row r),
        (Z.ltb_spec r (first_row + Z.of_nat n)),
        (Z.ltb_spec r (first_row + Z.of_nat (S n))); cbn; try reflexivity; lia.
    + exact T.
Qed.

Ltac decide_cmp :=
  repeat match goal with
         | |- context [(?a <=? ?b)%Z] =>
             first [ rewrite (proj2 (Z.leb_le a b)) by lia
                   | rewrite (proj2 (Z.leb_gt a b)) by lia ]
         | |- context [(?a <? ?b)%Z] =>
             first [ rewrite (proj2 (Z.ltb_lt a b)) by lia
                   | rewrite (proj2 (Z.ltb_ge a b)) by lia ]
         | |- context [(?a =? ?b)%Z] =>
             first [ rewrite (proj2 (Z.eqb_eq a b)) by lia
                   | rewrite (proj2 (Z.eqb_neq a b)) by lia ]
         end.

(** The rows of the sheet, by the part of the layout they lie in. *)
Lemma row_cases (r : Z) :
  (r < 1 \/ r = 1 \/ r = 2 \/ r = 3 \/ 4 <= r < 15 \/ 15 <= r < 26 \/ 26 <= r < 37
   \/ 37 <= r < 48 \/ 48 <= r < 59 \/ r = 59 \/ 59 < r)%Z.
Proof. lia. Qed.

Lemma column_cases (c : Z) :
  (c = 2 \/ c = 4 \/ c = 6 \/ c = 10 \/ (c <> 2 /\ c <> 4 /\ c <> 6 /\ c <> 10))%Z.
Proof. lia. Qed.

Ltac by_layout r c :=
  destruct (row_cases r) as [?|[?|[?|[?|[?|[?|[?|[?|[?|[?|?]]]]]]]]]];
  destruct (column_cases c) as [?|[?|[?|[?|?]]]];
  decide_cmp; reflexivity.

Ltac by_rows r :=
  destruct (row_cases r) as [?|[?|[?|[?|[?|[?|[?|[?|[?|[?|?]]]]]]]]]];
  decide_cmp; reflexivity.

Lemma height_set_cell (ws : worksheet) (row column : Z) (v : value) :
  height (set_cell ws row column v) = height ws.
Proof. reflexivity. Qed.

Lemma title_set_cell (ws : worksheet) (row column : Z) (v : value) :
  title (set_cell ws row column v) = title ws.
Proof. reflexivity. Qed.

Lemma fold_left_cons {A B : Type} (f : A -> B -> A) (x : B) (l : list B) (a : A) :
  fold_left f (x :: l) a = fold_left f l (f a x).
Proof. reflexivity. Qed.

Lemma fold_left_nil {A B : Type} (f : A -> B -> A) (a : A) : fold_left f [] a = a.
Proof. reflexivity. Qed.

Lemma clear_block (first_row : Z) (ws : worksheet) :
  let ws' := fold_left (clear_row first_row) (range _ROWS_PER_DAY) ws in
  (forall r c,
     cell ws' r c
     = if ((first_row <=? r) && (r <? first_row + 11) && ((c =? 2) || (c =? 10)))%Z
       then Empty else cell ws r c)
  /\ (forall r,
        height ws' r
        = if ((first_row <=? r) && (r <? first_row + 11))%Z then None else height ws r)
  /\ title ws' = title ws.
Proof. exact (clear_rows first_row _ROWS_PER_DAY ws). Qed.

(** The loops of [_clear_data_cells], block after block. *)
Lemma clear_data_cells_eq (ws : worksheet) :
  _clear_data_cells ws
  = set_cell
      (fold_left (clear_row 48) (range _ROWS_PER_DAY)
         (fold_left (clear_row 37) (range _ROWS_PER_DAY)
            (fold_left (clear_row 26) (range _ROWS_PER_DAY)
               (fold_left (clear_row 15) (range _ROWS_PER_DAY)
                  (fold_left (clear_row 4) (range _ROWS_PER_DAY)
                     (set_cell (set_cell (set_cell ws 1 4 Empty) 1 6 Empty)
                        2 6 Empty))))))
      59 10 Empty.
Proof.
  unfold _clear_data_cells, _DAY_FIRST_ROW, _HOURS_COL. cbn [map snd].
  rewrite !fold_left_cons, fold_left_nil. reflexivity.
Qed.

(** [_clear_data_cells]: the data cells are empty, the others as before;
    the rows of the day blocks have no height of their own. *)
Lemma clear_data_cells_spec (ws : worksheet) :
  (forall r c,
     cell (_clear_data_cells ws) r c = if data_cell r c then Empty else cell ws r c)
  /\ (forall r,
        height (_clear_data_cells ws) r
        = if ((4 <=? r) && (r <=? 58))%Z then None else height ws r)
  /\ title (_clear_data_cells ws) = title ws.
Proof.
  rewrite clear_data_cells_eq.
  set (w0 := set_cell (set_cell (set_cell ws 1 4 Empty) 1 6 Empty) 2 6 Empty).
  assert (C0 : forall r c,
            cell w0 r c
            = if ((r =? 2) && (c =? 6))%Z then Empty
              else if ((r =? 1) && (c =? 6))%Z then Empty
              else if ((r =? 1) && (c =? 4))%Z then Empty else cell ws r c)
    by reflexivity.
  assert (H0 : forall r, height w0 r = height ws r) by reflexivity.
  assert (T0 : title w0 = title ws) by reflexivity.
  clearbody w0.
  destruct (clear_block 4 w0) as (C1 & H1 & T1).
  set (w1 := fold_left (clear_row 4) (range _ROWS_PER_DAY) w0) in *. clearbody w1.
  destruct (clear_block 15 w1) as (C2 & H2 & T2).
  set (w2 := fold_left (clear_row 15) (range _ROWS_PER_DAY) w1) in *. clearbody w2.
  destruct (clear_block 26 w2) as (C3 & H3 & T3).
  set (w3 := fold_left (clear_row 26) (range _ROWS_PER_DAY) w2) in *. clearbody w3.
  destruct (clear_block 37 w3) as (C4 & H4 & T4).
  set (w4 := fold_left (clear_row 37) (range _ROWS_PER_DAY) w3) in *. clearbody w4.
  destruct (clear_block 48 w4) as (C5 & H5 & T5).
  set (w5 := fold_left (clear_row 48) (range _ROWS_PER_DAY) w4) in *. clearbody w5.
  split; [|split].
  - intros r c. rewrite cell_set, C5, C4, C3, C2, C1, C0.
    unfold data_cell, header_cell, block_cell, total_cell.
    by_layout r c.
  - intros r. rewrite height_set_cell.
    rewrite H5, H4, H3, H2, H1, H0. by_rows r.
  - rewrite title_set_cell.
    rewrite T5, T4, T3, T2, T1, T0. reflexivity.
Qed.

(** ** Filling the day blocks *)

(** The inner loop of [_fill_sheet] on one block. *)
Lemma fill_rows (es : list Unterrichtseinheit) (first_row : Z) (n : nat)
    (acc : worksheet * Z) :
  let res := fold_left (fill_row es first_row) (range n) acc in
  snd res = (snd acc + Z.of_nat (Nat.min n (List.length es)))%Z
  /\ (forall r c,
        cell (fst res) r c
        = if ((first_row <=? r) && (r <? first_row + Z.of_nat n)
              && ((c =? 2) || (c =? 10)))%Z
          then match nth_error es (Z.to_nat (r - first_row)) with
               | Some e => if (c =? 2)%Z then Text (inhalt e) else Number 1
               | None => cell (fst acc) r c
               end
          else cell (fst acc) r c)
  /\ height (fst res) = height (fst acc)
  /\ title (fst res) = title (fst acc).
Proof.
  destruct acc as [ws t]. cbn [fst snd].
  induction n as [|n IH].
  - cbn [range map seq fold_left fst snd Nat.min Z.of_nat].
    split; [lia|]. split; [|split; reflexivity].
    intros r c.
    destruct (Z.leb_spec first_row r), (Z.ltb_spec r (first_row + 0));
      cbn [andb]; try reflexivity; lia.
  - rewrite range_S, fold_left_app. cbn [fold_left].
    destruct IH as (S & C & H & T).
    destruct (fold_left (fill_row es first_row) (range n) (ws, t)) as [w t'].
    cbn [fst snd] in *. unfold fill_row.
    destruct (Z.ltb_spec (Z.of_nat n) (Z.of_nat (List.length es))) as [L|L].
    + rewrite Nat2Z.id.
      destruct (nth_error es n) as [e|] eqn:E.
      2:{ apply nth_error_None in E. lia. }
      cbn [fst snd]. unfold _CONTENT_COL, _HOURS_COL.
      split; [rewrite S; lia|]. split; [|split; [exact H | exact T]].
      intros r c. rewrite !cell_set, C.
      destruct (Z.eq_dec r (first_row + Z.of_nat n)) as [->|N].
      * replace (first_row + Z.of_nat n - first_row)%Z with (Z.of_nat n) by lia.
        rewrite Nat2Z.id, E.
        destruct (Z.eq_dec c 10) as [->|?]; [decide_cmp; reflexivity|].
        destruct (Z.eq_dec c 2) as [->|?]; decide_cmp; reflexivity.
      * destruct (Z.le_gt_cases first_row r), (Z.lt_ge_cases r (first_row + Z.of_nat n));
          try (exfalso; lia); decide_cmp; reflexivity.
    + cbn [fst snd]. split; [rewrite S; lia|]. split; [|split; [exact H | exact T]].
      intros r c. rewrite C.
      destruct (Z.eq_dec r (first_row + Z.of_nat n)) as [->|N].
      * replace (first_row + Z.of_nat n - first_row)%Z with (Z.of_nat n) by lia.
        rewrite Nat2Z.id.
        destruct (nth_error es n) as [e|] eqn:E.
        { assert (n < List.length es)%nat by (apply nth_error_Some; congruence). lia. }
        decide_cmp. destruct ((c =? 2) || (c =? 10))%Z; reflexivity.
      * destruct (Z.le_gt_cases first_row r), (Z.lt_ge_cases r (first_row + Z.of_nat n));
          try (exfalso; lia); decide_cmp; reflexivity.
Qed.

Lemma fill_day_spec (day_map : list (Z * Lerntag)) (acc : worksheet * Z)
    (day_idx first_row : Z) :
  let res := fill_day day_map acc (day_idx, first_row) in
  snd res = (snd acc + Z.of_nat (filled day_map day_idx))%Z
  /\ (forall r c,
        cell (fst res) r c
        = if ((first_row <=? r) && (r <? first_row + 11) && ((c =? 2) || (c =? 10)))%Z
          then match nth_error (day_units day_map day_idx) (Z.to_nat (r - first_row)) with
               | Some e => if (c =? 2)%Z then Text (inhalt e) else Number 1
               | None => cell (fst acc) r c
               end
          else cell (fst acc) r c)
  /\ height (fst res) = height (fst acc)
  /\ title (fst res) = title (fst acc).
Proof. exact (fill_rows (day_units day_map day_idx) first_row _ROWS_PER_DAY acc). Qed.

(** The unit of a row of a day block. *)
Lemma slot_block (day_map : list (Z * Lerntag)) (i first_row r : Z) :
  first_row = (4 + 11 * i)%Z -> (0 <= i <= 4)%Z ->
  (first_row <= r < first_row + 11)%Z ->
  slot day_map r = nth_error (day_units day_map i) (Z.to_nat (r - first_row)).
Proof.
  intros -> I R. unfold slot.
  assert (D : ((r - 4) / 11 = i)%Z) by (Z.div_mod_to_equations; lia).
  assert (M : ((r - 4) mod 11 = r - (4 + 11 * i))%Z) by (Z.div_mod_to_equations; lia).
  rewrite D, M. decide_cmp. reflexivity.
Qed.

Lemma slot_outside (day_map : list (Z * Lerntag)) (r : Z) :
  (r < 4 \/ 58 < r)%Z -> slot day_map r = None.
Proof. intros [R|R]; unfold slot; decide_cmp; rewrite ?andb_false_r; reflexivity. Qed.

Lemma cell_set_title (ws : worksheet) (t : string) : cell (set_title ws t) = cell ws.
Proof. reflexivity. Qed.

Lemma height_set_title (ws : worksheet) (t : string) : height (set_title ws t) = height ws.
Proof. reflexivity. Qed.

Lemma title_set_title (ws : worksheet) (t : string) : title (set_title ws t) = t.
Proof. reflexivity. Qed.

(** The loop of [write_sheet] over the day blocks, block after block. *)
Lemma write_sheet_eq (ws : worksheet) (day_map : list (Z * Lerntag))
    (lf_sample : option Lernfeld) (doz_sample : option Dozent)
    (week_mon week_fri : date) (kw_number kw_year report_nr : Z) :
  let h1_value :=
    (("Woche vom " ++ strftime_dmY week_mon ++ " bis " ++ strftime_dmY week_fri)
     ++ match lf_sample with
        | Some lf => nl ++ lernfeld_id lf ++ " " ++ en_dash ++ " " ++ titel lf
        | None => ""
        end)%string in
  let doz_name := match doz_sample with
                  | Some d => full_name d
                  | None => ""
                  end in
  let w0 :=
    set_cell
      (set_cell (set_cell ws 1 4 (Text ("Nr. " ++ str_int report_nr)))
         1 6 (Text h1_value))
      2 6 (Text ("Ausbilder: " ++ doz_name)) in
  let acc :=
    fill_day day_map
      (fill_day day_map
         (fill_day day_map
            (fill_day day_map (fill_day day_map (w0, 0%Z) (0, 4)%Z) (1, 15)%Z)
            (2, 26)%Z)
         (3, 37)%Z)
      (4, 48)%Z in
  write_sheet ws day_map lf_sample doz_sample week_mon week_fri
    kw_number kw_year report_nr
  = set_title (set_cell (fst acc) 59 10 (Number (snd acc)))
      ("KW" ++ format_02d kw_number ++ " " ++ str_int kw_year).
Proof.
  cbv zeta. unfold write_sheet, _DAY_FIRST_ROW, _HOURS_COL.
  rewrite !fold_left_cons, fold_left_nil.
  destruct (fill_day day_map _ (4, 48)%Z) as [w t]. reflexivity.
Qed.

(** What [write_sheet] leaves in the cells. *)
Lemma write_sheet_spec (ws : worksheet) (day_map : list (Z * Lerntag))
    (lf_sample : option Lernfeld) (doz_sample : option Dozent)
    (week_mon week_fri : date) (kw_number kw_year report_nr : Z) :
  let out := write_sheet ws day_map lf_sample doz_sample week_mon week_fri
               kw_number kw_year report_nr in
  (forall r c,
     cell out r c
     = if total_cell r c then Number (total_units day_map)
       else if block_cell r c then
         match slot day_map r with
         | Some e => if (c =? 2)%Z then Text (inhalt e) else Number 1
         | None => cell ws r c
         end
       else if ((r =? 2) && (c =? 6))%Z then
         Text ("Ausbilder: " ++ match doz_sample with
                                | Some d => full_name d
                                | None => ""
                                end)
       else if ((r =? 1) && (c =? 6))%Z then
         Text (("Woche vom " ++ strftime_dmY week_mon ++ " bis "
                ++ strftime_dmY week_fri)
               ++ match lf_sample with
                  | Some lf => nl ++ lernfeld_id lf ++ " " ++ en_dash ++ " " ++ titel lf
                  | None => ""
                  end)
       else if ((r =? 1) && (c =? 4))%Z then Text ("Nr. " ++ str_int report_nr)
       else cell ws r c)
  /\ height out = height ws
  /\ title out = ("KW" ++ format_02d kw_number ++ " " ++ str_int kw_year)%string.
Proof.
  cbv zeta. rewrite write_sheet_eq. cbv zeta.
  set (h1 := Text (_ ++ match lf_sample with Some _ => _ | None => _ end)%string).
  set (tr := Text ("Ausbilder: " ++ _)%string).
  set (nr := Text ("Nr. " ++ _)%string).
  set (w0 := set_cell (set_cell (set_cell ws 1 4 nr) 1 6 h1) 2 6 tr).
  assert (C0 : forall r c,
            cell w0 r c
            = if ((r =? 2) && (c =? 6))%Z then tr
              else if ((r =? 1) && (c =? 6))%Z then h1
              else if ((r =? 1) && (c =? 4))%Z then nr else cell ws r c)
    by reflexivity.
  assert (H0 : height w0 = height ws) by reflexivity.
  clearbody w0 h1 tr nr.
  destruct (fill_day_spec day_map (w0, 0%Z) 0 4) as (S1 & C1 & H1 & _).
  set (a1 := fill_day day_map (w0, 0%Z) (0, 4)%Z) in *. clearbody a1.
  destruct (fill_day_spec day_map a1 1 15) as (S2 & C2 & H2 & _).
  set (a2 := fill_day day_map a1 (1, 15)%Z) in *. clearbody a2.
  destruct (fill_day_spec day_map a2 2 26) as (S3 & C3 & H3 & _).
  set (a3 := fill_day day_map a2 (2, 26)%Z) in *. clearbody a3.
  destruct (fill_day_spec day_map a3 3 37) as (S4 & C4 & H4 & _).
  set (a4 := fill_day day_map a3 (3, 37)%Z) in *. clearbody a4.
  destruct (fill_day_spec day_map a4 4 48) as (S5 & C5 & H5 & _).
  set (a5 := fill_day day_map a4 (4, 48)%Z) in *. clearbody a5.
  rewrite (surjective_pairing (w0, 0%Z)) in *.
  assert (Tot : snd a5 = total_units day_map).
  { unfold total_units. rewrite S5, S4, S3, S2, S1. cbn [fst snd]. lia. }
  split; [|split].
  - intros r c. rewrite cell_set_title, cell_set, Tot, C5, C4, C3, C2, C1.
    cbn [fst]. rewrite C0.
    unfold total_cell, block_cell.
    destruct (row_cases r) as [?|[?|[?|[?|[?|[?|[?|[?|[?|[?|?]]]]]]]]]];
      destruct (column_cases c) as [?|[?|[?|[?|?]]]];
      try rewrite (slot_block day_map 0 4 r) by lia;
      try rewrite (slot_block day_map 1 15 r) by lia;
      try rewrite (slot_block day_map 2 26 r) by lia;
      try rewrite (slot_block day_map 3 37 r) by lia;
      try rewrite (slot_block day_map 4 48 r) by lia;
      decide_cmp; cbn [andb orb]; reflexivity.
  - rewrite height_set_title, height_set_cell, H5, H4, H3, H2, H1. exact H0.
  - apply title_set_title.
Qed.

(** ** The map of the days, and the order of the units *)

Lemma find_app {A : Type} (p : A -> bool) (a b : list A) :
  find p (a ++ b) = match find p a with
                    | Some x => Some x
                    | None => find p b
                    end.
Proof.
  induction a as [|x a IH]; cbn; [reflexivity|]. destruct (p x); [reflexivity | exact IH].
Qed.

(** [day_map] holds, for a weekday from Monday to Friday, the last Lerntag
    of the list on that weekday. *)
Lemma day_map_spec (week_lerntage : list Lerntag) (day_idx : Z) :
  (0 <= day_idx <= 4)%Z ->
  dict_get Z.eqb (fold_left add_day week_lerntage []) day_idx
  = day_lerntag week_lerntage day_idx.
Proof.
  intros R. unfold day_lerntag.
  assert (G : forall l m,
            dict_get Z.eqb (fold_left add_day l m) day_idx
            = match find (fun lt => (weekday (datum lt) =? day_idx)%Z) (rev l) with
              | Some lt => Some lt
              | None => dict_get Z.eqb m day_idx
              end).
  { induction l as [|x l IH]; intros m; [reflexivity|].
    cbn [fold_left rev]. rewrite IH, find_app. cbn [find].
    destruct (find _ (rev l)) as [lt|]; [reflexivity|].
    unfold add_day.
    destruct (Z.eqb_spec (weekday (datum x)) day_idx) as [E|E].
    - rewrite E. decide_cmp. cbn [andb].
      apply (dict_get_set_same _ Z.eqb_eq).
    - destruct ((0 <=? weekday (datum x)) && (weekday (datum x) <=? 4))%Z;
        [|reflexivity].
      apply (dict_get_set_other _ Z.eqb_eq), E. }
  rewrite G. destruct (find _ _); reflexivity.
Qed.

Lemma insert_by_stunde_perm (e : Unterrichtseinheit) (l : list Unterrichtseinheit) :
  Permutation (insert_by_stunde e l) (e :: l).
Proof.
  induction l as [|x l IH]; cbn; [reflexivity|].
  destruct (stunde e <=? stunde x)%Z; [reflexivity|].
  rewrite IH. apply perm_swap.
Qed.

Lemma sorted_by_stunde_perm (l : list Unterrichtseinheit) :
  Permutation (sorted_by_stunde l) l.
Proof.
  induction l as [|x l IH]; cbn; [reflexivity|].
  rewrite insert_by_stunde_perm. constructor. exact IH.
Qed.

Lemma insert_by_stunde_sorted (e : Unterrichtseinheit) (l : list Unterrichtseinheit) :
  StronglySorted le_stunde l -> StronglySorted le_stunde (insert_by_stunde e l).
Proof.
  induction 1 as [|x l S IH F]; cbn; [repeat constructor|].
  destruct (Z.leb_spec (stunde e) (stunde x)) as [L|L].
  - constructor; [constructor; assumption|].
    constructor; [exact L|].
    eapply Forall_impl; [|exact F]. unfold le_stunde. intros; lia.
  - constructor; [exact IH|].
    assert (P : Forall (le_stunde x) (e :: l))
      by (constructor; [unfold le_stunde; lia | exact F]).
    rewrite Forall_forall in *. intros z Z. apply P.
    apply (Permutation_in _ (insert_by_stunde_perm e l)). exact Z.
Qed.

Lemma sorted_by_stunde_sorted (l : list Unterrichtseinheit) :
  StronglySorted le_stunde (sorted_by_stunde l).
Proof.
  induction l as [|x l IH]; cbn; [constructor|]. apply insert_by_stunde_sorted, IH.
Qed.

(** ** Counting the filled rows *)

Lemma count_slots {A : Type} (es : list A) (n : nat) :
  List.length
    (filter (fun k => match nth_error es k with Some _ => true | None => false end)
            (seq 0 n))
  = Nat.min n (List.length es).
Proof.
  induction n as [|n IH]; [reflexivity|].
  rewrite seq_S, filter_app, length_app, IH. cbn [filter Nat.add].
  destruct (nth_error es n) eqn:E; cbn [List.length].
  - assert (n < List.length es)%nat by (apply nth_error_Some; congruence). lia.
  - apply nth_error_None in E. lia.
Qed.

Lemma block_rows_split :
  block_rows
  = map (fun k => (4 + Z.of_nat k)%Z) (seq 0 11)
    ++ map (fun k => (15 + Z.of_nat k)%Z) (seq 0 11)
    ++ map (fun k => (26 + Z.of_nat k)%Z) (seq 0 11)
    ++ map (fun k => (37 + Z.of_nat k)%Z) (seq 0 11)
    ++ map (fun k => (48 + Z.of_nat k)%Z) (seq 0 11).
Proof. reflexivity. Qed.

Lemma count_block (day_map : list (Z * Lerntag)) (i first_row : Z) :
  first_row = (4 + 11 * i)%Z -> (0 <= i <= 4)%Z ->
  List.length
    (filter (fun r => match slot day_map r with Some _ => true | None => false end)
            (map (fun k => (first_row + Z.of_nat k)%Z) (seq 0 11)))
  = filled day_map i.
Proof.
  intros F I. unfold filled, _ROWS_PER_DAY.
  rewrite <- (count_slots (day_units day_map i) 11).
  assert (G : forall l, Forall (fun k => (k < 11)%nat) l ->
            List.length
              (filter (fun r => match slot day_map r with
                                | Some _ => true
                                | None => false
                                end)
                      (map (fun k => (first_row + Z.of_nat k)%Z) l))
            = List.length
                (filter (fun k => match nth_error (day_units day_map i) k with
                                  | Some _ => true
                                  | None => false
                                  end) l)).
  { induction 1 as [|k l K _ IH]; [reflexivity|]. cbn [map filter].
    rewrite (slot_block day_map i first_row) by lia.
    replace (first_row + Z.of_nat k - first_row)%Z with (Z.of_nat k) by lia.
    rewrite Nat2Z.id.
    destruct (nth_error (day_units day_map i) k); cbn [List.length]; rewrite IH;
      reflexivity. }
  apply G. apply Forall_forall. intros k K. apply in_seq in K. lia.
Qed.

Lemma count_rows (day_map : list (Z * Lerntag)) :
  Z.of_nat
    (List.length
       (filter (fun r => match slot day_map r with Some _ => true | None => false end)
               block_rows))
  = total_units day_map.
Proof.
  rewrite block_rows_split, !filter_app, !length_app.
  rewrite (count_block day_map 0 4), (count_block day_map 1 15),
    (count_block day_map 2 26), (count_block day_map 3 37),
    (count_block day_map 4 48) by lia.
  unfold total_units. f_equal. lia.
Qed.

(** ** The sheet of a week *)

Lemma slot_unit_at (week_lerntage : list Lerntag) (r : Z) :
  slot (fold_left add_day week_lerntage []) r = unit_at week_lerntage r.
Proof.
  unfold slot, unit_at, day_units.
  destruct ((4 <=? r) && (r <=? 58))%Z eqn:R; [|reflexivity].
  apply andb_true_iff in R. rewrite !Z.leb_le in R.
  rewrite day_map_spec by (Z.div_mod_to_equations; lia).
  destruct (day_lerntag week_lerntage ((r - 4) / 11)); [reflexivity|].
  destruct (Z.to_nat ((r - 4) mod 11)); reflexivity.
Qed.

(** [_fill_sheet] returns what [write_sheet] writes, or raises as
    [week_range] does. *)
Lemma fill_sheet_returns (ws out : worksheet) (week_lerntage : list Lerntag)
    (kw_number kw_year report_nr : Z) :
  _fill_sheet ws week_lerntage kw_number kw_year report_nr = Returns out ->
  exists week_mon week_fri,
    week_range kw_number kw_year = Returns (week_mon, week_fri)
    /\ out = write_sheet ws (fold_left add_day week_lerntage [])
               (first_some lernfeld week_lerntage) (first_some dozent week_lerntage)
               week_mon week_fri kw_number kw_year report_nr.
Proof.
  unfold _fill_sheet. destruct (week_range kw_number kw_year) as [[m f]|e];
    cbn [and_then fst snd]; [|discriminate].
  intros H. inversion H. eauto.
Qed.

(** X18: a sheet filled after [_clear_data_cells] keeps the cells of the
    template outside the data cells (D1, F1, F2, columns B and J of rows 4
    to 58, J59), has no height of its own on rows 4 to 58 and the title
    "KWww yyyy"; its data cells do not depend on the template, and whether
    [_fill_sheet] returns does not either. *)
Theorem fill_cleared_sheet (ws out : worksheet) (week_lerntage : list Lerntag)
    (kw_number kw_year report_nr : Z) :
  _fill_sheet (_clear_data_cells ws) week_lerntage kw_number kw_year report_nr
  = Returns out ->
  (forall r c, data_cell r c = false -> cell out r c = cell ws r c)
  /\ (forall r, height out r = if ((4 <=? r) && (r <=? 58))%Z then None else height ws r)
  /\ title out = ("KW" ++ format_02d kw_number ++ " " ++ str_int kw_year)%string
  /\ (forall ws', exists out',
        _fill_sheet (_clear_data_cells ws') week_lerntage kw_number kw_year report_nr
        = Returns out'
        /\ forall r c, data_cell r c = true -> cell out' r c = cell out r c).
Proof.
  intros H. destruct (fill_sheet_returns _ _ _ _ _ _ H) as (m & f & W & ->).
  assert (Cells : forall w r c,
            cell (write_sheet (_clear_data_cells w) (fold_left add_day week_lerntage [])
                    (first_some lernfeld week_lerntage)
                    (first_some dozent week_lerntage) m f kw_number kw_year report_nr)
                 r c
            = if data_cell r c then
                cell (write_sheet (_clear_data_cells ws)
                        (fold_left add_day week_lerntage [])
                        (first_some lernfeld week_lerntage)
                        (first_some dozent week_lerntage) m f kw_number kw_year
                        report_nr) r c
              else cell w r c).
  { intros w r c.
    rewrite !(proj1 (write_sheet_spec _ _ _ _ _ _ _ _ _)).
    rewrite !(proj1 (clear_data_cells_spec _)).
    unfold data_cell, header_cell, total_cell, block_cell.
    destruct (row_cases r) as [?|[?|[?|[?|[?|[?|[?|[?|[?|[?|?]]]]]]]]]];
      destruct (column_cases c) as [?|[?|[?|[?|?]]]];
      decide_cmp; cbn [andb orb]; reflexivity. }
  split; [|split; [|split]].
  - intros r c D. rewrite Cells, D. reflexivity.
  - intros r. rewrite (proj1 (proj2 (write_sheet_spec _ _ _ _ _ _ _ _ _))).
    apply clear_data_cells_spec.
  - apply write_sheet_spec.
  - intros ws'. eexists. split.
    + unfold _fill_sheet. rewrite W. cbn [and_then fst snd]. reflexivity.
    + intros r c D. rewrite Cells, D. reflexivity.
Qed.

(** X19: in a sheet filled after [_clear_data_cells], row [r] of the day
    blocks (4 to 58) belongs to weekday (r - 4) / 11 and to position
    (r - 4) mod 11: column B holds the [inhalt] and column J a 1 for the
    unit at that position, by ascending [stunde], of the last Lerntag of
    the list on that weekday, and both cells are empty when there is no
    such unit; a day block shows no unit beyond the eleventh of its day and
    none of a Lerntag on a Saturday or Sunday.  The order by [stunde] is a
    sorted permutation of the units. *)
Theorem fill_day_blocks (ws out : worksheet) (week_lerntage : list Lerntag)
    (kw_number kw_year report_nr : Z) :
  _fill_sheet (_clear_data_cells ws) week_lerntage kw_number kw_year report_nr
  = Returns out ->
  (forall r, (4 <= r <= 58)%Z ->
     cell out r 2 = match unit_at week_lerntage r with
                    | Some e => Text (inhalt e)
                    | None => Empty
                    end
     /\ cell out r 10 = match unit_at week_lerntage r with
                        | Some _ => Number 1
                        | None => Empty
                        end)
  /\ (forall lt, Permutation (sorted_by_stunde (einheiten lt)) (einheiten lt)
                 /\ StronglySorted le_stunde (sorted_by_stunde (einheiten lt))).
Proof.
  intros H. destruct (fill_sheet_returns _ _ _ _ _ _ H) as (m & f & W & ->).
  split; [|intros lt; split; [apply sorted_by_stunde_perm | apply sorted_by_stunde_sorted]].
  intros r R.
  rewrite !(proj1 (write_sheet_spec _ _ _ _ _ _ _ _ _)).
  rewrite !(proj1 (clear_data_cells_spec _)).
  rewrite slot_unit_at.
  unfold data_cell, header_cell, total_cell, block_cell.
  decide_cmp. cbn [andb orb].
  destruct (unit_at week_lerntage r); split; reflexivity.
Qed.

(** X20: in a sheet filled after [_clear_data_cells], the total in J59 is
    the number of rows of the day blocks whose column J holds 1, at most
    55. *)
Theorem fill_total_hours (ws out : worksheet) (week_lerntage : list Lerntag)
    (kw_number kw_year report_nr : Z) :
  _fill_sheet (_clear_data_cells ws) week_lerntage kw_number kw_year report_nr
  = Returns out ->
  let hours := filter (fun r => is_one (cell out r 10)) block_rows in
  cell out 59 10 = Number (Z.of_nat (List.length hours))
  /\ (List.length hours <= 55)%nat.
Proof.
  intros H. destruct (fill_sheet_returns _ _ _ _ _ _ H) as (m & f & W & ->).
  cbv zeta.
  set (dm := fold_left add_day week_lerntage []).
  assert (E : filter (fun r => is_one (cell (write_sheet (_clear_data_cells ws) dm
                 (first_some lernfeld week_lerntage) (first_some dozent week_lerntage)
                 m f kw_number kw_year report_nr) r 10)) block_rows
              = filter (fun r => match slot dm r with Some _ => true | None => false end)
                       block_rows).
  { apply filter_ext_in. intros r I. unfold block_rows in I.
    apply in_map_iff in I. destruct I as (k & <- & K). apply in_seq in K.
    rewrite (proj1 (write_sheet_spec _ _ _ _ _ _ _ _ _)).
    rewrite (proj1 (clear_data_cells_spec _)).
    unfold data_cell, header_cell, total_cell, block_cell.
    decide_cmp. cbn [andb orb]. destruct (slot dm _); reflexivity. }
  rewrite E. split.
  - rewrite count_rows, (proj1 (write_sheet_spec _ _ _ _ _ _ _ _ _)).
    unfold total_cell. cbn. reflexivity.
  - pose proof (count_rows dm) as C. unfold total_units, filled, _ROWS_PER_DAY in C. lia.
Qed.

(** ** Weeks and files *)

(** X15: [group_by_calendar_week] returns the weeks in strictly ascending
    order of their keys; the group of a key holds exactly the Lerntage of
    the list with that key, in the order of the list, and a key without
    Lerntag has no group; so every Lerntag is in the group of its own
    [year_week]. *)
Theorem group_by_calendar_week_spec (lerntage : list Lerntag) :
  let groups := group_by_calendar_week lerntage in
  StronglySorted key_lt groups
  /\ (forall key, dict_get String.eqb groups key = group_of key lerntage)
  /\ (forall lt, In lt lerntage ->
        exists members, dict_get String.eqb groups (year_week lt) = Some members
                        /\ In lt members).
Proof.
  destruct (group_by_calendar_week_facts lerntage) as (S & _ & G).
  split; [exact S|]. split; [exact G|].
  intros lt I. cbv zeta. rewrite G. unfold group_of.
  assert (M : In lt (members_of (year_week lt) lerntage)).
  { apply filter_In. split; [exact I | apply String.eqb_refl]. }
  destruct (members_of (year_week lt) lerntage) as [|x l]; [destruct M|]. eauto.
Qed.

(** X16: for the ISO week and year of any date, [week_range] returns, without
    raising, the Monday and the Friday of the date's own week: the Monday
    is the date minus its [weekday()] days, the Friday four days later, and
    the date lies within the seven days from that Monday. *)
Theorem week_range_of_date (d : date) :
  valid d ->
  exists week_mon week_fri,
    week_range (snd (fst (isocalendar d))) (fst (fst (isocalendar d)))
    = Returns (week_mon, week_fri)
    /\ valid week_mon /\ valid week_fri
    /\ toordinal week_mon = monday_of d /\ weekday week_mon = 0%Z
    /\ toordinal week_fri = (monday_of d + 4)%Z /\ weekday week_fri = 4%Z
    /\ (monday_of d <= toordinal d <= monday_of d + 6)%Z.
Proof.
  intros V. destruct (week_of_date d V) as (W & L & U). cbv zeta in *.
  fold (monday_of d) in *.
  destruct (fromordinal_valid (monday_of d)) as (TM & VM); [lia|].
  destruct (fromordinal_valid (monday_of d + 4)) as (TF & VF); [unfold _MAXORDINAL in *; lia|].
  exists (fromordinal (monday_of d)), (fromordinal (monday_of d + 4)).
  split; [exact W|]. split; [exact VM|]. split; [exact VF|].
  split; [exact TM|].
  unfold weekday at 1 2. rewrite TM, TF.
  unfold monday_of, weekday. repeat split; Z.div_mod_to_equations; lia.
Qed.

(** The key of a week read back. *)
Lemma year_week_parse (lt : Lerntag) :
  valid (datum lt) ->
  split "-KW" (year_week lt) = [str_int (iso_year lt); format_02d (calendar_week lt)]
  /\ int (str_int (iso_year lt)) = Returns (iso_year lt)
  /\ int (format_02d (calendar_week lt)) = Returns (calendar_week lt).
Proof.
  intros V. pose proof (isocalendar_spec _ V) as S.
  unfold year_week, iso_year, calendar_week.
  destruct (isocalendar (datum lt)) as [[y w] wd]. cbn [fst snd].
  destruct S as (_ & _ & W & Y).
  destruct (str_int_read y) as (DY & IY); [lia|].
  destruct (format_02d_read w) as (DW & IW); [lia|].
  split; [apply split_key; assumption | auto].
Qed.

(** X17: two Lerntage have the same [year_week] exactly when they have
    the same ISO year and week number, and exactly when their dates have
    the same Monday: the key neither merges two weeks nor splits one. *)
Theorem year_week_same (a b : Lerntag) :
  valid (datum a) -> valid (datum b) ->
  (year_week a = year_week b
   <-> iso_year a = iso_year b /\ calendar_week a = calendar_week b)
  /\ (year_week a = year_week b <-> monday_of (datum a) = monday_of (datum b)).
Proof.
  intros VA VB.
  assert (E : year_week a = year_week b
              <-> iso_year a = iso_year b /\ calendar_week a = calendar_week b).
  { split.
    - intros K. destruct (year_week_parse a VA) as (SA & YA & WA).
      destruct (year_week_parse b VB) as (SB & YB & WB).
      rewrite K, SB in SA. inversion SA as [[Y W]].
      rewrite <- Y in YA. rewrite <- W in WA. split; congruence.
    - unfold year_week. intros [-> ->]. reflexivity. }
  split; [exact E|]. rewrite E. split.
  - intros [Y W].
    pose proof (isocalendar_spec _ VA) as SA. pose proof (isocalendar_spec _ VB) as SB.
    unfold iso_year, calendar_week, monday_of in *.
    destruct (isocalendar (datum a)) as [[ya wa] da].
    destruct (isocalendar (datum b)) as [[yb wb] db].
    cbn [fst snd] in *. subst yb wb. lia.
  - intros M. pose proof (isocalendar_monday _ _ VA VB M) as F.
    unfold iso_year, calendar_week. rewrite F. auto.
Qed.

(** Two Lerntage with the same key have the same ISO year and week. *)
Lemma year_week_numbers (a b : Lerntag) :
  valid (datum a) -> valid (datum b) -> year_week a = year_week b ->
  iso_year a = iso_year b /\ calendar_week a = calendar_week b.
Proof.
  intros VA VB K. destruct (year_week_parse a VA) as (SA & YA & WA).
  destruct (year_week_parse b VB) as (SB & YB & WB).
  rewrite K, SB in SA. inversion SA as [[Y W]].
  rewrite <- Y in YA. rewrite <- W in WA. split; congruence.
Qed.

(** On the Lerntage of one week, with the numbers of any of them,
    [_fill_sheet] returns the sheet of the week. *)
Lemma fill_week_sheet (ws : worksheet) (members : list Lerntag) (nr : Z) (lt : Lerntag) :
  Forall (fun x => valid (datum x) /\ year_week x = year_week lt) members ->
  In lt members ->
  _fill_sheet (_clear_data_cells ws) members (calendar_week lt) (iso_year lt) nr
  = Returns (week_sheet ws members nr).
Proof.
  intros F I. destruct members as [|h rest]; [destruct I|].
  pose proof (Forall_inv F) as (VH & KH).
  rewrite Forall_forall in F. destruct (F lt I) as (VL & _).
  destruct (year_week_numbers h lt VH VL KH) as (Y & W).
  unfold week_sheet. rewrite Y, W.
  destruct (week_of_date _ VL) as (R & _). unfold _fill_sheet.
  unfold calendar_week, iso_year. rewrite R. reflexivity.
Qed.

Lemma path_join_week (output_dir key : string) :
  path_join output_dir ("berichtsheft_" ++ key ++ ".xlsx") = week_path output_dir key.
Proof.
  unfold path_join, week_path.
  change (String.prefix "/" ("berichtsheft_" ++ key ++ ".xlsx")) with false. cbv iota.
  destruct (String.eqb output_dir "" || ends_with_sep output_dir); reflexivity.
Qed.

Section FileFacts.
Context {FS : Type}.
Variable isfile : FS -> string -> bool.
Variable makedirs : FS -> string -> FS * option error.
Variable copy2 : FS -> string -> string -> FS * option error.
Variable load_workbook : FS -> string -> outcome worksheet.
Variable save : FS -> worksheet -> string -> FS * option error.

Local Abbreviation create := (create_berichtsheft isfile copy2 load_workbook save).
Local Abbreviation create_all :=
  (create_all_berichtshefte isfile makedirs copy2 load_workbook save).

(** The members of the group of a key of the data. *)
Lemma group_members (lerntage : list Lerntag) (lt : Lerntag) :
  Forall (fun x => valid (datum x)) lerntage -> In lt lerntage ->
  let members := members_of (year_week lt) lerntage in
  dict_get String.eqb (group_by_calendar_week lerntage) (year_week lt) = Some members
  /\ In lt members
  /\ Forall (fun x => valid (datum x) /\ year_week x = year_week lt) members.
Proof.
  intros V I members.
  destruct (group_by_calendar_week_facts lerntage) as (_ & _ & G).
  assert (M : In lt members).
  { apply filter_In. split; [exact I | apply String.eqb_refl]. }
  split; [|split; [exact M|]].
  - cbv zeta in G. rewrite G. unfold group_of. fold members.
    destruct members; [destruct M | reflexivity].
  - apply Forall_forall. intros x X. apply filter_In in X. destruct X as [X K].
    rewrite Forall_forall in V. split; [apply V, X|].
    apply String.eqb_eq in K. exact K.
Qed.

(** [create_berichtsheft] on the key of a Lerntag of the data: the
    computations of the program raise nothing, the file operations are
    left. *)
Lemma create_for_key (fs : FS) (lerntage : list Lerntag) (lt : Lerntag)
    (output_path : string) (report_nr : Z) (template_path : string) :
  Forall (fun x => valid (datum x)) lerntage -> In lt lerntage ->
  create fs lerntage (year_week lt) output_path report_nr template_path
  = write_week isfile copy2 load_workbook save fs template_path output_path
      (members_of (year_week lt) lerntage) report_nr.
Proof.
  intros V I. destruct (group_members lerntage lt V I) as (G & M & F).
  rewrite Forall_forall in V.
  destruct (year_week_parse lt (V lt I)) as (S & Y & W).
  unfold create_berichtsheft, write_week. rewrite S, W, Y, G.
  destruct (isfile fs template_path); [|reflexivity]. cbn [negb].
  destruct (copy2 fs template_path output_path) as [fs1 [e|]]; [reflexivity|].
  destruct (load_workbook fs1 output_path) as [ws|e]; [|reflexivity].
  rewrite (fill_week_sheet ws _ report_nr lt F M). reflexivity.
Qed.


(** The loop of [create_all_berichtshefte]. *)
Lemma export_weeks_ok (lerntage : list Lerntag) (output_dir template_path : string)
    (weeks : list (string * list Lerntag)) (fs : FS) (nr : Z) :
  Forall (fun x => valid (datum x)) lerntage ->
  (forall key members, In (key, members) weeks ->
     exists lt, In lt lerntage /\ key = year_week lt
                /\ members = members_of key lerntage) ->
  export_weeks isfile copy2 load_workbook save fs lerntage output_dir template_path
    nr weeks
  = write_weeks isfile copy2 load_workbook save fs output_dir template_path nr weeks.
Proof.
  intros V. revert fs nr.
  induction weeks as [|[key members] weeks IH]; intros fs nr K; [reflexivity|].
  destruct (K key members (or_introl eq_refl)) as (lt & I & -> & ->).
  cbn [export_weeks write_weeks].
  rewrite path_join_week, (create_for_key _ _ _ _ _ _ V I).
  destruct (write_week _ _ _ _ _ _ _ _ _) as [fs1 [u|e]]; [|reflexivity].
  apply IH. intros k m X. apply K. right. exact X.
Qed.

End FileFacts.

(** ** The properties on the sample data *)

Lemma week_range_of_date_witness :
  exists week_mon week_fri,
    week_range 10 2024 = Returns (week_mon, week_fri)
    /\ toordinal week_mon = 738949%Z /\ weekday week_fri = 4%Z.
Proof.
  destruct (week_range_of_date {| year := 2024; month := 3; day := 5 |} eq_refl)
    as (m & f & W & _ & _ & M & _ & _ & F & _).
  exists m, f. split; [exact W|]. split; [exact M | exact F].
Defined.

Lemma year_week_same_witness :
  year_week {| lerntag_id := 1; datum := {| year := 2024; month := 12; day := 30 |};
               lernfeld := None; dozent := None; einheiten := [] |}
  = year_week {| lerntag_id := 2; datum := {| year := 2025; month := 1; day := 5 |};
                 lernfeld := None; dozent := None; einheiten := [] |}.
Proof.
  apply (proj2 (year_week_same
                  {| lerntag_id := 1; datum := {| year := 2024; month := 12; day := 30 |};
                     lernfeld := None; dozent := None; einheiten := [] |}
                  {| lerntag_id := 2; datum := {| year := 2025; month := 1; day := 5 |};
                     lernfeld := None; dozent := None; einheiten := [] |}
                  eq_refl eq_refl)).
  vm_compute. reflexivity.
Defined.

Lemma fill_cleared_sheet_witness :
  cell sheet_example 3 2 = cell template_example 3 2
  /\ title sheet_example = "KW10 2024".
Proof.
  assert (H : _fill_sheet (_clear_data_cells template_example) lerntage_example 10 2024 7
              = Returns sheet_example).
  { unfold _fill_sheet.
    replace (week_range 10 2024)
      with (Returns ({| year := 2024; month := 3; day := 4 |},
                     {| year := 2024; month := 3; day := 8 |}))
      by (vm_compute; reflexivity).
    reflexivity. }
  destruct (fill_cleared_sheet template_example sheet_example lerntage_example
              10 2024 7 H) as (C & _ & T & _).
  split; [apply C; reflexivity | exact T].
Defined.

Lemma fill_day_blocks_witness :
  cell sheet_example 15 2
  = match unit_at lerntage_example 15 with
    | Some e => Text (inhalt e)
    | None => Empty
    end.
Proof.
  assert (H : _fill_sheet (_clear_data_cells template_example) lerntage_example 10 2024 7
              = Returns sheet_example).
  { unfold _fill_sheet.
    replace (week_range 10 2024)
      with (Returns ({| year := 2024; month := 3; day := 4 |},
                     {| year := 2024; month := 3; day := 8 |}))
      by (vm_compute; reflexivity).
    reflexivity. }
  apply (proj1 (fill_day_blocks template_example sheet_example lerntage_example
                  10 2024 7 H) 15%Z).
  lia.
Defined.

Lemma fill_total_hours_witness :
  cell sheet_example 59 10
  = Number (Z.of_nat (List.length
                        (filter (fun r => is_one (cell sheet_example r 10)) block_rows))).
Proof.
  assert (H : _fill_sheet (_clear_data_cells template_example) lerntage_example 10 2024 7
              = Returns sheet_example).
  { unfold _fill_sheet.
    replace (week_range 10 2024)
      with (Returns ({| year := 2024; month := 3; day := 4 |},
                     {| year := 2024; month := 3; day := 8 |}))
      by (vm_compute; reflexivity).
    reflexivity. }
  apply (fill_total_hours template_example sheet_example lerntage_example 10 2024 7 H).
Defined.


